(** * svg-icons-cli: the sprite build pipeline of [src/index.js]

    A shallow embedding of the [build] command: file discovery, the
    up-to-date short-circuit, [generateSvgSprite], [writeIfChanged], the
    type manifest and the README.

    Strings are sequences of bytes (the UTF-8 text Node reads and writes
    with the utf8 encoding).  The file system is a finite map from
    absolute paths to file contents together with the set of existing
    directories.  Code of packages outside the repository (glob,
    node-html-parser's parser and selector engine, svgo, the locale's
    collation) is a field of the class [Externals]; the element methods
    the build calls, with their quoting of attribute values, are written
    out. *)

From Stdlib Require Import ZArith Ascii String List Permutation Sorted Lia.
From stdpp Require Import base strings option list gmap.

Local Open Scope Z_scope.

(** ** ECMAScript string built-ins used by the program *)

Definition dq : string := String "034"%char EmptyString.
Definition nl : string := String "010"%char EmptyString.
Definition tab : string := String "009"%char EmptyString.
Definition cr : string := String "013"%char EmptyString.
Definition backslash : ascii := "092"%char.

Definition str_rev (s : string) : string :=
  string_of_list_ascii (List.rev (list_ascii_of_string s)).

Fixpoint str_drop (n : nat) (s : string) : string :=
  match n, s with
  | S n', String _ s' => str_drop n' s'
  | _, _ => s
  end.

(** [s.includes(sub)]: [sub] occurs in [s] at some position. *)
Fixpoint includes (s sub : string) : bool :=
  String.prefix sub s ||
  match s with
  | EmptyString => false
  | String _ s' => includes s' sub
  end.

(** [array.join(sep)] on an array of strings. *)
Fixpoint array_join (sep : string) (l : list string) : string :=
  match l with
  | [] => EmptyString
  | [x] => x
  | x :: rest => x +:+ sep +:+ array_join sep rest
  end.

(** The UTF-8 encodings of ECMAScript's WhiteSpace and LineTerminator code
    points, the ones [String.prototype.trim] strips: U+0009..U+000D, U+0020,
    U+00A0, U+1680, U+2000..U+200A, U+2028, U+2029, U+202F, U+205F, U+3000
    and U+FEFF. *)
Definition bytes (l : list nat) : string :=
  string_of_list_ascii (List.map ascii_of_nat l).

Definition white_space : list string :=
  List.map bytes
    [ [9]; [10]; [11]; [12]; [13]; [32]; [194; 160]; [225; 154; 128];
      [226; 128; 128]; [226; 128; 129]; [226; 128; 130]; [226; 128; 131];
      [226; 128; 132]; [226; 128; 133]; [226; 128; 134]; [226; 128; 135];
      [226; 128; 136]; [226; 128; 137]; [226; 128; 138]; [226; 128; 168];
      [226; 128; 169]; [226; 128; 175]; [226; 129; 159]; [227; 128; 128];
      [239; 187; 191] ]%nat.

(** The rest of [s] after one leading member of [seqs], if there is one. *)
Fixpoint strip_one (seqs : list string) (s : string) : option string :=
  match seqs with
  | [] => None
  | w :: seqs' =>
      if String.prefix w s then Some (str_drop (String.length w) s)
      else strip_one seqs' s
  end.

Fixpoint strip_all (fuel : nat) (seqs : list string) (s : string) : string :=
  match fuel with
  | O => s
  | S fuel' =>
      match strip_one seqs s with
      | Some s' => strip_all fuel' seqs s'
      | None => s
      end
  end.

Definition trimStart (s : string) : string :=
  strip_all (String.length s) white_space s.

Definition trimEnd (s : string) : string :=
  str_rev (strip_all (String.length s) (List.map str_rev white_space) (str_rev s)).

(** [s.trim()] *)
Definition trim (s : string) : string := trimEnd (trimStart s).

(** [JSON.stringify] on a string (QuoteJSONString): the text between double
    quotes, with the quote, the backslash and the control characters
    escaped. *)
Definition hex_digit (n : nat) : ascii :=
  ascii_of_nat (if Nat.ltb n 10 then 48 + n else 87 + n)%nat.

Definition json_escape (c : ascii) : string :=
  let n := nat_of_ascii c in
  if Nat.eqb n 34 then String backslash dq
  else if Nat.eqb n 92 then String backslash (String backslash EmptyString)
  else if Nat.eqb n 8 then String backslash "b"
  else if Nat.eqb n 9 then String backslash "t"
  else if Nat.eqb n 10 then String backslash "n"
  else if Nat.eqb n 12 then String backslash "f"
  else if Nat.eqb n 13 then String backslash "r"
  else if Nat.ltb n 32 then
    String backslash ("u00" +:+
      String (hex_digit (Nat.div n 16)) (String (hex_digit (Nat.modulo n 16)) EmptyString))
  else String c EmptyString.

Fixpoint json_body (s : string) : string :=
  match s with
  | EmptyString => EmptyString
  | String c s' => json_escape c +:+ json_body s'
  end.

Definition JSON_stringify (s : string) : string := dq +:+ json_body s +:+ dq.

(** [iconName(file)] is [file.replace(/\.svg$/, empty)]: the regular
    expression is searched from the left and matches only where the four
    characters [.svg] are all that remains. *)
Fixpoint iconName (file : string) : string :=
  match file with
  | EmptyString => EmptyString
  | String c rest =>
      if String.eqb file ".svg" then EmptyString else String c (iconName rest)
  end.

(** [s.toLowerCase()] on the ASCII letters (bytes of other code points are
    kept as they are). *)
Definition lower_ascii (c : ascii) : ascii :=
  let n := nat_of_ascii c in
  if (Nat.leb 65 n && Nat.leb n 90)%bool then ascii_of_nat (n + 32) else c.

Fixpoint toLowerCase (s : string) : string :=
  match s with
  | EmptyString => EmptyString
  | String c s' => String (lower_ascii c) (toLowerCase s')
  end.

(** [s.replace(/c/g, rep)] for a one-character pattern, and
    [s.replace(/\\x/g, rep)] for a backslash followed by [x]. *)
Fixpoint replace_char (c : ascii) (rep : string) (s : string) : string :=
  match s with
  | EmptyString => EmptyString
  | String a s' =>
      if Ascii.eqb a c then rep +:+ replace_char c rep s'
      else String a (replace_char c rep s')
  end.

Fixpoint replace_escape (x : ascii) (rep : string) (s : string) : string :=
  match s with
  | EmptyString => EmptyString
  | String a s' =>
      match s' with
      | String b s'' =>
          if (Ascii.eqb a backslash && Ascii.eqb b x)%bool
          then rep +:+ replace_escape x rep s''
          else String a (replace_escape x rep s')
      | EmptyString => String a EmptyString
      end
  end.

(** [Array.prototype.sort(comparefn)]: a stable sort; [x] is placed before
    the first element it does not compare greater than. *)
Section Sort.
Context {A : Type} (comparefn : A -> A -> Z).

Fixpoint sort_insert (x : A) (l : list A) : list A :=
  match l with
  | [] => [x]
  | y :: l' => if comparefn x y <=? 0 then x :: y :: l' else y :: sort_insert x l'
  end.

Definition array_sort (l : list A) : list A := foldr sort_insert [] l.
End Sort.

(** ** The element object of node-html-parser

    The build touches one element per file: the one [querySelector] finds
    for the selector [svg].  Its raw tag name, its attributes in source
    order (the keys of the [rawAttributes] object, which are ASCII names),
    the attribute text [rawAttrs] it serialises with, and the serialisation
    of its children. *)
Record HTMLElement := mkElement {
  rawTagName : string;
  rawAttrs : string;
  rawAttributes : list (string * string);
  innerHTML : string
}.

(** ** Paths

    Directories are held the way [path.join(cwd, dir)] returns them:
    absolute, normalised, without a trailing separator (the root directory
    is the empty string), so that joining a directory and a relative path
    is concatenation around one separator. *)
Definition path_join (dir name : string) : string := dir +:+ "/" +:+ name.

(** [path.dirname(p)]: what precedes the last separator. *)
Fixpoint dirname (p : string) : string :=
  match p with
  | EmptyString => EmptyString
  | String c rest =>
      if includes rest "/" then String c (dirname rest) else EmptyString
  end.

(** The directory [p] and all the directories above it, the root first. *)
Fixpoint ancestors_from (acc p : string) : list string :=
  match p with
  | EmptyString => [acc]
  | String c rest =>
      (if Ascii.eqb c "/" then [acc] else [])
        ++ ancestors_from (acc +:+ String c EmptyString) rest
  end.

Definition ancestors (p : string) : list string := ancestors_from EmptyString p.

(** ** The process and its file system *)

Inductive error :=
  | FsError (code path : string)
  | JsError (msg : string).

(** What the build prints.  [SavedTo] and [ManifestSavedTo] carry the
    absolute path; the program prints it relative to the working
    directory. *)
Inductive message :=
  | NoSvgFilesFound (inputDirRelative : string)
  | IconsUpToDate
  | GeneratingSprite (inputDirRelative : string)
  | Processed (file : string)
  | SavedTo (path : string)
  | ManifestSavedTo (path : string)
  | GeneratedIcons (n : nat).

(** What a run does that can be observed from outside. *)
Inductive event :=
  | Cancel (m : message)
  | Info (m : message)
  | Mkdir (dir : string)
  | Parse (input : string)
  | WriteFile (path content : string).

Definition is_write (e : event) : bool :=
  match e with WriteFile _ _ => true | _ => false end.

Definition is_parse (e : event) : bool :=
  match e with Parse _ => true | _ => false end.

Definition is_mkdir (e : event) : bool :=
  match e with Mkdir _ => true | _ => false end.

(** The file system: the text of every file and the existing directories. *)
Record state := mkState {
  contents : gmap string string;
  directories : gset string
}.

Inductive outcome (A : Type) :=
  | Returned (a : A)
  | Thrown (e : error)
  | Exited (code : Z).
Arguments Returned {A} a.
Arguments Thrown {A} e.
Arguments Exited {A} code.

(** A run of a computation: how it ended, the file system it left and the
    events it produced, in order. *)
Record run (A : Type) := mkRun {
  value : outcome A;
  after : state;
  events : list event
}.
Arguments mkRun {A} value after events.
Arguments value {A} r.
Arguments after {A} r.
Arguments events {A} r.

Definition IO (A : Type) : Type := state -> run A.

Definition ret {A} (a : A) : IO A := fun w => mkRun (Returned a) w [].

Definition bind {A B} (c : IO A) (k : A -> IO B) : IO B :=
  fun w =>
    match c w with
    | mkRun (Returned a) w' ev =>
        let r := k a w' in mkRun (value r) (after r) (ev ++ events r)
    | mkRun (Thrown e) w' ev => mkRun (Thrown e) w' ev
    | mkRun (Exited n) w' ev => mkRun (Exited n) w' ev
    end.

Notation "'let*' x ':=' c 'in' k" := (bind c (fun x => k))
  (at level 10, x name, c at level 100, k at level 200).
Notation "c ';;' k" := (bind c (fun _ => k))
  (at level 100, k at level 200, right associativity).

Definition throw {A} (e : error) : IO A := fun w => mkRun (Thrown e) w [].

(** [process.exit(code)] *)
Definition process_exit {A} (code : Z) : IO A := fun w => mkRun (Exited code) w [].

(** [promise.catch(() => fallback)] *)
Definition catch {A} (c : IO A) (fallback : A) : IO A :=
  fun w =>
    match c w with
    | mkRun (Thrown _) w' ev => mkRun (Returned fallback) w' ev
    | r => r
    end.

Definition emit (e : event) : IO unit := fun w => mkRun (Returned tt) w [e].

(** [Promise.all(xs.map(f))]: the results in the order of [xs].  The tasks
    only read; they are run here one after the other in the order of [xs],
    which is one of the schedules of the program: when a task fails, which
    of the failures is reported and which of the other tasks have run is
    not fixed by the program, and no property below speaks of it. *)
Fixpoint promise_all_map {A B} (f : A -> IO B) (xs : list A) : IO (list B) :=
  match xs with
  | [] => ret []
  | x :: xs' =>
      let* y := f x in
      let* ys := promise_all_map f xs' in
      ret (y :: ys)
  end.

(** [for (const x of xs) body(x)] *)
Fixpoint for_of {A} (xs : list A) (body : A -> IO unit) : IO unit :=
  match xs with
  | [] => ret tt
  | x :: xs' => body x ;; for_of xs' body
  end.

(** [fs.readFile(path, utf8)] *)
Definition readFile (path : string) : IO string :=
  fun w =>
    match contents w !! path with
    | Some text => mkRun (Returned text) w []
    | None => mkRun (Thrown (FsError "ENOENT" path)) w []
    end.

(** [fs.writeFile(path, content, utf8)]: fails on a directory and where the
    parent directory is missing. *)
Definition writeFile (path content : string) : IO unit :=
  fun w =>
    if bool_decide (path ∈ directories w) then
      mkRun (Thrown (FsError "EISDIR" path)) w []
    else if bool_decide (dirname path ∈ directories w) then
      mkRun (Returned tt)
            (mkState (<[path := content]> (contents w)) (directories w))
            [WriteFile path content]
    else mkRun (Thrown (FsError "ENOENT" path)) w [].

(** [mkdirSync(dir, { recursive: true })]: creates [dir] and the missing
    directories above it; fails where one of them is a file. *)
Definition mkdirSync (dir : string) : IO unit :=
  fun w =>
    if existsb (fun a => bool_decide (is_Some (contents w !! a))) (ancestors dir)
    then mkRun (Thrown (FsError "EEXIST" dir)) w []
    else
      mkRun (Returned tt)
            (mkState (contents w) (directories w ∪ list_to_set (ancestors dir)))
            [Mkdir dir].

(** ** Packages outside the repository *)

Class Externals := {
  (** [glob.sync] of the pattern [**/*.svg] under a directory: the matching
      paths relative to that directory *)
  glob_sync : state -> string -> list string;
  (** [a.localeCompare(b)] *)
  localeCompare : string -> string -> Z;
  (** node-html-parser: [parse(input)] and [root.querySelector(selector)] *)
  document : Type;
  parse : string -> document;
  querySelector : document -> string -> option HTMLElement;
  (** svgo: [optimize(output, (await loadConfig()) || undefined).data], or
      the error it throws *)
  optimize : string -> error + string
}.

Record config := mkConfig {
  inputDir : string;
  inputDirRelative : string;
  outputDir : string;
  spriteDir : string;
  shouldOptimize : bool;
  verbose : bool
}.

(** ** The methods of the element the build calls *)

(** [quoteAttribute(attr)], the text an element writes for the value of an
    attribute when it rebuilds its attribute text: [JSON.stringify] of
    [attr] with each double quote replaced by the entity [&quot;], then
    with the escapes of tab, newline and carriage return turned back and
    every other backslash dropped. *)
Definition quoteAttribute (attr : string) : string :=
  replace_char backslash EmptyString
    (replace_escape "r" cr
      (replace_escape "n" nl
        (replace_escape "t" tab
          (JSON_stringify (replace_char "034" "&quot;" attr))))).

Section Element.
Context `{Externals}.

(** The attribute text rebuilt from the attribute object:
    the [name=value] texts of [Object.keys(attrs)] joined by a space. *)
Definition attr_text (kv : string * string) : string :=
  let val := quoteAttribute kv.2 in
  if String.eqb val (dq +:+ dq) then kv.1 else kv.1 +:+ "=" +:+ val.

Definition render_attrs (attrs : list (string * string)) : string :=
  array_join " " (List.map attr_text attrs).

(** The assignment of [setAttribute]: it looks for the first attribute
    whose name is [key] in any letter case and assigns under that name,
    which keeps its spelling and its place; without one it assigns under
    [key], which is added last. *)
Fixpoint assign (key value : string) (attrs : list (string * string))
  : list (string * string) :=
  match attrs with
  | [] => [(key, value)]
  | (k, v) :: rest =>
      if String.eqb (toLowerCase k) (toLowerCase key) then (k, value) :: rest
      else (k, v) :: assign key value rest
  end.

(** [delete attrs[key]] *)
Definition delete_key (key : string) (attrs : list (string * string))
  : list (string * string) :=
  List.filter (fun kv => negb (String.eqb kv.1 key)) attrs.

(** [el.tagName = name] *)
Definition set_tagName (name : string) (el : HTMLElement) : HTMLElement :=
  mkElement (toLowerCase name) (rawAttrs el) (rawAttributes el) (innerHTML el).

(** [el.setAttribute(key, value)] *)
Definition setAttribute (key value : string) (el : HTMLElement) : HTMLElement :=
  let attrs := assign key value (rawAttributes el) in
  mkElement (rawTagName el) (render_attrs attrs) attrs (innerHTML el).

(** [el.removeAttribute(key)] *)
Definition removeAttribute (key : string) (el : HTMLElement) : HTMLElement :=
  let attrs := delete_key key (rawAttributes el) in
  mkElement (rawTagName el) (render_attrs attrs) attrs (innerHTML el).


(** [el.toString()]: the outer HTML of an element that is not a void tag;
    a node without a tag name serialises as its content. *)
Definition toString (el : HTMLElement) : string :=
  let tag := rawTagName el in
  if String.eqb tag EmptyString then innerHTML el
  else
    let attrs :=
      if String.eqb (rawAttrs el) EmptyString then EmptyString
      else " " +:+ rawAttrs el in
    "<" +:+ tag +:+ attrs +:+ ">" +:+ innerHTML el +:+ "</" +:+ tag +:+ ">".

End Element.

(** ** The program *)

Section Program.
Context `{Externals}.

(** [logVerbose(message)] *)
Definition logVerbose (c : config) (m : message) : IO unit :=
  if verbose c then emit (Info m) else ret tt.

(** [writeIfChanged(filepath, newContent)] *)
Definition writeIfChanged (filepath newContent : string) : IO bool :=
  let* currentContent := catch (readFile filepath) EmptyString in
  if String.eqb currentContent newContent then ret false
  else writeFile filepath newContent ;; ret true.

(** The mutations [generateSvgSprite] applies to the element it found. *)
Definition to_symbol (file : string) (svg : HTMLElement) : HTMLElement :=
  removeAttribute "height"
    (removeAttribute "width"
      (removeAttribute "version"
        (removeAttribute "xmlns:xlink"
          (removeAttribute "xmlns"
            (setAttribute "id" (iconName file)
              (set_tagName "symbol" svg)))))).

(** The callback of [files.map] in [generateSvgSprite]: one file to one
    symbol fragment.  The event [Parse] records the call of [parse]. *)
Definition symbol_of_file (inputDir file : string) : IO string :=
  let* input := readFile (path_join inputDir file) in
  emit (Parse input) ;;
  let root := parse input in
  match querySelector root "svg" with
  | None => throw (JsError "No SVG element found")
  | Some svg => ret (trim (toString (to_symbol file svg)))
  end.

Definition sprite_header : list string :=
  [ "<?xml version=" +:+ dq +:+ "1.0" +:+ dq +:+ " encoding=" +:+ dq +:+ "UTF-8" +:+ dq +:+ "?>";
    "<!-- This file is generated by npm run build:icons -->";
    "<svg xmlns=" +:+ dq +:+ "http://www.w3.org/2000/svg" +:+ dq
      +:+ " xmlns:xlink=" +:+ dq +:+ "http://www.w3.org/1999/xlink" +:+ dq
      +:+ " width=" +:+ dq +:+ "0" +:+ dq +:+ " height=" +:+ dq +:+ "0" +:+ dq +:+ ">";
    "<defs>" ].

(** The array literal of [generateSvgSprite] joined by newlines. *)
Definition sprite_document (symbols : list string) : string :=
  array_join nl (sprite_header ++ symbols ++ [ "</defs>"; "</svg>"; EmptyString ]).

(** [generateSvgSprite] up to its last statement: the content it hands to
    [writeIfChanged]. *)
Definition sprite_output (files : list string) (inputDir : string)
    (shouldOptimize : bool) : IO string :=
  let* symbols := promise_all_map (symbol_of_file inputDir) files in
  let output := sprite_document symbols in
  if shouldOptimize then
    match optimize output with
    | inr data => ret data
    | inl e => throw e
    end
  else ret output.

Definition generateSvgSprite (files : list string) (inputDir outputPath : string)
    (shouldOptimize : bool) : IO bool :=
  let* output := sprite_output files inputDir shouldOptimize in
  writeIfChanged outputPath output.

(** [glob.sync(...).sort((a, b) => a.localeCompare(b))] *)
Definition discover (inputDir : string) : IO (list string) :=
  fun w => mkRun (Returned (array_sort localeCompare (glob_sync w inputDir))) w [].

(** The two [iconNames.every(...)] tests of [build]. *)
Definition spriteUpToDate (iconNames : list string) (currentSprite : string) : bool :=
  forallb (fun name => includes currentSprite ("id=" +:+ name)) iconNames.

Definition typesUpToDate (iconNames : list string) (currentTypes : string) : bool :=
  forallb (fun name => includes currentTypes (dq +:+ name +:+ dq)) iconNames.

(** The template literal of the type manifest. *)
Definition typeOutputContent (iconNames : list string) : string :=
  "// This file is generated by npm run build:icons" +:+ nl +:+
  "  " +:+ nl +:+
  "  export type IconName =" +:+ nl +:+
  "  " +:+ tab +:+ "| " +:+
    array_join (nl +:+ tab +:+ "| ") (List.map JSON_stringify iconNames) +:+ ";" +:+ nl +:+
  "  ".

Definition readmeContent : string :=
  "# Icons" +:+ nl +:+
  "  " +:+ nl +:+
  "  This directory contains SVG icons that are used by the app." +:+ nl +:+
  "  " +:+ nl +:+
  "  Everything in this directory is generated by running `icons build`." +:+ nl +:+
  "  ".

Definition spriteFilepath (c : config) : string := path_join (spriteDir c) "sprite.svg".
Definition typeOutputFilepath (c : config) : string := path_join (outputDir c) "name.d.ts".
Definition readmeFilepath (c : config) : string := path_join (outputDir c) "README.md".

(** The [else] branch of [build] after [mkdirSync]. *)
Definition build_icons (c : config) (files : list string) : IO unit :=
  let* currentSprite := catch (readFile (spriteFilepath c)) EmptyString in
  let* currentTypes := catch (readFile (typeOutputFilepath c)) EmptyString in
  let iconNames := List.map iconName files in
  if (spriteUpToDate iconNames currentSprite && typesUpToDate iconNames currentTypes)%bool
  then logVerbose c IconsUpToDate ;; ret tt
  else
    logVerbose c (GeneratingSprite (inputDirRelative c)) ;;
    let* spriteChanged :=
      generateSvgSprite files (inputDir c) (spriteFilepath c) (shouldOptimize c) in
    for_of files (fun file => logVerbose c (Processed file)) ;;
    logVerbose c (SavedTo (spriteFilepath c)) ;;
    let* typesChanged :=
      writeIfChanged (typeOutputFilepath c) (typeOutputContent iconNames) in
    logVerbose c (ManifestSavedTo (typeOutputFilepath c)) ;;
    let* readmeChanged := writeIfChanged (readmeFilepath c) readmeContent in
    if (spriteChanged || typesChanged || readmeChanged)%bool
    then emit (Info (GeneratedIcons (List.length files)))
    else ret tt.

(** [build()], from the discovery of the files on; [c] holds the options
    the command line or the prompts resolved. *)
Definition build (c : config) : IO unit :=
  let* files := discover (inputDir c) in
  if Nat.eqb (List.length files) 0 then
    emit (Cancel (NoSvgFilesFound (inputDirRelative c))) ;;
    process_exit 1
  else
    mkdirSync (outputDir c) ;;
    build_icons c files.

End Program.

(** ** Notions the properties are stated with *)

(** The text [name="val"]. *)
Definition attr (name val : string) : string := name +:+ "=" +:+ dq +:+ val +:+ dq.

(** The text a missing file stands for. *)
Definition current (w : state) (path : string) : string :=
  default EmptyString (contents w !! path).

(** The list [build] works on: what [discover] returns. *)
Definition discovered `{Externals} (c : config) (w : state) : list string :=
  array_sort localeCompare (glob_sync w (inputDir c)).

(** The condition of the early return of [build], on the file system the
    check reads. *)
Definition up_to_date (c : config) (files : list string) (w : state) : bool :=
  spriteUpToDate (List.map iconName files) (current w (spriteFilepath c))
  && typesUpToDate (List.map iconName files) (current w (typeOutputFilepath c)).

(** The file system once [mkdirSync(dir)] has succeeded. *)
Definition with_directory (dir : string) (w : state) : state :=
  mkState (contents w) (directories w ∪ list_to_set (ancestors dir)).





(** The sprite document in the words of the specification (section 4.3):
    an XML declaration line, a generated-file comment, the root element
    with both namespaces and zero width and height, the opening of the
    definitions block, the symbols in order, the two closing tags; every
    line ends with a newline. *)
Definition line (text : string) : string := text +:+ nl.

Fixpoint lines (texts : list string) : string :=
  match texts with
  | [] => EmptyString
  | text :: rest => line text +:+ lines rest
  end.

Definition spec_sprite_document (symbols : list string) : string :=
  line ("<?xml " +:+ attr "version" "1.0" +:+ " " +:+ attr "encoding" "UTF-8" +:+ "?>")
  +:+ line "<!-- This file is generated by npm run build:icons -->"
  +:+ line ("<svg " +:+ attr "xmlns" "http://www.w3.org/2000/svg"
            +:+ " " +:+ attr "xmlns:xlink" "http://www.w3.org/1999/xlink"
            +:+ " " +:+ attr "width" "0" +:+ " " +:+ attr "height" "0" +:+ ">")
  +:+ line "<defs>"
  +:+ lines symbols
  +:+ line "</defs>"
  +:+ line "</svg>".

(** The statements of [build] that follow the computation of the sprite
    content: the three calls of [writeIfChanged] and the messages between
    them. *)
Definition write_outputs `{Externals} (c : config) (files : list string)
    (output : string) : IO unit :=
  let* spriteChanged := writeIfChanged (spriteFilepath c) output in
  for_of files (fun file => logVerbose c (Processed file)) ;;
  logVerbose c (SavedTo (spriteFilepath c)) ;;
  let* typesChanged :=
    writeIfChanged (typeOutputFilepath c) (typeOutputContent (List.map iconName files)) in
  logVerbose c (ManifestSavedTo (typeOutputFilepath c)) ;;
  let* readmeChanged := writeIfChanged (readmeFilepath c) readmeContent in
  if (spriteChanged || typesChanged || readmeChanged)%bool
  then emit (Info (GeneratedIcons (List.length files)))
  else ret tt.

Definition verbose_log (c : config) (m : message) : list event :=
  if verbose c then [Info m] else [].

Definition processed_log (c : config) (files : list string) : list event :=
  if verbose c then List.map (fun file => Info (Processed file)) files else [].

Definition sprite_saved_log `{Externals} (c : config) (files : list string)
  : list event :=
  processed_log c files ++ verbose_log c (SavedTo (spriteFilepath c)).

(** A run that leaves the file system as it found it and writes nothing. *)
Definition quiet {A} (r : run A) (w : state) : Prop :=
  after r = w /\ existsb is_write (events r) = false.

(** A call of [writeIfChanged] that skips the write, or whose write fails. *)
Definition skips (filepath newContent : string) (w : state) : Prop :=
  writeIfChanged filepath newContent w = mkRun (Returned false) w [].

Definition fails (filepath newContent : string) (w : state) : Prop :=
  exists e, writeIfChanged filepath newContent w = mkRun (Thrown e) w [].

(** The file system in which the three calls of [write_outputs] change
    nothing: each one skips, up to the first that fails. *)
Definition settled `{Externals} (c : config) (files : list string) (output : string)
    (w : state) : Prop :=
  fails (spriteFilepath c) output w
  \/ (skips (spriteFilepath c) output w
      /\ (fails (typeOutputFilepath c) (typeOutputContent (List.map iconName files)) w
          \/ (skips (typeOutputFilepath c) (typeOutputContent (List.map iconName files)) w
              /\ (fails (readmeFilepath c) readmeContent w
                  \/ skips (readmeFilepath c) readmeContent w)))).

(** The manifest in the words of the specification (section 4.7): the
    header comment, the type declaration, and one line per name holding
    the name as a quoted literal. *)
Definition spec_manifest (iconNames : list string) : string :=
  "// This file is generated by npm run build:icons" +:+ nl +:+
  "  " +:+ nl +:+
  "  export type IconName =" +:+ nl +:+
  "  " +:+ array_join nl (List.map (fun name => tab +:+ "| " +:+ JSON_stringify name) iconNames)
       +:+ ";" +:+ nl +:+
  "  ".

(** The characters [JSON.stringify] copies as they are. *)
Definition plain (ch : ascii) : bool :=
  let n := nat_of_ascii ch in
  (Nat.leb 32 n && negb (Nat.eqb n 34) && negb (Nat.eqb n 92))%bool.

Fixpoint all_plain (s : string) : bool :=
  match s with
  | EmptyString => true
  | String ch s' => plain ch && all_plain s'
  end.





(** ** A sample environment

    Concrete stand-ins for the outside packages, to run the program on
    concrete inputs: the files of the map under a directory whose name ends
    in [.svg], byte-wise comparison, a table of parsed documents, and an
    optimizer that returns its input. *)

Definition ends_with (suffix s : string) : bool :=
  String.prefix (str_rev suffix) (str_rev s).

Definition sample_glob (w : state) (dir : string) : list string :=
  omap (fun kv : string * string =>
          let p := kv.1 in
          if (String.prefix (dir +:+ "/") p && ends_with ".svg" p)%bool
          then Some (str_drop (S (String.length dir)) p) else None)
       (map_to_list (contents w)).

Definition sample_compare (a b : string) : Z :=
  match String.compare a b with Lt => -1 | Eq => 0 | Gt => 1 end.

Definition path_child : string :=
  "<path " +:+ attr "d" "M0 0" +:+ "></path>".

(** An icon with namespace and size attributes on its root. *)
Definition icon_text : string :=
  "<svg " +:+ attr "xmlns" "http://www.w3.org/2000/svg" +:+ " " +:+ attr "width" "24"
    +:+ " " +:+ attr "height" "24" +:+ " " +:+ attr "viewBox" "0 0 24 24"
    +:+ " " +:+ attr "fill" "none" +:+ ">" +:+ path_child +:+ "</svg>".

Definition icon_element : HTMLElement :=
  mkElement "svg"
    (attr "xmlns" "http://www.w3.org/2000/svg" +:+ " " +:+ attr "width" "24"
      +:+ " " +:+ attr "height" "24" +:+ " " +:+ attr "viewBox" "0 0 24 24"
      +:+ " " +:+ attr "fill" "none")
    [("xmlns", "http://www.w3.org/2000/svg"); ("width", "24"); ("height", "24");
     ("viewBox", "0 0 24 24"); ("fill", "none")]
    path_child.

(** An icon whose title element holds the text [id=a]. *)
Definition titled_text : string :=
  "<svg " +:+ attr "viewBox" "0 0 10 10" +:+ "><title>id=a</title></svg>".

Definition titled_element : HTMLElement :=
  mkElement "svg" (attr "viewBox" "0 0 10 10") [("viewBox", "0 0 10 10")]
    "<title>id=a</title>".

(** A file without any [svg] element. *)
Definition no_svg_text : string := "<div>not an icon</div>".

Definition sample_parse (input : string) : option HTMLElement :=
  if String.eqb input icon_text then Some icon_element
  else if String.eqb input titled_text then Some titled_element
  else None.

Definition sample_querySelector (root : option HTMLElement) (selector : string)
  : option HTMLElement :=
  if String.eqb selector "svg" then root else None.

Definition sample_externals : Externals := {|
  glob_sync := sample_glob;
  localeCompare := sample_compare;
  document := option HTMLElement;
  parse := sample_parse;
  querySelector := sample_querySelector;
  optimize := fun output => inr output
|}.

Definition sample_config : config :=
  mkConfig "/proj/svg" "svg" "/proj/icons" "/proj/icons" false true.

Definition sample_dirs : gset string :=
  list_to_set [EmptyString; "/proj"; "/proj/svg"].

(** Two well-formed icons. *)
Definition sample_state : state :=
  mkState (list_to_map [("/proj/svg/b.svg", icon_text); ("/proj/svg/a.svg", icon_text)])
          sample_dirs.

(** A well-formed icon next to a file without an [svg] element. *)
Definition sample_malformed_state : state :=
  mkState (list_to_map [("/proj/svg/a.svg", icon_text); ("/proj/svg/broken.svg", no_svg_text)])
          sample_dirs.

(** One icon, whose title holds the text [id=a]. *)
Definition titled_state : state :=
  mkState (list_to_map [("/proj/svg/a.svg", titled_text)]) sample_dirs.


(** Outputs that name the icons [a] and [b] with an unquoted [id], while
    only [a.svg] is left among the inputs. *)
Definition unquoted_sprite : string :=
  "<svg><defs><symbol id=a></symbol><symbol id=b></symbol></defs></svg>".

Definition unquoted_state : state :=
  mkState (list_to_map [("/proj/svg/a.svg", icon_text);
                        ("/proj/icons/sprite.svg", unquoted_sprite);
                        ("/proj/icons/name.d.ts", typeOutputContent ["a"; "b"])])
          (list_to_set [EmptyString; "/proj"; "/proj/svg"; "/proj/icons"]).

(** The titled icon was built, then its file was overwritten with a text
    that has no [svg] element. *)
Definition corrupted_state : state :=
  let built := after (@build sample_externals sample_config titled_state) in
  mkState (<["/proj/svg/a.svg" := no_svg_text]> (contents built)) (directories built).

(** A state in which [writeFile] succeeds at [/proj/svg/new.txt]. *)
Definition sample_empty_dir : state := mkState ∅ sample_dirs.

(** The message that closes a build that changed a file. *)
Definition is_generated (e : event) : bool :=
  match e with Info (GeneratedIcons _) => true | _ => false end.

(** A file that [generateSvgSprite] can turn into a symbol: it can be read
    and its document has an [svg] element. *)
Definition well_formed `{Externals} (w : state) (inputDir file : string) : Prop :=
  exists input svg,
    contents w !! path_join inputDir file = Some input
    /\ querySelector (parse input) "svg" = Some svg.


(** ** [package.json] and the framework

    [parsePackageJson] and [detectFramework].  A directory is held as
    before, the root being the empty string, so that the test of [dir]
    against the root reads [dir = EmptyString] here. *)

(** The values [JSON.parse] returns; [number] stands for the numbers of
    ECMAScript. *)
#[local] Unset Elimination Schemes.
Inductive jsvalue (number : Type) :=
  | JNull
  | JBool (b : bool)
  | JNumber (n : number)
  | JString (s : string)
  | JArray (items : list (jsvalue number))
  | JObject (members : list (string * jsvalue number)).
#[local] Set Elimination Schemes.
Arguments JNull {number}.
Arguments JBool {number} b.
Arguments JNumber {number} n.
Arguments JString {number} s.
Arguments JArray {number} items.
Arguments JObject {number} members.

Class Json := {
  number : Type;
  (** a number other than zero and NaN *)
  number_truthy : number -> bool;
  (** [JSON.parse(text)], or the SyntaxError it throws *)
  JSON_parse : string -> error + jsvalue number
}.

(** What [console.log] receives in [parsePackageJson]. *)
Inductive console_entry :=
  | LogText (text : string)
  | LogError (e : error).

Definition TypeError : error := JsError "TypeError".

Section PackageJson.
Context `{Json}.

Fixpoint own_member (key : string) (members : list (string * jsvalue number))
  : option (jsvalue number) :=
  match members with
  | [] => None
  | (k, v) :: rest => if String.eqb k key then Some v else own_member key rest
  end.

(** [value[key]] for the keys the program reads, none of which is
    inherited from a prototype: [undefined] (here [None]) and [null] throw,
    an object gives its member, any other value gives [undefined]. *)
Definition get_member (v : option (jsvalue number)) (key : string)
  : error + option (jsvalue number) :=
  match v with
  | None => inl TypeError
  | Some JNull => inl TypeError
  | Some (JObject members) => inr (own_member key members)
  | Some _ => inr None
  end.

(** The truth value of [v] in a condition. *)
Definition truthy (v : option (jsvalue number)) : bool :=
  match v with
  | None => false
  | Some JNull => false
  | Some (JBool b) => b
  | Some (JNumber n) => number_truthy n
  | Some (JString s) => negb (String.eqb s EmptyString)
  | Some (JArray _) => true
  | Some (JObject _) => true
  end.

(** The loop of [parsePackageJson]: what it logs and, if it ends within
    [fuel] rounds, the text it found or the error it throws.  A text that
    is empty is falsy: the loop goes round again with the same [dir].
    [dir] is an absolute directory, as [process.cwd()] gives it. *)
Fixpoint find_package_json (fuel : nat) (w : state) (dir : string)
  : list console_entry * option (error + string) :=
  match fuel with
  | O => ([], None)
  | S fuel' =>
      let file := path_join dir "package.json" in
      match contents w !! file with
      | Some text =>
          if String.eqb text EmptyString then
            let rest := find_package_json fuel' w dir in
            (LogText file :: rest.1, rest.2)
          else ([LogText file], Some (inr text))
      | None =>
          let err := FsError "ENOENT" file in
          if String.eqb dir EmptyString then
            ([LogText file; LogError err],
             Some (inl (JsError "Could not find package.json")))
          else
            let rest := find_package_json fuel' w (dirname dir) in
            (LogText file :: LogError err :: rest.1, rest.2)
      end
  end.

(** [parsePackageJson()], started in the working directory [cwd]. *)
Definition parsePackageJson (fuel : nat) (w : state) (cwd : string)
  : list console_entry * option (error + jsvalue number) :=
  let found := find_package_json fuel w cwd in
  (found.1,
   match found.2 with
   | None => None
   | Some (inl e) => Some (inl e)
   | Some (inr text) => Some (JSON_parse text)
   end).

(** The statements of [detectFramework] after its [try]: they are not
    guarded, an error of theirs is thrown by [detectFramework]. *)
Definition framework_of (packageJson : jsvalue number) : error + string :=
  match get_member (Some packageJson) "dependencies" with
  | inl e => inl e
  | inr dependencies =>
      match get_member dependencies "next" with
      | inl e => inl e
      | inr next =>
          if truthy next then inr "next"
          else
            match get_member dependencies "vite" with
            | inl e => inl e
            | inr vite =>
                let vite_found :=
                  if truthy vite then inr true
                  else
                    match get_member (Some packageJson) "devDependencies" with
                    | inl e => inl e
                    | inr devDependencies =>
                        match get_member devDependencies "vite" with
                        | inl e => inl e
                        | inr dev_vite => inr (truthy dev_vite)
                        end
                    end in
                match vite_found with
                | inl e => inl e
                | inr true => inr "vite"
                | inr false =>
                    match get_member dependencies "remix" with
                    | inl e => inl e
                    | inr remix =>
                        if truthy remix then inr "remix"
                        else
                          match get_member dependencies "@remix-run/react" with
                          | inl e => inl e
                          | inr remix_react =>
                              if truthy remix_react then inr "remix" else inr "unknown"
                          end
                    end
                end
            end
      end
  end.

(** [detectFramework()] *)
Definition detectFramework (fuel : nat) (w : state) (cwd : string)
  : option (error + string) :=
  match (parsePackageJson fuel w cwd).2 with
  | None => None
  | Some (inl _) => Some (inr "unknown")
  | Some (inr packageJson) => Some (framework_of packageJson)
  end.

End PackageJson.

(** The directory [k] levels above [dir]. *)
Definition parent (k : nat) (dir : string) : string := Nat.iter k dirname dir.

(** A sample parser of [package.json] texts: the numbers are integers, and
    the texts of a table are parsed. *)
Definition next_package_text : string :=
  "{" +:+ dq +:+ "dependencies" +:+ dq +:+ ":{" +:+ dq +:+ "next" +:+ dq +:+ ":"
    +:+ dq +:+ "14.0.0" +:+ dq +:+ "," +:+ dq +:+ "vite" +:+ dq +:+ ":"
    +:+ dq +:+ "5.0.0" +:+ dq +:+ "}}".

Definition next_package : jsvalue Z :=
  JObject [("dependencies", JObject [("next", JString "14.0.0"); ("vite", JString "5.0.0")])].

Definition scripts_package_text : string :=
  "{" +:+ dq +:+ "scripts" +:+ dq +:+ ":{}}".

Definition scripts_package : jsvalue Z := JObject [("scripts", JObject [])].

Definition dev_package_text : string :=
  "{" +:+ dq +:+ "dependencies" +:+ dq +:+ ":{}," +:+ dq +:+ "devDependencies" +:+ dq
    +:+ ":{" +:+ dq +:+ "vite" +:+ dq +:+ ":" +:+ dq +:+ "5.0.0" +:+ dq +:+ ","
    +:+ dq +:+ "remix" +:+ dq +:+ ":" +:+ dq +:+ "2.0.0" +:+ dq +:+ "}}".

Definition dev_package : jsvalue Z :=
  JObject [("dependencies", JObject []);
           ("devDependencies", JObject [("vite", JString "5.0.0"); ("remix", JString "2.0.0")])].

Definition sample_JSON_parse (text : string) : error + jsvalue Z :=
  if String.eqb text next_package_text then inr next_package
  else if String.eqb text scripts_package_text then inr scripts_package
  else if String.eqb text dev_package_text then inr dev_package
  else inl (JsError "SyntaxError").

Definition sample_json : Json := {|
  number := Z;
  number_truthy := fun n => negb (n =? 0);
  JSON_parse := sample_JSON_parse
|}.

(** A project two levels below the directory that holds [package.json]. *)
Definition project_state (text : string) : state :=
  mkState (list_to_map [("/proj/package.json", text)])
          (list_to_set [EmptyString; "/proj"; "/proj/app"; "/proj/app/ui"]).

(** ** The command line

    The code that runs before and around [build]: the flags, the
    questions of the terminal, the choice of the command, and [init]. *)

(** The flags the program reads, as [tiny-parse-argv] returns them for
    flags given with a text ([args.optimize]: given or negated); a flag
    that is absent is [undefined], here [None]. *)
Record arguments := mkArguments {
  args_command : option string;
  args_help : bool;
  args_i : option string;
  args_input : option string;
  args_o : option string;
  args_output : option string;
  args_spriteDir : option string;
  args_optimize : option bool;
  args_t : option string;
  args_types : option string;
  args_v : bool;
  args_verbose : bool
}.

(** [a || b] on flags. *)
Definition js_or (a b : option string) : option string :=
  match a with
  | Some s => if String.eqb s EmptyString then b else a
  | None => b
  end.

(** The text of a flag that is truthy: [if (!flag)] runs when there is
    none. *)
Definition given (flag : option string) : option string :=
  match flag with
  | Some s => if String.eqb s EmptyString then None else Some s
  | None => None
  end.

(** What a question of [@clack/prompts] returns: the answer, or the cancel
    symbol, which [isCancel] recognises. *)
Inductive answer (A : Type) :=
  | Cancelled
  | Answered (a : A).
Arguments Cancelled {A}.
Arguments Answered {A} a.

(** What a run of the program does that can be observed from outside. *)
Inductive action :=
  | Console (entry : console_entry)
  | Intro (title : string)
  | Message (body : string)
  | TextPrompt (message initialValue : string)
  | ConfirmPrompt (message : string)
  | Note (body title : string)
  | Warn (body : string)
  | Failure (body : string)
  | SpinnerStart (body : string)
  | SpinnerStop (body : string)
  | Exec (command : string)
  | Outro (body : string)
  | Fs (e : event).

Definition is_prompt (a : action) : bool :=
  match a with TextPrompt _ _ | ConfirmPrompt _ => true | _ => false end.

Definition is_fs (a : action) : bool :=
  match a with Fs _ => true | _ => false end.

Definition is_exec (a : action) : bool :=
  match a with Exec _ => true | _ => false end.

Definition is_file_write (a : action) : bool :=
  match a with Fs (WriteFile _ _) => true | _ => false end.

(** The terminal and the system, as the program meets them. *)
Class Terminal := {
  (** the answer to [text({ message, initialValue })] *)
  text : string -> string -> answer string;
  (** the answer to [confirm({ message })] *)
  confirm : string -> answer bool;
  (** [path.join(cwd, input)] for a text of the user: the normalised path,
      held like every directory here, the root being the empty string *)
  path_join_cwd : string -> string -> string;
  (** [path.relative(from, to)] *)
  path_relative : string -> string -> string;
  (** [exec(command)]: the error it reports, if any, and what it leaves of
      the file system *)
  exec : string -> state -> option error * state
}.

Record trace (A : Type) := mkTrace {
  result : outcome A;
  files : state;
  actions : list action
}.
Arguments mkTrace {A} result files actions.
Arguments result {A} t.
Arguments files {A} t.
Arguments actions {A} t.

Definition Cli (A : Type) : Type := state -> trace A.

Definition cli_ret {A} (a : A) : Cli A := fun w => mkTrace (Returned a) w [].

Definition cli_bind {A B} (c : Cli A) (k : A -> Cli B) : Cli B :=
  fun w =>
    match c w with
    | mkTrace (Returned a) w' acts =>
        let r := k a w' in mkTrace (result r) (files r) (acts ++ actions r)
    | mkTrace (Thrown e) w' acts => mkTrace (Thrown e) w' acts
    | mkTrace (Exited n) w' acts => mkTrace (Exited n) w' acts
    end.

Notation "'let+' x ':=' c 'in' k" := (cli_bind c (fun x => k))
  (at level 10, x name, c at level 100, k at level 200).
Notation "c ';+' k" := (cli_bind c (fun _ => k))
  (at level 100, k at level 200, right associativity).

Definition cli_throw {A} (e : error) : Cli A := fun w => mkTrace (Thrown e) w [].

Definition cli_exit {A} (code : Z) : Cli A := fun w => mkTrace (Exited code) w [].

Definition say (a : action) : Cli unit := fun w => mkTrace (Returned tt) w [a].

(** A computation of the build, run by the program. *)
Definition lift {A} (c : IO A) : Cli A :=
  fun w => let r := c w in mkTrace (value r) (after r) (List.map Fs (events r)).

(** [try { c } catch { handler }] *)
Definition attempt {A} (c handler : Cli A) : Cli A :=
  fun w =>
    match c w with
    | mkTrace (Thrown _) w' acts =>
        let r := handler w' in mkTrace (result r) (files r) (acts ++ actions r)
    | r => r
    end.

(** [fs.stat(path).then(() => true).catch(() => false)]: whether there is
    a file or a directory at [path]. *)
Definition stat (w : state) (path : string) : bool :=
  bool_decide (path ∈ directories w) || bool_decide (is_Some (contents w !! path)).

Definition cli_stat (path : string) : Cli bool :=
  fun w => mkTrace (Returned (stat w path)) w [].

(** [fs.mkdir(path.dirname(file), { recursive: true })] followed by
    [fs.writeFile(file, content)], the body of both [try] blocks of
    [init]. *)
Definition store (file content : string) : IO unit :=
  mkdirSync (dirname file) ;; writeFile file content.

(** The top of the program: the folder proposed for the component. *)
Definition componentFolder (framework cwd : string) (w : state) : string :=
  let hasSrc := stat w (path_join cwd "src") in
  let hasApp := stat w (path_join cwd "app") in
  let hasApp := if negb hasApp then stat w (path_join cwd "src/app") else hasApp in
  let componentFolder := "components/ui" in
  let componentFolder := if hasSrc then "src/components/ui" else componentFolder in
  if negb (String.eqb framework "next") && hasApp then
    if hasSrc then "src/app/components/ui" else "app/components/ui"
  else componentFolder.

(** The help of [icons build]. *)
Definition build_help : string :=
  "icons build
  Build SVG icons into a sprite sheet
  Options:
    -i, --input     The relative path where the source SVGs are stored
    -o, --output    Where the output sprite sheet and types should be stored
    --spriteDir     Where the output sprite sheet should be stored (default to output param)
    --optimize      Optimize the output SVG using SVGO. 
    --help          Show help
  ".

(** The help of [icons init]. *)
Definition init_help : string :=
  "icons init
  Initialize the Icon component
  Options:
    -o, --output    Where to store the Icon component
    -t, --types     Where to store the default type definition file
    --help          Show help
  ".

(** The help of the program. *)
Definition usage : string :=
  "icons <command>
  Commands:
    icons build   Build SVG icons into a sprite sheet
    icons init    Initialize the Icon component
  Options:
    --help        Show help
".

(** The note of [build] on the flags that replace its questions. *)
Definition options_hint (input output : string) (shouldOptimize : bool) : string :=
  "You can also pass these options as flags:
      
icons build -i " +:+ input +:+ " -o " +:+ output +:+ (if shouldOptimize then " --optimize" else EmptyString).

(** The warning of [init] on the types file. *)
Definition types_warning : string :=
  "You'll need to create a types/icon-name.d.ts file yourself and update your tsconfig.json to include it.".

(** The fallback types file. *)
Definition typesFile : string :=
  "// This file is a fallback until you run npm run icons build

export type IconName = string;
".

(** How the component reaches the sprite. *)
Definition href_import : string :=
  "import href from " +:+ dq +:+ "./icons/sprite.svg" +:+ dq +:+ ";

export { href };".

(** How the component reaches the sprite with next. *)
Definition href_public : string :=
  "// Be sure to configure the icon generator to output to the public folder
const href = " +:+ dq +:+ "/icons/sprite.svg" +:+ dq +:+ ";

export { href };".

(** The component in TypeScript. *)
Definition iconFileTs (hrefImportExport : string) : string :=
  "
import { type SVGProps } from " +:+ dq +:+ "react" +:+ dq +:+ ";
// Configure this path in your tsconfig.json
import { type IconName } from " +:+ dq +:+ "~/icon-name" +:+ dq +:+ ";
import { type ClassValue, clsx } from " +:+ dq +:+ "clsx" +:+ dq +:+ ";
import { twMerge } from " +:+ dq +:+ "tailwind-merge" +:+ dq +:+ ";
" +:+ hrefImportExport +:+ "

export { IconName };

const sizeClassName = {
  font: " +:+ dq +:+ "w-[1em] h-[1em]" +:+ dq +:+ ",
  xs: " +:+ dq +:+ "w-3 h-3" +:+ dq +:+ ",
  sm: " +:+ dq +:+ "w-4 h-4" +:+ dq +:+ ",
  md: " +:+ dq +:+ "w-5 h-5" +:+ dq +:+ ",
  lg: " +:+ dq +:+ "w-6 h-6" +:+ dq +:+ ",
  xl: " +:+ dq +:+ "w-7 h-7" +:+ dq +:+ ",
} as const;

type Size = keyof typeof sizeClassName;

const childrenSizeClassName = {
  font: " +:+ dq +:+ "gap-1.5" +:+ dq +:+ ",
  xs: " +:+ dq +:+ "gap-1.5" +:+ dq +:+ ",
  sm: " +:+ dq +:+ "gap-1.5" +:+ dq +:+ ",
  md: " +:+ dq +:+ "gap-2" +:+ dq +:+ ",
  lg: " +:+ dq +:+ "gap-2" +:+ dq +:+ ",
  xl: " +:+ dq +:+ "gap-3" +:+ dq +:+ ",
} satisfies Record<Size, string>;

/**
 * Renders an SVG icon. The icon defaults to the size of the font. To make it
 * align vertically with neighboring text, you can pass the text as a child of
 * the icon and it will be automatically aligned.
 * Alternatively, if you're not ok with the icon being to the left of the text,
 * you need to wrap the icon and text in a common parent and set the parent to
 * display " +:+ dq +:+ "flex" +:+ dq +:+ " (or " +:+ dq +:+ "inline-flex" +:+ dq +:+ ") with " +:+ dq +:+ "items-center" +:+ dq +:+ " and a reasonable gap.
 */
export function Icon({
  name,
  size = " +:+ dq +:+ "font" +:+ dq +:+ ",
  className,
  children,
  ...props
}: SVGProps<SVGSVGElement> & {
  name: IconName;
  size?: Size;
}) {
  if (children) {
    return (
      <span
        className={`inline-flex items-center ${childrenSizeClassName[size]}`}
      >
        <Icon name={name} size={size} className={className} {...props} />
        {children}
      </span>
    );
  }
  return (
    <svg
      {...props}
      className={twMerge(clsx(sizeClassName[size], " +:+ dq +:+ "inline self-center" +:+ dq +:+ ", className))}
    >
      <use href={`${href}#${name}`} />
    </svg>
  );
}

".

(** The component in JavaScript. *)
Definition iconFileJs (hrefImportExport : string) : string :=
  "
import { clsx } from " +:+ dq +:+ "clsx" +:+ dq +:+ ";
import { twMerge } from " +:+ dq +:+ "tailwind-merge" +:+ dq +:+ ";
" +:+ hrefImportExport +:+ "
export { IconName };

const sizeClassName = {
  font: " +:+ dq +:+ "w-[1em] h-[1em]" +:+ dq +:+ ",
  xs: " +:+ dq +:+ "w-3 h-3" +:+ dq +:+ ",
  sm: " +:+ dq +:+ "w-4 h-4" +:+ dq +:+ ",
  md: " +:+ dq +:+ "w-5 h-5" +:+ dq +:+ ",
  lg: " +:+ dq +:+ "w-6 h-6" +:+ dq +:+ ",
  xl: " +:+ dq +:+ "w-7 h-7" +:+ dq +:+ ",
};
const childrenSizeClassName = {
  font: " +:+ dq +:+ "gap-1.5" +:+ dq +:+ ",
  xs: " +:+ dq +:+ "gap-1.5" +:+ dq +:+ ",
  sm: " +:+ dq +:+ "gap-1.5" +:+ dq +:+ ",
  md: " +:+ dq +:+ "gap-2" +:+ dq +:+ ",
  lg: " +:+ dq +:+ "gap-2" +:+ dq +:+ ",
  xl: " +:+ dq +:+ "gap-3" +:+ dq +:+ ",
};
/**
 * Renders an SVG icon. The icon defaults to the size of the font. To make it
 * align vertically with neighboring text, you can pass the text as a child of
 * the icon and it will be automatically aligned.
 * Alternatively, if you're not ok with the icon being to the left of the text,
 * you need to wrap the icon and text in a common parent and set the parent to
 * display " +:+ dq +:+ "flex" +:+ dq +:+ " (or " +:+ dq +:+ "inline-flex" +:+ dq +:+ ") with " +:+ dq +:+ "items-center" +:+ dq +:+ " and a reasonable gap.
 */
export function Icon({ name, size = " +:+ dq +:+ "font" +:+ dq +:+ ", className, children, ...props }) {
  if (children) {
    return (
      <span
        className={`inline-flex items-center ${childrenSizeClassName[size]}`}
      >
        <Icon name={name} size={size} className={className} {...props} />
        {children}
      </span>
    );
  }
  return (
    <svg
      {...props}
      className={twMerge(clsx(sizeClassName[size], " +:+ dq +:+ "inline self-center" +:+ dq +:+ ", className))}
    >
      <use href={`${href}#${name}`} />
    </svg>
  );
}
".

(** The closing text of [init]; [types] is given when the project is in TypeScript. *)
Definition outro_text (outputDir iconsOutput : string) (types : option string) : string :=
  "Icon component created at " +:+ outputDir +:+ "
  
Be sure to run `icons build` to generate the icons. You can also add something like this to your build script:

" +:+ dq +:+ "build:icons" +:+ dq +:+ ": " +:+ dq +:+ "icons build -i other/svg-icons -o " +:+ iconsOutput +:+ dq +:+ "

Consider using https://sly-cli.fly.dev to automatically add icons and run the build script for you.
" +:+ (match types with Some types => "
If you're using TypeScript, you'll need to configure your tsconfig.json to include the generated types:

" +:+ dq +:+ "paths" +:+ dq +:+ ": {
  " +:+ dq +:+ "~/icon-name" +:+ dq +:+ ": [" +:+ dq +:+ iconsOutput +:+ "/name.d.ts" +:+ dq +:+ ", " +:+ dq +:+ types +:+ dq +:+ "]
}" | None => EmptyString end).

(** The package manager [init] installs with: the last lock file found
    decides. *)
Definition install_command (w : state) (cwd : string) : string :=
  let command := "npm install --save" in
  let command := if stat w (path_join cwd "yarn.lock") then "yarn add" else command in
  let command := if stat w (path_join cwd "pnpm-lock.yaml") then "pnpm add" else command in
  let command := if stat w (path_join cwd "bun.lockb") then "bun add" else command in
  command.

Definition dependencies : list string := ["clsx"; "tailwind-merge"].

Section CommandLine.
Context `{Externals} `{Json} `{Terminal}.

(** [await text({ message, initialValue })] *)
Definition text_prompt (message initialValue : string) : Cli (answer string) :=
  say (TextPrompt message initialValue) ;+ cli_ret (text message initialValue).

(** [await confirm({ message })] *)
Definition confirm_prompt (message : string) : Cli (answer bool) :=
  say (ConfirmPrompt message) ;+ cli_ret (confirm message).

(** [build()] up to the search for the icons: the configuration of the
    build, from the flags and the answers. *)
Definition build_options (args : arguments) (cwd framework folder : string) : Cli config :=
  let input := js_or (args_i args) (args_input args) in
  let output := js_or (args_o args) (args_output args) in
  let+ asked_input :=
    match given input with
    | None =>
        let+ input := text_prompt "Where are the input SVGs stored?" "other/svg-icons" in
        cli_ret (true, input)
    | Some input => cli_ret (false, Answered input)
    end in
  let giveHint := asked_input.1 in
  match asked_input.2 with
  | Cancelled => cli_exit 1
  | Answered input =>
      let inputDir := path_join_cwd cwd input in
      let inputDirRelative := path_relative cwd inputDir in
      let+ asked_output :=
        match given output with
        | None =>
            let initialValue :=
              if String.eqb framework "next" then "public/icons"
              else folder +:+ "/icons" in
            let+ output := text_prompt "Where should the output be stored?" initialValue in
            cli_ret (true, output)
        | Some output => cli_ret (giveHint, Answered output)
        end in
      let giveHint := asked_output.1 in
      match asked_output.2 with
      | Cancelled => cli_exit 1
      | Answered output =>
          let outputDir := path_join_cwd cwd output in
          let spriteDir :=
            path_join_cwd cwd (match args_spriteDir args with
                               | Some dir => dir
                               | None => output
                               end) in
          let+ shouldOptimize :=
            match args_optimize args with
            | None =>
                let+ choseOptimize := confirm_prompt "Optimize the output SVG using SVGO?" in
                match choseOptimize with
                | Cancelled => cli_exit 1
                | Answered chose => cli_ret chose
                end
            | Some optimize => cli_ret optimize
            end in
          (if giveHint then say (Note (options_hint input output shouldOptimize) "Psst")
           else cli_ret tt) ;+
          cli_ret (mkConfig inputDir inputDirRelative outputDir spriteDir shouldOptimize
                            (args_v args || args_verbose args))
      end
  end.

(** [build()] *)
Definition build_command (args : arguments) (cwd framework folder : string) : Cli unit :=
  let+ c := build_options args cwd framework folder in
  lift (build c).

(** The first part of [init()]: the types.  It returns the place of the
    types when the project is in TypeScript ([isTs]). *)
Definition init_types (args : arguments) (cwd : string) : Cli (option string) :=
  let types := js_or (args_t args) (args_types args) in
  match given types with
  | Some types => cli_ret (Some types)
  | None =>
      let+ tsconfig := cli_stat (path_join cwd "tsconfig.json") in
      if tsconfig then
        let+ types := text_prompt "Where should the default Icon types be stored?"
                                  "types/icon-name.d.ts" in
        match types with
        | Cancelled =>
            (* [path.join(cwd, types)] refuses the cancel symbol *)
            say (Warn types_warning) ;+ cli_throw TypeError
        | Answered types =>
            let typesDir := path_join_cwd cwd types in
            attempt (lift (store typesDir typesFile))
                    (say (Failure ("Could not write to " +:+ typesDir)) ;+
                     say (Warn types_warning)) ;+
            cli_ret (Some types)
        end
      else cli_ret None
  end.

(** The installation of [init()].  When the command fails, the handler
    stops the spinner and calls [log.error(err)] with the error object,
    which throws a TypeError, since [log.error] splits the text it is given
    into lines: [process.exit(1)] is not reached. *)
Definition install (cwd : string) : Cli unit :=
  fun w =>
    let command := install_command w cwd +:+ " " +:+ array_join " " dependencies in
    let ran := exec command w in
    match ran.1 with
    | Some err =>
        mkTrace (Thrown TypeError) ran.2
                [SpinnerStart "Installing dependencies"; Exec command;
                 SpinnerStop "Failed to install dependencies"]
    | None =>
        mkTrace (Returned tt) ran.2
                [SpinnerStart "Installing dependencies"; Exec command;
                 SpinnerStop "Installed dependencies"]
    end.

(** The second part of [init()]: the component and what it depends on;
    [types] is the place of the types when the project is in TypeScript. *)
Definition init_component (args : arguments) (cwd framework folder : string)
    (types : option string) : Cli unit :=
  let output := js_or (args_o args) (args_output args) in
  let isTs := bool_decide (is_Some types) in
  let+ output :=
    match given output with
    | None =>
        text_prompt "Where should the Icon component be stored?"
                    (folder +:+ "/Icon." +:+ (if isTs then "tsx" else "jsx"))
    | Some output => cli_ret (Answered output)
    end in
  match output with
  | Cancelled => cli_exit 1
  | Answered output =>
      let outputDir := path_join_cwd cwd output in
      let hrefImportExport :=
        if String.eqb framework "next" then href_public else href_import in
      attempt (lift (store outputDir (if isTs then iconFileTs hrefImportExport
                                               else iconFileJs hrefImportExport)))
              (say (Failure ("Could not write to " +:+ outputDir)) ;+
               say (Warn "You'll need to create an Icon component yourself") ;+
               cli_exit 1) ;+
      install cwd ;+
      let iconsOutput :=
        if String.eqb framework "next" then "public/icons" else folder +:+ "/icons" in
      say (Outro (outro_text outputDir iconsOutput types))
  end.

(** [init()] *)
Definition init (args : arguments) (cwd framework folder : string) : Cli unit :=
  let+ types := init_types args cwd in
  init_component args cwd framework folder types.

(** The choice of the command. *)
Definition dispatch (args : arguments) (cwd framework folder : string) : Cli unit :=
  match args_command args with
  | Some command =>
      if String.eqb command "build" then
        if args_help args then say (Message build_help)
        else build_command args cwd framework folder
      else if String.eqb command "init" then
        if args_help args then say (Message init_help)
        else init args cwd framework folder
      else say (Message usage)
  | None => say (Message usage)
  end.

(** The program: it looks for the framework, then greets and runs the
    command.  No result within [fuel] rounds of the search is [None]. *)
Definition main (fuel : nat) (args : arguments) (cwd : string) (w : state)
  : option (trace unit) :=
  let console := List.map Console (parsePackageJson fuel w cwd).1 in
  match detectFramework fuel w cwd with
  | None => None
  | Some (inl e) => Some (mkTrace (Thrown e) w console)
  | Some (inr framework) =>
      let r := (say (Intro "Icons CLI") ;+
                dispatch args cwd framework (componentFolder framework cwd w)) w in
      Some (mkTrace (result r) (files r) (console ++ actions r))
  end.

End CommandLine.

(** A question that was answered with a cancel. *)
Definition was_cancelled `{Terminal} (a : action) : bool :=
  match a with
  | TextPrompt message initialValue =>
      match text message initialValue with Cancelled => true | Answered _ => false end
  | ConfirmPrompt message =>
      match confirm message with Cancelled => true | Answered _ => false end
  | _ => false
  end.

(** The message of [build] that ends a run without icons. *)
Definition is_no_svg (a : action) : bool :=
  match a with Fs (Cancel (NoSvgFilesFound _)) => true | _ => false end.

(** A computation that never ends the process. *)
Definition never_exits {A} (c : IO A) : Prop :=
  forall w code, value (c w) ≠ Exited code.

(** How many times [sub] occurs in [s]. *)
Fixpoint occurrences (sub s : string) : nat :=
  ((if String.prefix sub s then 1 else 0) +
   match s with
   | EmptyString => 0
   | String _ rest => occurrences sub rest
   end)%nat.

(** The four ways [init] installs. *)
Definition package_managers : list string :=
  ["npm install --save"; "yarn add"; "pnpm add"; "bun add"].

(** The question [init] asks when no flag places the component. *)
Definition component_question (args : arguments) (folder : string) (types : option string)
  : list action :=
  match given (js_or (args_o args) (args_output args)) with
  | Some _ => []
  | None =>
      [TextPrompt "Where should the Icon component be stored?"
                  (folder +:+ "/Icon." +:+ (if bool_decide (is_Some types) then "tsx" else "jsx"))]
  end.


(** The question of [init] about the types. *)
Definition types_question : action :=
  TextPrompt "Where should the default Icon types be stored?" "types/icon-name.d.ts".

(** A sample terminal: the user takes every proposal, but cancels the
    question about the types and the one about the optimisation; the paths
    given are plain relative paths; the installation succeeds and leaves
    the files alone. *)
Definition sample_text (message initialValue : string) : answer string :=
  if String.eqb message "Where should the default Icon types be stored?" then Cancelled
  else Answered initialValue.

Definition sample_terminal : Terminal := {|
  text := sample_text;
  confirm := fun _ => Cancelled;
  path_join_cwd := path_join;
  path_relative := fun from to => str_drop (S (String.length from)) to;
  exec := fun _ w => (None, w)
|}.

(** [icons build -i svg -o icons] *)
Definition build_arguments : arguments :=
  mkArguments (Some "build") false (Some "svg") None (Some "icons") None None None
              None None false false.

(** [icons init] *)
Definition init_arguments : arguments :=
  mkArguments (Some "init") false None None None None None None None None false false.

(** [icons init -t types/icon-name.d.ts -o app/Icon.tsx] *)
Definition init_types_arguments : arguments :=
  mkArguments (Some "init") false None None (Some "app/Icon.tsx") None None None
              (Some "types/icon-name.d.ts") None false false.

(** [icons init -o svg], where [svg] is a directory *)
Definition init_directory_arguments : arguments :=
  mkArguments (Some "init") false None None (Some "svg") None None None None None false false.

(** [icons build --help] *)
Definition help_arguments : arguments :=
  mkArguments (Some "build") true None None None None None None None None false false.


(** A terminal whose user takes every proposal and declines the
    optimisation. *)
Definition accepting_terminal : Terminal := {|
  text := fun _ initialValue => Answered initialValue;
  confirm := fun _ => Answered false;
  path_join_cwd := path_join;
  path_relative := fun from to => str_drop (S (String.length from)) to;
  exec := fun _ w => (None, w)
|}.


(** [icons build], and [icons init] in a project of TypeScript. *)
Definition bare_arguments : arguments :=
  mkArguments (Some "build") false None None None None None None None None false false.

Definition typescript_state : state :=
  mkState (list_to_map [("/proj/tsconfig.json", "{}")]) (list_to_set [EmptyString; "/proj"]).

(** * Properties *)

(** ** The monad *)

Lemma bind_returned {A B} (c : IO A) (k : A -> IO B) w a w' ev :
  c w = mkRun (Returned a) w' ev ->
  bind c k w = mkRun (value (k a w')) (after (k a w')) (ev ++ events (k a w')).
Proof. intros Hc. unfold bind. now rewrite Hc. Qed.

Lemma bind_thrown {A B} (c : IO A) (k : A -> IO B) w e w' ev :
  c w = mkRun (Thrown e) w' ev -> bind c k w = mkRun (Thrown e) w' ev.
Proof. intros Hc. unfold bind. now rewrite Hc. Qed.

Lemma bind_exited {A B} (c : IO A) (k : A -> IO B) w n w' ev :
  c w = mkRun (Exited n) w' ev -> bind c k w = mkRun (Exited n) w' ev.
Proof. intros Hc. unfold bind. now rewrite Hc. Qed.

Lemma run_eta {A} (r : run A) : r = mkRun (value r) (after r) (events r).
Proof. now destruct r. Qed.

Lemma state_eta (w : state) : w = mkState (contents w) (directories w).
Proof. now destruct w. Qed.

Lemma catch_readFile path w :
  catch (readFile path) EmptyString w = mkRun (Returned (current w path)) w [].
Proof.
  unfold catch, readFile, current.
  destruct (contents w !! path); reflexivity.
Qed.

Lemma string_eqb_false (a b : string) : a ≠ b -> String.eqb a b = false.
Proof. intros Hne. now apply String.eqb_neq. Qed.

(** ** The idempotent writer *)

Section Writer.
Context `{Externals}.

Lemma writeIfChanged_same filepath newContent w :
  current w filepath = newContent ->
  writeIfChanged filepath newContent w = mkRun (Returned false) w [].
Proof.
  intros Heq. unfold writeIfChanged.
  rewrite (bind_returned _ _ _ _ _ _ (catch_readFile filepath w)).
  rewrite Heq, String.eqb_refl. reflexivity.
Qed.

Lemma writeIfChanged_differs filepath newContent w :
  current w filepath ≠ newContent ->
  writeIfChanged filepath newContent w =
    if bool_decide (filepath ∈ directories w) then
      mkRun (Thrown (FsError "EISDIR" filepath)) w []
    else if bool_decide (dirname filepath ∈ directories w) then
      mkRun (Returned true)
            (mkState (<[filepath := newContent]> (contents w)) (directories w))
            [WriteFile filepath newContent]
    else mkRun (Thrown (FsError "ENOENT" filepath)) w [].
Proof.
  intros Hne. unfold writeIfChanged.
  rewrite (bind_returned _ _ _ _ _ _ (catch_readFile filepath w)).
  rewrite (string_eqb_false _ _ Hne). cbn [app].
  unfold bind, writeFile.
  destruct (bool_decide (filepath ∈ directories w)); [reflexivity|].
  destruct (bool_decide (dirname filepath ∈ directories w)); reflexivity.
Qed.

(** The three ways a call can end. *)
Lemma writeIfChanged_cases filepath newContent w :
  (current w filepath = newContent /\
   writeIfChanged filepath newContent w = mkRun (Returned false) w [])
  \/ (current w filepath ≠ newContent /\
      (filepath ∉ directories w) /\ (dirname filepath ∈ directories w) /\
      writeIfChanged filepath newContent w =
        mkRun (Returned true)
              (mkState (<[filepath := newContent]> (contents w)) (directories w))
              [WriteFile filepath newContent])
  \/ (current w filepath ≠ newContent /\
      ((filepath ∈ directories w) \/ (dirname filepath ∉ directories w)) /\
      exists e, writeIfChanged filepath newContent w = mkRun (Thrown e) w []).
Proof.
  destruct (decide (current w filepath = newContent)) as [Heq|Hne].
  - left. split; [assumption|]. now apply writeIfChanged_same.
  - right. rewrite (writeIfChanged_differs _ _ _ Hne).
    destruct (bool_decide (filepath ∈ directories w)) eqn:Hdir.
    + right. apply bool_decide_eq_true in Hdir. split; [assumption|].
      split; [now left|]. eexists. reflexivity.
    + apply bool_decide_eq_false in Hdir.
      destruct (bool_decide (dirname filepath ∈ directories w)) eqn:Hpar.
      * left. apply bool_decide_eq_true in Hpar. tauto.
      * right. apply bool_decide_eq_false in Hpar. split; [assumption|].
        split; [now right|]. eexists. reflexivity.
Qed.


End Writer.

(** ** The build, step by step *)

Section Build.
Context `{Externals}.

Lemma logVerbose_run c m w :
  logVerbose c m w = mkRun (Returned tt) w (if verbose c then [Info m] else []).
Proof. unfold logVerbose. now destruct (verbose c). Qed.

Lemma mkdirSync_cases dir w :
  (exists e, mkdirSync dir w = mkRun (Thrown e) w [])
  \/ (mkdirSync dir w = mkRun (Returned tt) (with_directory dir w) [Mkdir dir]
      /\ forall a, a ∈ ancestors dir -> contents w !! a = None).
Proof.
  unfold mkdirSync.
  destruct (existsb _ (ancestors dir)) eqn:Hex.
  - left. eexists. reflexivity.
  - right. split; [reflexivity|].
    intros a Ha. apply list_elem_of_In in Ha.
    destruct (contents w !! a) eqn:Hl; [|reflexivity].
    assert (Htrue : existsb (fun a => bool_decide (is_Some (contents w !! a)))
                      (ancestors dir) = true).
    { apply existsb_exists. exists a. split; [assumption|].
      apply bool_decide_eq_true. rewrite Hl. eauto. }
    congruence.
Qed.

Lemma build_unfold c w :
  build c w =
    if Nat.eqb (List.length (discovered c w)) 0 then
      mkRun (Exited 1) w [Cancel (NoSvgFilesFound (inputDirRelative c))]
    else (mkdirSync (outputDir c) ;; build_icons c (discovered c w)) w.
Proof.
  unfold build. unfold bind at 1. unfold discover. cbn [app].
  fold (discovered c w).
  destruct (Nat.eqb (List.length (discovered c w)) 0).
  - reflexivity.
  - now rewrite <- run_eta.
Qed.

(** C10: when no file is discovered (the input directory is missing or
    holds no svg file), the build reports it and exits with status 1; the
    file system is as it was, the output directory is not created and
    nothing is written. *)
Theorem build_without_input c w :
  discovered c w = [] ->
  build c w = mkRun (Exited 1) w [Cancel (NoSvgFilesFound (inputDirRelative c))]
  /\ (1 ≠ 0)%Z
  /\ existsb is_mkdir (events (build c w)) = false
  /\ existsb is_write (events (build c w)) = false.
Proof.
  intros Hnone. rewrite build_unfold, Hnone. cbn. repeat split. lia.
Qed.

End Build.

(** ** Strings *)

Lemma str_app_cons (x : ascii) (a b : string) : String x a +:+ b = String x (a +:+ b).
Proof. reflexivity. Qed.

Lemma str_app_nil_l (a : string) : EmptyString +:+ a = a.
Proof. reflexivity. Qed.

Lemma str_app_assoc (a b c : string) : (a +:+ b) +:+ c = a +:+ (b +:+ c).
Proof. induction a as [|x a IH]; rewrite ?str_app_cons, ?str_app_nil_l; cbn; congruence. Qed.

Lemma str_length_app (a b : string) :
  String.length (a +:+ b) = (String.length a + String.length b)%nat.
Proof. induction a as [|x a IH]; rewrite ?str_app_cons, ?str_app_nil_l; cbn; congruence. Qed.

Lemma list_of_str_app (a b : string) :
  list_ascii_of_string (a +:+ b) = list_ascii_of_string a ++ list_ascii_of_string b.
Proof. induction a as [|x a IH]; rewrite ?str_app_cons, ?str_app_nil_l; cbn; congruence. Qed.

Lemma str_of_list_app (l1 l2 : list ascii) :
  string_of_list_ascii (l1 ++ l2) = string_of_list_ascii l1 +:+ string_of_list_ascii l2.
Proof. induction l1 as [|x l1 IH]; simpl; rewrite ?str_app_cons, ?str_app_nil_l; congruence. Qed.

Lemma str_rev_app (a b : string) : str_rev (a +:+ b) = str_rev b +:+ str_rev a.
Proof.
  unfold str_rev. now rewrite list_of_str_app, rev_app_distr, str_of_list_app.
Qed.





(** ** The attribute object *)












Lemma array_join_cons sep x l :
  array_join sep (x :: l) =
    match l with [] => x | _ :: _ => x +:+ sep +:+ array_join sep l end.
Proof. now destruct l. Qed.



(** ** The symbol normalizer *)

Section Normalizer.
Context `{Externals}.

Lemma symbol_of_file_run inputDir file w :
  symbol_of_file inputDir file w =
    match contents w !! path_join inputDir file with
    | None => mkRun (Thrown (FsError "ENOENT" (path_join inputDir file))) w []
    | Some input =>
        match querySelector (parse input) "svg" with
        | None => mkRun (Thrown (JsError "No SVG element found")) w [Parse input]
        | Some svg =>
            mkRun (Returned (trim (toString (to_symbol file svg)))) w [Parse input]
        end
    end.
Proof.
  unfold symbol_of_file, bind, readFile, emit.
  destruct (contents w !! path_join inputDir file) as [input|]; [|reflexivity].
  destruct (querySelector (parse input) "svg"); reflexivity.
Qed.

End Normalizer.







(** ** The sprite assembler *)

Section Assembler.
Context `{Externals}.

Lemma symbol_of_file_after inputDir file w :
  after (symbol_of_file inputDir file w) = w.
Proof.
  rewrite symbol_of_file_run.
  destruct (contents w !! path_join inputDir file) as [input|]; [|reflexivity].
  destruct (querySelector (parse input) "svg"); reflexivity.
Qed.

Lemma symbol_of_file_no_write inputDir file w :
  existsb is_write (events (symbol_of_file inputDir file w)) = false.
Proof.
  rewrite symbol_of_file_run.
  destruct (contents w !! path_join inputDir file) as [input|]; [|reflexivity].
  destruct (querySelector (parse input) "svg"); reflexivity.
Qed.

Lemma symbol_of_file_agree inputDir file w w2 :
  contents w2 !! path_join inputDir file = contents w !! path_join inputDir file ->
  value (symbol_of_file inputDir file w2) = value (symbol_of_file inputDir file w)
  /\ events (symbol_of_file inputDir file w2) = events (symbol_of_file inputDir file w).
Proof.
  intros Hsame. rewrite !symbol_of_file_run, Hsame.
  destruct (contents w !! path_join inputDir file) as [input|]; [|now split].
  destruct (querySelector (parse input) "svg"); now split.
Qed.

Lemma promise_all_map_cons {A B} (f : A -> IO B) x xs w :
  promise_all_map f (x :: xs) w =
    match f x w with
    | mkRun (Returned y) w1 ev1 =>
        match promise_all_map f xs w1 with
        | mkRun (Returned ys) w2 ev2 => mkRun (Returned (y :: ys)) w2 (ev1 ++ ev2)
        | mkRun (Thrown e) w2 ev2 => mkRun (Thrown e) w2 (ev1 ++ ev2)
        | mkRun (Exited n) w2 ev2 => mkRun (Exited n) w2 (ev1 ++ ev2)
        end
    | mkRun (Thrown e) w1 ev1 => mkRun (Thrown e) w1 ev1
    | mkRun (Exited n) w1 ev1 => mkRun (Exited n) w1 ev1
    end.
Proof.
  cbn [promise_all_map]. unfold bind at 1.
  destruct (f x w) as [[y|e|n] w1 ev1]; try reflexivity.
  unfold bind, ret. cbn.
  destruct (promise_all_map f xs w1) as [[ys|e|n] w2 ev2]; cbn;
    rewrite ?app_nil_r; reflexivity.
Qed.

(** The tasks of [generateSvgSprite] leave the file system alone and
    write nothing. *)
Lemma symbols_after inputDir files w :
  after (promise_all_map (symbol_of_file inputDir) files w) = w
  /\ existsb is_write (events (promise_all_map (symbol_of_file inputDir) files w)) = false.
Proof.
  induction files as [|file files IH]; [now split|].
  rewrite promise_all_map_cons.
  pose proof (symbol_of_file_after inputDir file w) as Hafter.
  pose proof (symbol_of_file_no_write inputDir file w) as Hnw.
  destruct (symbol_of_file inputDir file w) as [[y|e|n] w1 ev1]; cbn in Hafter, Hnw;
    subst w1; try (now split).
  destruct IH as [IHa IHw].
  destruct (promise_all_map (symbol_of_file inputDir) files w) as [[ys|e|n] w2 ev2];
    cbn in IHa, IHw |- *; subst w2; rewrite existsb_app, Hnw, IHw; now split.
Qed.

(** They return the fragments of the files, in the order of the files. *)
Lemma symbols_in_order inputDir files w symbols :
  value (promise_all_map (symbol_of_file inputDir) files w) = Returned symbols ->
  Forall2 (fun file symbol => value (symbol_of_file inputDir file w) = Returned symbol)
          files symbols.
Proof.
  revert symbols. induction files as [|file files IH]; intros symbols.
  - cbn. intros [= <-]. constructor.
  - rewrite promise_all_map_cons.
    pose proof (symbol_of_file_after inputDir file w) as Hafter.
    destruct (symbol_of_file inputDir file w) as [[y|e|n] w1 ev1] eqn:Hf;
      cbn in Hafter; subst w1; try discriminate.
    destruct (promise_all_map (symbol_of_file inputDir) files w) as [[ys|e|n] w2 ev2];
      cbn; try discriminate.
    intros [= <-]. constructor; [now rewrite Hf|]. now apply IH.
Qed.

(** Their outcome is a function of the texts of the input files. *)
Lemma symbols_agree inputDir files w w2 :
  (forall file, file ∈ files ->
     contents w2 !! path_join inputDir file = contents w !! path_join inputDir file) ->
  value (promise_all_map (symbol_of_file inputDir) files w2) =
    value (promise_all_map (symbol_of_file inputDir) files w)
  /\ events (promise_all_map (symbol_of_file inputDir) files w2) =
       events (promise_all_map (symbol_of_file inputDir) files w).
Proof.
  induction files as [|file files IH]; intros Hsame; [now split|].
  rewrite !promise_all_map_cons.
  destruct (symbol_of_file_agree inputDir file w w2) as [Hv He].
  { apply Hsame, elem_of_cons. now left. }
  pose proof (symbol_of_file_after inputDir file w) as Ha.
  pose proof (symbol_of_file_after inputDir file w2) as Ha2.
  destruct (symbol_of_file inputDir file w) as [v w1 ev1].
  destruct (symbol_of_file inputDir file w2) as [v2 w1' ev1'].
  cbn in Hv, He, Ha, Ha2. subst v2 ev1' w1 w1'.
  destruct v as [y|e|n]; try (now split).
  destruct IH as [IHv IHe].
  { intros f Hf. apply Hsame, elem_of_cons. now right. }
  destruct (promise_all_map (symbol_of_file inputDir) files w) as [v w3 ev3].
  destruct (promise_all_map (symbol_of_file inputDir) files w2) as [v2 w3' ev3'].
  cbn in IHv, IHe. subst v2 ev3'.
  destruct v; now split.
Qed.

End Assembler.

Lemma lines_app (a b : list string) : lines (a ++ b) = lines a +:+ lines b.
Proof.
  induction a as [|x a IH]; [reflexivity|].
  cbn [lines app]. now rewrite IH, str_app_assoc.
Qed.

Lemma array_join_lines (texts : list string) :
  array_join nl (texts ++ [EmptyString]) = lines texts.
Proof.
  induction texts as [|x texts IH]; [reflexivity|].
  cbn [app]. rewrite array_join_cons.
  destruct (texts ++ [EmptyString]) eqn:Hl.
  - now destruct texts.
  - rewrite IH. cbn [lines]. unfold line. now rewrite str_app_assoc.
Qed.

Section Sprite.
Context `{Externals}.

Lemma sprite_document_spec symbols :
  sprite_document symbols = spec_sprite_document symbols.
Proof.
  unfold sprite_document.
  change [ "</defs>"; "</svg>"; EmptyString ]
    with ([ "</defs>"; "</svg>" ] ++ [EmptyString]).
  rewrite !app_assoc, array_join_lines, <- app_assoc, !lines_app.
  unfold spec_sprite_document.
  change (lines sprite_header) with
    (line ("<?xml " +:+ attr "version" "1.0" +:+ " " +:+ attr "encoding" "UTF-8" +:+ "?>")
     +:+ line "<!-- This file is generated by npm run build:icons -->"
     +:+ line ("<svg " +:+ attr "xmlns" "http://www.w3.org/2000/svg"
               +:+ " " +:+ attr "xmlns:xlink" "http://www.w3.org/1999/xlink"
               +:+ " " +:+ attr "width" "0" +:+ " " +:+ attr "height" "0" +:+ ">")
     +:+ line "<defs>").
  change (lines [ "</defs>"; "</svg>" ]) with (line "</defs>" +:+ line "</svg>").
  now rewrite !str_app_assoc.
Qed.

Lemma sprite_output_run files inputDir opt w :
  sprite_output files inputDir opt w =
    let r := promise_all_map (symbol_of_file inputDir) files w in
    match value r with
    | Returned symbols =>
        if opt then
          match optimize (sprite_document symbols) with
          | inr data => mkRun (Returned data) w (events r)
          | inl e => mkRun (Thrown e) w (events r)
          end
        else mkRun (Returned (sprite_document symbols)) w (events r)
    | Thrown e => mkRun (Thrown e) w (events r)
    | Exited n => mkRun (Exited n) w (events r)
    end.
Proof.
  unfold sprite_output, bind. cbv zeta.
  destruct (symbols_after inputDir files w) as [Hafter _].
  destruct (promise_all_map (symbol_of_file inputDir) files w) as [[symbols|e|n] w1 ev];
    cbn [value after events] in Hafter |- *; subst w1; try reflexivity.
  unfold ret, throw.
  destruct opt; [destruct (optimize (sprite_document symbols))|];
    cbn [value after events]; now rewrite app_nil_r.
Qed.

Lemma sprite_output_after files inputDir opt w :
  after (sprite_output files inputDir opt w) = w
  /\ existsb is_write (events (sprite_output files inputDir opt w)) = false.
Proof.
  rewrite sprite_output_run. cbn zeta.
  destruct (symbols_after inputDir files w) as [_ Hnw].
  destruct (value (promise_all_map (symbol_of_file inputDir) files w)) as [symbols|e|n];
    try (now split).
  destruct opt; [|now split].
  destruct (optimize (sprite_document symbols)); now split.
Qed.

Lemma sprite_output_agree files inputDir opt w w2 :
  (forall file, file ∈ files ->
     contents w2 !! path_join inputDir file = contents w !! path_join inputDir file) ->
  value (sprite_output files inputDir opt w2) = value (sprite_output files inputDir opt w).
Proof.
  intros Hsame. rewrite !sprite_output_run. cbn zeta.
  destruct (symbols_agree inputDir files w w2 Hsame) as [-> _].
  destruct (value (promise_all_map (symbol_of_file inputDir) files w)) as [symbols|e|n];
    try reflexivity.
  destruct opt; [|reflexivity].
  destruct (optimize (sprite_document symbols)); reflexivity.
Qed.

Lemma spec_sprite_document_nonempty symbols :
  spec_sprite_document symbols ≠ EmptyString.
Proof. unfold spec_sprite_document. discriminate. Qed.

(** C6: with the optimizer disabled, the document [generateSvgSprite]
    assembles from the fragments of the files (in the order of the files)
    is the XML declaration line, the generated-file comment line, the
    root [svg] line with both namespaces and zero width and height, the
    [defs] line, one line per fragment, and the two closing lines, each
    ended by a newline; this is the text [generateSvgSprite] leaves in
    the sprite file when it returns. *)
Theorem sprite_assembly files inputDir outputPath w symbols :
  value (promise_all_map (symbol_of_file inputDir) files w) = Returned symbols ->
  Forall2 (fun file symbol => value (symbol_of_file inputDir file w) = Returned symbol)
          files symbols
  /\ value (sprite_output files inputDir false w) = Returned (spec_sprite_document symbols)
  /\ (forall changed,
        value (generateSvgSprite files inputDir outputPath false w) = Returned changed ->
        contents (after (generateSvgSprite files inputDir outputPath false w)) !! outputPath
          = Some (spec_sprite_document symbols)).
Proof.
  intros Hsymbols.
  split; [now apply symbols_in_order|].
  assert (Hout : sprite_output files inputDir false w =
                   mkRun (Returned (spec_sprite_document symbols)) w
                     (events (promise_all_map (symbol_of_file inputDir) files w))).
  { rewrite sprite_output_run. cbn zeta. rewrite Hsymbols.
    now rewrite sprite_document_spec. }
  split; [now rewrite Hout|].
  intros changed. unfold generateSvgSprite.
  rewrite (bind_returned _ _ _ _ _ _ Hout).
  destruct (writeIfChanged_cases outputPath (spec_sprite_document symbols) w)
    as [[Heq Hr]|[(Hne & _ & _ & Hr)|(Hne & _ & e & Hr)]]; rewrite Hr; cbn.
  - intros _. unfold current in Heq.
    destruct (contents w !! outputPath) as [text|]; cbn in Heq; [now subst text|].
    symmetry in Heq. now apply spec_sprite_document_nonempty in Heq.
  - intros _. apply lookup_insert_eq.
  - discriminate.
Qed.

End Sprite.

(** ** The body of the build *)

Lemma bind_assoc {A B C} (c : IO A) (f : A -> IO B) (g : B -> IO C) w :
  bind (bind c f) g w = bind c (fun a => bind (f a) g) w.
Proof.
  unfold bind.
  destruct (c w) as [[a|e|n] w1 ev1]; try reflexivity.
  destruct (f a w1) as [[b|e|n] w2 ev2]; cbn [value after events]; try reflexivity.
  destruct (g b w2) as [v w3 ev3]; cbn [value after events].
  now rewrite app_assoc.
Qed.

Section Body.
Context `{Externals}.

Lemma build_icons_run c files w :
  build_icons c files w =
    if up_to_date c files w then
      mkRun (Returned tt) w (verbose_log c IconsUpToDate)
    else
      let ro := sprite_output files (inputDir c) (shouldOptimize c) w in
      let log1 := verbose_log c (GeneratingSprite (inputDirRelative c)) in
      match value ro with
      | Returned output =>
          let r := write_outputs c files output w in
          mkRun (value r) (after r) (log1 ++ events ro ++ events r)
      | Thrown e => mkRun (Thrown e) w (log1 ++ events ro)
      | Exited n => mkRun (Exited n) w (log1 ++ events ro)
      end.
Proof.
  unfold build_icons.
  rewrite (bind_returned _ _ _ _ _ _ (catch_readFile (spriteFilepath c) w)).
  rewrite (bind_returned _ _ _ _ _ _ (catch_readFile (typeOutputFilepath c) w)).
  cbv zeta. fold (up_to_date c files w).
  destruct (up_to_date c files w).
  - rewrite (bind_returned _ _ _ _ _ _ (logVerbose_run c IconsUpToDate w)).
    cbn [value after events app]. unfold verbose_log. now rewrite app_nil_r.
  - rewrite (bind_returned _ _ _ _ _ _ (logVerbose_run c _ w)).
    unfold generateSvgSprite. rewrite bind_assoc.
    destruct (sprite_output_after files (inputDir c) (shouldOptimize c) w) as [Hafter _].
    destruct (sprite_output files (inputDir c) (shouldOptimize c) w) as [[output|e|n] w1 ev]
      eqn:Hout; cbn [value after events] in Hafter |- *; subst w1.
    + rewrite (bind_returned _ _ _ _ _ _ Hout). reflexivity.
    + rewrite (bind_thrown _ _ _ _ _ _ Hout). reflexivity.
    + rewrite (bind_exited _ _ _ _ _ _ Hout). reflexivity.
Qed.

End Body.

(** ** The three output files *)

Lemma path_join_rev dir name :
  str_rev (path_join dir name) = str_rev name +:+ "/" +:+ str_rev dir.
Proof. unfold path_join. now rewrite !str_rev_app, str_app_assoc. Qed.

Lemma sprite_path_not_types a b : path_join a "sprite.svg" ≠ path_join b "name.d.ts".
Proof. intros Heq. apply (f_equal str_rev) in Heq. rewrite !path_join_rev in Heq. discriminate. Qed.

Lemma sprite_path_not_readme a b : path_join a "sprite.svg" ≠ path_join b "README.md".
Proof. intros Heq. apply (f_equal str_rev) in Heq. rewrite !path_join_rev in Heq. discriminate. Qed.

Lemma types_path_not_readme a b : path_join a "name.d.ts" ≠ path_join b "README.md".
Proof. intros Heq. apply (f_equal str_rev) in Heq. rewrite !path_join_rev in Heq. discriminate. Qed.

Lemma current_agree w w' path :
  contents w' !! path = contents w !! path -> current w' path = current w path.
Proof. unfold current. now intros ->. Qed.

Section Outputs.
Context `{Externals}.

(** One call of [writeIfChanged]: either it returns, and then the file
    holds the new content and every other path is as it was, or the
    write fails and nothing has changed. *)
Lemma writeIfChanged_step filepath newContent w :
  (exists changed w' ev,
      writeIfChanged filepath newContent w = mkRun (Returned changed) w' ev
      /\ current w' filepath = newContent
      /\ directories w' = directories w
      /\ (forall p, p ≠ filepath -> contents w' !! p = contents w !! p)
      /\ (forall p, p ∈ directories w -> contents w' !! p = contents w !! p)
      /\ existsb is_write ev = changed)
  \/ (exists e, writeIfChanged filepath newContent w = mkRun (Thrown e) w []).
Proof.
  destruct (writeIfChanged_cases filepath newContent w)
    as [[Heq Hr]|[(Hne & Hnd & Hpar & Hr)|(Hne & _ & e & Hr)]].
  - left. exists false, w, []. repeat split; auto.
  - left. eexists true, _, _. split; [exact Hr|]. cbn.
    split; [unfold current; cbn; now rewrite lookup_insert_eq|].
    split; [reflexivity|].
    split; [intros p Hp; now rewrite lookup_insert_ne|].
    split; [|reflexivity].
    intros p Hp. rewrite lookup_insert_ne; [reflexivity|]. now intros ->.
  - right. now exists e.
Qed.

Lemma for_of_log c files w :
  for_of files (fun file => logVerbose c (Processed file)) w =
    mkRun (Returned tt) w (processed_log c files).
Proof.
  unfold processed_log.
  induction files as [|file files IH]; cbn [for_of].
  - now destruct (verbose c).
  - rewrite (bind_returned _ _ _ _ _ _ (logVerbose_run c (Processed file) w)).
    rewrite IH. cbn [value after events]. now destruct (verbose c).
Qed.

Lemma write_outputs_run c files output w :
  write_outputs c files output w =
    let r1 := writeIfChanged (spriteFilepath c) output w in
    match value r1 with
    | Returned b1 =>
        let r2 := writeIfChanged (typeOutputFilepath c)
                    (typeOutputContent (List.map iconName files)) (after r1) in
        match value r2 with
        | Returned b2 =>
            let r3 := writeIfChanged (readmeFilepath c) readmeContent (after r2) in
            let log3 := events r1 ++ sprite_saved_log c files ++ events r2
                        ++ verbose_log c (ManifestSavedTo (typeOutputFilepath c))
                        ++ events r3 in
            match value r3 with
            | Returned b3 =>
                mkRun (Returned tt) (after r3)
                  (log3 ++ if (b1 || b2 || b3)%bool
                           then [Info (GeneratedIcons (List.length files))] else [])
            | Thrown e => mkRun (Thrown e) (after r3) log3
            | Exited n => mkRun (Exited n) (after r3) log3
            end
        | Thrown e =>
            mkRun (Thrown e) (after r2) (events r1 ++ sprite_saved_log c files ++ events r2)
        | Exited n =>
            mkRun (Exited n) (after r2) (events r1 ++ sprite_saved_log c files ++ events r2)
        end
    | Thrown e => mkRun (Thrown e) (after r1) (events r1)
    | Exited n => mkRun (Exited n) (after r1) (events r1)
    end.
Proof.
  unfold write_outputs, sprite_saved_log. cbv zeta.
  destruct (writeIfChanged (spriteFilepath c) output w) as [[b1|e|n] w1 ev1] eqn:H1;
    cbn [value after events];
    [rewrite (bind_returned _ _ _ _ _ _ H1)
    |now rewrite (bind_thrown _ _ _ _ _ _ H1)
    |now rewrite (bind_exited _ _ _ _ _ _ H1)].
  rewrite (bind_returned _ _ _ _ _ _ (for_of_log c files w1)).
  rewrite (bind_returned _ _ _ _ _ _ (logVerbose_run c _ w1)).
  fold (verbose_log c (SavedTo (spriteFilepath c))).
  destruct (writeIfChanged (typeOutputFilepath c) _ w1) as [[b2|e|n] w2 ev2] eqn:H2;
    cbn [value after events];
    [rewrite (bind_returned _ _ _ _ _ _ H2)
    |rewrite (bind_thrown _ _ _ _ _ _ H2); cbn [value after events];
     now rewrite <- !app_assoc
    |rewrite (bind_exited _ _ _ _ _ _ H2); cbn [value after events];
     now rewrite <- !app_assoc].
  rewrite (bind_returned _ _ _ _ _ _ (logVerbose_run c _ w2)).
  fold (verbose_log c (ManifestSavedTo (typeOutputFilepath c))).
  destruct (writeIfChanged (readmeFilepath c) readmeContent w2) as [[b3|e|n] w3 ev3] eqn:H3;
    cbn [value after events];
    [rewrite (bind_returned _ _ _ _ _ _ H3)
    |rewrite (bind_thrown _ _ _ _ _ _ H3); cbn [value after events];
     now rewrite <- !app_assoc
    |rewrite (bind_exited _ _ _ _ _ _ H3); cbn [value after events];
     now rewrite <- !app_assoc].
  destruct (b1 || b2 || b3)%bool; cbn [value after events emit ret];
    now rewrite <- !app_assoc.
Qed.

End Outputs.

Section Settled.
Context `{Externals}.

Lemma verbose_log_no_write c m : existsb is_write (verbose_log c m) = false.
Proof. unfold verbose_log. now destruct (verbose c). Qed.

Lemma processed_log_no_write c files : existsb is_write (processed_log c files) = false.
Proof.
  unfold processed_log. destruct (verbose c); [|reflexivity].
  induction files as [|file files IH]; [reflexivity|exact IH].
Qed.

Lemma sprite_saved_log_no_write c files :
  existsb is_write (sprite_saved_log c files) = false.
Proof.
  unfold sprite_saved_log.
  now rewrite existsb_app, processed_log_no_write, verbose_log_no_write.
Qed.

Lemma settled_quiet c files output w :
  settled c files output w -> quiet (write_outputs c files output w) w.
Proof.
  unfold settled, skips, fails, quiet. rewrite write_outputs_run. cbv zeta.
  intros [[e H1]|[H1 [[e H2]|[H2 [[e H3]|H3]]]]]; rewrite H1; cbn [value after events];
    try (now split); rewrite H2; cbn [value after events];
    rewrite ?H3; cbn [value after events orb app];
    rewrite ?app_nil_r, ?existsb_app, ?sprite_saved_log_no_write, ?verbose_log_no_write;
    now split.
Qed.

(** After [write_outputs] the file system is settled for the same
    content; only paths that are not directories have changed; and when it
    returned, the three files hold the three contents. *)
Lemma write_outputs_settles c files output w :
  let r := write_outputs c files output w in
  settled c files output (after r)
  /\ directories (after r) = directories w
  /\ (forall p, p ∈ directories w -> contents (after r) !! p = contents w !! p)
  /\ (forall p, p ≠ spriteFilepath c -> p ≠ typeOutputFilepath c ->
                p ≠ readmeFilepath c -> contents (after r) !! p = contents w !! p)
  /\ (value r = Returned tt ->
      current (after r) (spriteFilepath c) = output
      /\ current (after r) (typeOutputFilepath c) = typeOutputContent (List.map iconName files)
      /\ current (after r) (readmeFilepath c) = readmeContent)
  /\ (forall code, value r ≠ Exited code).
Proof.
  cbv zeta. rewrite write_outputs_run. cbv zeta.
  pose proof (sprite_path_not_types (spriteDir c) (outputDir c)) as Hst.
  pose proof (sprite_path_not_readme (spriteDir c) (outputDir c)) as Hsr.
  pose proof (types_path_not_readme (outputDir c) (outputDir c)) as Htr.
  fold (spriteFilepath c) in Hst, Hsr. fold (typeOutputFilepath c) in Hst, Htr.
  fold (readmeFilepath c) in Hsr, Htr.
  destruct (writeIfChanged_step (spriteFilepath c) output w)
    as [(b1 & w1 & ev1 & H1 & Hc1 & Hd1 & Ho1 & Hk1 & _)|[e H1]];
    rewrite H1; cbn [value after events].
  2:{ split; [left; now exists e|]. repeat split; intros; congruence. }
  destruct (writeIfChanged_step (typeOutputFilepath c)
              (typeOutputContent (List.map iconName files)) w1)
    as [(b2 & w2 & ev2 & H2 & Hc2 & Hd2 & Ho2 & Hk2 & _)|[e H2]];
    rewrite H2; cbn [value after events].
  2:{ split.
      { right. split; [now apply writeIfChanged_same|]. left. now exists e. }
      repeat split; intros; try congruence; auto. }
  assert (Hc12 : current w2 (spriteFilepath c) = output).
  { rewrite <- Hc1. apply current_agree, Ho2. exact Hst. }
  destruct (writeIfChanged_step (readmeFilepath c) readmeContent w2)
    as [(b3 & w3 & ev3 & H3 & Hc3 & Hd3 & Ho3 & Hk3 & _)|[e H3]];
    rewrite H3; cbn [value after events].
  2:{ split.
      { right. split; [now apply writeIfChanged_same|].
        right. split; [now apply writeIfChanged_same|]. left. now exists e. }
      repeat split; intros; try congruence.
      - rewrite Hk2, Hk1; auto. now rewrite Hd1.
      - rewrite Ho2, Ho1; auto. }
  assert (Hc13 : current w3 (spriteFilepath c) = output).
  { rewrite <- Hc12. apply current_agree, Ho3. exact Hsr. }
  assert (Hc23 : current w3 (typeOutputFilepath c) =
                 typeOutputContent (List.map iconName files)).
  { rewrite <- Hc2. apply current_agree, Ho3. exact Htr. }
  split.
  { right. split; [now apply writeIfChanged_same|].
    right. split; [now apply writeIfChanged_same|].
    right. now apply writeIfChanged_same. }
  repeat split; intros; try congruence.
  - rewrite Hk3, Hk2, Hk1; auto; congruence.
  - rewrite Ho3, Ho2, Ho1; auto.
Qed.

End Settled.

(** ** Running the build again *)

Section Again.
Context `{Externals}.

Lemma up_to_date_contents c files w w' :
  contents w' = contents w -> up_to_date c files w' = up_to_date c files w.
Proof. unfold up_to_date, current. now intros ->. Qed.

Lemma mkdirSync_again dir w w1 :
  (forall a, a ∈ ancestors dir -> contents w1 !! a = None) ->
  directories w1 = directories w ∪ list_to_set (ancestors dir) ->
  mkdirSync dir w1 = mkRun (Returned tt) w1 [Mkdir dir].
Proof.
  intros Hfree Hdirs. unfold mkdirSync.
  destruct (existsb _ (ancestors dir)) eqn:Hex.
  - apply existsb_exists in Hex as (a & Hin & Hfile).
    apply bool_decide_eq_true in Hfile. apply list_elem_of_In in Hin.
    rewrite (Hfree a Hin) in Hfile. now destruct Hfile.
  - f_equal. rewrite (state_eta w1) at 3. f_equal.
    now rewrite Hdirs, <- (assoc_L (∪)), (idemp_L (∪)).
Qed.

Lemma build_icons_frame c files w :
  let r := build_icons c files w in
  directories (after r) = directories w
  /\ (forall p, p ∈ directories w -> contents (after r) !! p = contents w !! p)
  /\ (forall p, p ≠ spriteFilepath c -> p ≠ typeOutputFilepath c ->
                p ≠ readmeFilepath c -> contents (after r) !! p = contents w !! p).
Proof.
  cbv zeta. rewrite build_icons_run.
  destruct (up_to_date c files w); [now repeat split|]. cbv zeta.
  destruct (value (sprite_output files (inputDir c) (shouldOptimize c) w)) as [output|e|n];
    [|now repeat split|now repeat split].
  cbn [after].
  destruct (write_outputs_settles c files output w) as (_ & Hd & Hk & Ho & _).
  now repeat split.
Qed.

(** The body of the build, run on the file system it left behind with the
    input files as they were, changes nothing. *)
Lemma build_icons_again c files w :
  let w1 := after (build_icons c files w) in
  (forall file, file ∈ files ->
     contents w1 !! path_join (inputDir c) file = contents w !! path_join (inputDir c) file) ->
  quiet (build_icons c files w1) w1.
Proof.
  cbv zeta. intros Hinputs.
  assert (Hquiet_up : forall w', up_to_date c files w' = true ->
                                 quiet (build_icons c files w') w').
  { intros w' Hup. rewrite build_icons_run, Hup. split; [reflexivity|].
    apply verbose_log_no_write. }
  assert (Hquiet_fail : forall w',
             (forall output, value (sprite_output files (inputDir c) (shouldOptimize c) w')
                             ≠ Returned output) ->
             quiet (build_icons c files w') w').
  { intros w' Hfail. rewrite build_icons_run.
    destruct (up_to_date c files w'); [split; [reflexivity|apply verbose_log_no_write]|].
    cbv zeta.
    destruct (sprite_output_after files (inputDir c) (shouldOptimize c) w') as [_ Hnw].
    destruct (value (sprite_output files (inputDir c) (shouldOptimize c) w')) as [output|e|n];
      [now destruct (Hfail output)| |];
      (split; [reflexivity|]); cbn [events];
      now rewrite existsb_app, verbose_log_no_write, Hnw. }
  revert Hinputs. rewrite (build_icons_run c files w).
  destruct (up_to_date c files w) eqn:Hup; [intros _; now apply Hquiet_up|].
  cbv zeta.
  destruct (value (sprite_output files (inputDir c) (shouldOptimize c) w))
    as [output|e|n] eqn:Hout; cbn [after]; intros Hinputs.
  - set (w1 := after (write_outputs c files output w)) in *.
    destruct (write_outputs_settles c files output w) as (Hsettled & _).
    fold w1 in Hsettled. apply settled_quiet in Hsettled as [Hafter Hnw].
    rewrite build_icons_run.
    destruct (up_to_date c files w1);
      [split; [reflexivity|apply verbose_log_no_write]|].
    cbv zeta.
    rewrite (sprite_output_agree files (inputDir c) (shouldOptimize c) w w1 Hinputs), Hout.
    destruct (sprite_output_after files (inputDir c) (shouldOptimize c) w1) as [_ Hnw1].
    split; [exact Hafter|].
    cbn [events]. now rewrite !existsb_app, verbose_log_no_write, Hnw1, Hnw.
  - apply Hquiet_fail. intros output. rewrite Hout. discriminate.
  - apply Hquiet_fail. intros output. rewrite Hout. discriminate.
Qed.

End Again.

Section Idempotence.
Context `{Externals}.

Lemma ancestor_in_directory dir w a :
  a ∈ ancestors dir -> a ∈ directories (with_directory dir w).
Proof.
  intros Ha. unfold with_directory. cbn [directories].
  apply elem_of_union_r. now apply elem_of_list_to_set.
Qed.

(** The build past [mkdirSync], when files were discovered and the
    directory could be made. *)
Lemma build_made_directory c w :
  discovered c w ≠ [] ->
  mkdirSync (outputDir c) w =
    mkRun (Returned tt) (with_directory (outputDir c) w) [Mkdir (outputDir c)] ->
  build c w =
    let r := build_icons c (discovered c w) (with_directory (outputDir c) w) in
    mkRun (value r) (after r) (Mkdir (outputDir c) :: events r).
Proof.
  intros Hfiles Hmk. rewrite build_unfold.
  destruct (discovered c w) as [|file files] eqn:Hd; [congruence|].
  cbn [List.length Nat.eqb].
  now rewrite (bind_returned _ _ _ _ _ _ Hmk).
Qed.

(** C1: when a second build follows a first one with the inputs unchanged
    (the same files are discovered and they hold the same text), the
    second build leaves the file system as it is and writes no file; and
    after a first build that regenerated the outputs and returned, the
    regenerated sprite, the manifest and the README are what the files
    hold, so that [writeIfChanged] returns false for each of them. *)
Theorem build_twice_writes_nothing c w :
  let first := build c w in
  let w1 := after first in
  discovered c w1 = discovered c w ->
  (forall file, file ∈ discovered c w ->
     contents w1 !! path_join (inputDir c) file = contents w !! path_join (inputDir c) file) ->
  let second := build c w1 in
  after second = w1
  /\ existsb is_write (events second) = false
  /\ (value first = Returned tt ->
      up_to_date c (discovered c w) w = false ->
      exists output,
        value (sprite_output (discovered c w) (inputDir c) (shouldOptimize c) w1)
          = Returned output
        /\ writeIfChanged (spriteFilepath c) output w1 = mkRun (Returned false) w1 []
        /\ writeIfChanged (typeOutputFilepath c)
             (typeOutputContent (List.map iconName (discovered c w))) w1
           = mkRun (Returned false) w1 []
        /\ writeIfChanged (readmeFilepath c) readmeContent w1
           = mkRun (Returned false) w1 []).
Proof.
  cbv zeta. intros Hsame Hinputs.
  destruct (discovered c w) as [|file0 files0] eqn:Hfiles.
  { (* nothing discovered: both runs exit at once *)
    assert (Hfirst : build c w = mkRun (Exited 1) w
                       [Cancel (NoSvgFilesFound (inputDirRelative c))]).
    { rewrite build_unfold, Hfiles. reflexivity. }
    rewrite Hfirst in *. cbn [after value] in *.
    rewrite Hfirst. cbn. repeat split. discriminate. }
  set (files := file0 :: files0) in *.
  assert (Hne : discovered c w ≠ []) by (rewrite Hfiles; discriminate).
  destruct (mkdirSync_cases (outputDir c) w) as [[e Hmk]|[Hmk Hfree]].
  { (* the directory cannot be made: both runs stop there *)
    assert (Hfirst : build c w = mkRun (Thrown e) w []).
    { rewrite build_unfold, Hfiles. cbn [List.length Nat.eqb ].
      now rewrite (bind_thrown _ _ _ _ _ _ Hmk). }
    rewrite Hfirst in *. cbn [after value] in *.
    rewrite Hfirst. cbn. repeat split. discriminate. }
  pose proof (build_made_directory c w Hne Hmk) as Hfirst. cbv zeta in Hfirst.
  rewrite Hfiles in Hfirst.
  set (wm := with_directory (outputDir c) w) in *.
  rewrite Hfirst in *. cbn [after value] in *.
  set (w1 := after (build_icons c files wm)) in *.
  destruct (build_icons_frame c files wm) as (Hdirs & Hkeep & _). fold w1 in Hdirs, Hkeep.
  assert (Hmk1 : mkdirSync (outputDir c) w1 = mkRun (Returned tt) w1 [Mkdir (outputDir c)]).
  { apply (mkdirSync_again _ w); [|exact Hdirs].
    intros a Ha. rewrite Hkeep; [now apply Hfree|]. now apply ancestor_in_directory. }
  assert (Hw1 : with_directory (outputDir c) w1 = w1).
  { unfold mkdirSync in Hmk1.
    destruct (existsb _ (ancestors (outputDir c))); [discriminate|].
    now injection Hmk1. }
  assert (Hne1 : discovered c w1 ≠ []) by (rewrite Hsame; discriminate).
  pose proof (build_made_directory c w1 Hne1) as Hsecond. cbv zeta in Hsecond.
  rewrite Hw1, Hsame in Hsecond. specialize (Hsecond Hmk1).
  assert (Hinputs1 : forall file, file ∈ files ->
            contents w1 !! path_join (inputDir c) file =
            contents wm !! path_join (inputDir c) file).
  { intros f Hf. now rewrite Hinputs. }
  destruct (build_icons_again c files wm Hinputs1) as [Hafter Hnw]. fold w1 in Hafter, Hnw.
  rewrite Hsecond. cbn [after events existsb is_write orb].
  split; [exact Hafter|]. split; [exact Hnw|].
  (* what the files hold after a first run that regenerated them *)
  intros Hret Hup.
  assert (Hupm : up_to_date c files wm = false).
  { rewrite <- Hup. now apply up_to_date_contents. }
  subst w1. revert Hret. rewrite (build_icons_run c files wm), Hupm. cbv zeta.
  destruct (value (sprite_output files (inputDir c) (shouldOptimize c) wm))
    as [output|e|n] eqn:Hout; cbn [value after]; [|discriminate|discriminate].
  intros Hret. exists output.
  destruct (write_outputs_settles c files output wm) as (_ & _ & _ & _ & Hheld & _).
  destruct (Hheld Hret) as (Hs & Ht & Hr).
  split.
  { rewrite <- Hout. apply sprite_output_agree.
    intros f Hf. specialize (Hinputs1 f Hf).
    rewrite (build_icons_run c files wm), Hupm in Hinputs1.
    cbv zeta in Hinputs1. now rewrite Hout in Hinputs1. }
  repeat split; now apply writeIfChanged_same.
Qed.

End Idempotence.

(** ** A file without an [svg] element *)

Section Malformed.
Context `{Externals}.

Lemma symbols_malformed inputDir files w file input :
  file ∈ files ->
  contents w !! path_join inputDir file = Some input ->
  querySelector (parse input) "svg" = None ->
  exists e, value (promise_all_map (symbol_of_file inputDir) files w) = Thrown e.
Proof.
  intros Hin Hread Hnone.
  induction files as [|f files IH]; [now apply elem_of_nil in Hin|].
  rewrite promise_all_map_cons.
  pose proof (symbol_of_file_after inputDir f w) as Hafter.
  destruct (decide (f = file)) as [->|Hne].
  - rewrite symbol_of_file_run, Hread, Hnone. eexists. reflexivity.
  - apply elem_of_cons in Hin as [Heq|Hin]; [congruence|].
    destruct (IH Hin) as [e He].
    pose proof (symbol_of_file_run inputDir f w) as Hrun.
    destruct (symbol_of_file inputDir f w) as [[y|e'|n] w1 ev1]; cbn in Hafter; subst w1.
    + destruct (promise_all_map (symbol_of_file inputDir) files w) as [[ys|e''|n] w2 ev2];
        cbn in He; try discriminate. eexists. reflexivity.
    + eexists. reflexivity.
    + exfalso. destruct (contents w !! path_join inputDir f) as [text|]; [|discriminate].
      destruct (querySelector (parse text) "svg"); discriminate.
Qed.

Lemma generateSvgSprite_malformed files inputDir outputPath opt w file input :
  file ∈ files ->
  contents w !! path_join inputDir file = Some input ->
  querySelector (parse input) "svg" = None ->
  exists e ev,
    generateSvgSprite files inputDir outputPath opt w = mkRun (Thrown e) w ev
    /\ existsb is_write ev = false.
Proof.
  intros Hin Hread Hnone.
  destruct (symbols_malformed inputDir files w file input Hin Hread Hnone) as [e He].
  destruct (symbols_after inputDir files w) as [_ Hnw].
  assert (Hout : sprite_output files inputDir opt w =
                   mkRun (Thrown e) w
                     (events (promise_all_map (symbol_of_file inputDir) files w))).
  { rewrite sprite_output_run. cbv zeta. now rewrite He. }
  exists e, (events (promise_all_map (symbol_of_file inputDir) files w)).
  split; [|exact Hnw].
  unfold generateSvgSprite. now rewrite (bind_thrown _ _ _ _ _ _ Hout).
Qed.

(** C3, as amended: when one of the discovered files has no [svg] element,
    [generateSvgSprite] throws with the file system untouched and nothing
    written, whatever the other files hold; the build writes no output
    file, and it aborts with an error unless it returned at the up-to-date
    check, before [generateSvgSprite]. *)
Theorem malformed_svg_aborts c w file input :
  file ∈ discovered c w ->
  contents w !! path_join (inputDir c) file = Some input ->
  querySelector (parse input) "svg" = None ->
  (forall outputPath dirs,
      let w' := mkState (contents w) dirs in
      exists e ev,
        generateSvgSprite (discovered c w) (inputDir c) outputPath (shouldOptimize c) w'
          = mkRun (Thrown e) w' ev
        /\ existsb is_write ev = false)
  /\ contents (after (build c w)) = contents w
  /\ existsb is_write (events (build c w)) = false
  /\ ((exists e, value (build c w) = Thrown e)
      \/ (value (build c w) = Returned tt /\ up_to_date c (discovered c w) w = true)).
Proof.
  intros Hin Hread Hnone.
  assert (Hgen : forall outputPath dirs,
             let w' := mkState (contents w) dirs in
             exists e ev,
               generateSvgSprite (discovered c w) (inputDir c) outputPath (shouldOptimize c) w'
                 = mkRun (Thrown e) w' ev
               /\ existsb is_write ev = false).
  { intros outputPath dirs w'.
    now apply (generateSvgSprite_malformed _ _ _ _ w' file input). }
  split; [exact Hgen|].
  assert (Hne : discovered c w ≠ []).
  { intros Hnil. rewrite Hnil in Hin. now apply elem_of_nil in Hin. }
  destruct (mkdirSync_cases (outputDir c) w) as [[e Hmk]|[Hmk _]].
  { assert (Hb : build c w = mkRun (Thrown e) w []).
    { rewrite build_unfold. destruct (discovered c w); [congruence|].
      cbn [List.length Nat.eqb]. now rewrite (bind_thrown _ _ _ _ _ _ Hmk). }
    rewrite Hb. cbn. repeat split. left. now exists e. }
  rewrite (build_made_directory c w Hne Hmk). cbv zeta.
  set (wm := with_directory (outputDir c) w).
  rewrite (build_icons_run c (discovered c w) wm).
  rewrite (up_to_date_contents c (discovered c w) w wm eq_refl).
  destruct (up_to_date c (discovered c w) w) eqn:Hup.
  { cbn [after value events existsb is_write orb].
    rewrite verbose_log_no_write. repeat split. right. now split. }
  cbv zeta.
  destruct (symbols_malformed (inputDir c) (discovered c w) wm file input Hin Hread Hnone)
    as [e He].
  destruct (sprite_output_after (discovered c w) (inputDir c) (shouldOptimize c) wm)
    as [_ Hnw].
  assert (Hout : value (sprite_output (discovered c w) (inputDir c) (shouldOptimize c) wm)
                 = Thrown e).
  { rewrite sprite_output_run. cbv zeta. now rewrite He. }
  rewrite Hout. cbn [after value events existsb is_write orb].
  rewrite existsb_app, verbose_log_no_write, Hnw.
  repeat split. left. now exists e.
Qed.

End Malformed.

(** ** The up-to-date short-circuit *)

Section ShortCircuit.
Context `{Externals}.

Lemma mkdirSync_free dir w :
  (forall a, a ∈ ancestors dir -> contents w !! a = None) ->
  mkdirSync dir w = mkRun (Returned tt) (with_directory dir w) [Mkdir dir].
Proof.
  intros Hfree. unfold mkdirSync.
  destruct (existsb _ (ancestors dir)) eqn:Hex; [|reflexivity].
  apply existsb_exists in Hex as (a & Hin & Hfile).
  apply bool_decide_eq_true in Hfile. apply list_elem_of_In in Hin.
  rewrite (Hfree a Hin) in Hfile. now destruct Hfile.
Qed.

Lemma up_to_date_intro c files w :
  (forall name, name ∈ List.map iconName files ->
     includes (current w (spriteFilepath c)) ("id=" +:+ name) = true
     /\ includes (current w (typeOutputFilepath c)) (dq +:+ name +:+ dq) = true) ->
  up_to_date c files w = true.
Proof.
  intros Hall. unfold up_to_date, spriteUpToDate, typesUpToDate.
  apply andb_true_iff. split; apply forallb_forall; intros name Hin;
    apply list_elem_of_In in Hin; now apply Hall.
Qed.

(** A build whose check holds: nothing is parsed, nothing is written, and
    it returns right after making the output directory. *)
Lemma build_up_to_date c w :
  up_to_date c (discovered c w) w = true ->
  contents (after (build c w)) = contents w
  /\ existsb is_write (events (build c w)) = false
  /\ existsb is_parse (events (build c w)) = false
  /\ (discovered c w ≠ [] ->
      (forall a, a ∈ ancestors (outputDir c) -> contents w !! a = None) ->
      build c w = mkRun (Returned tt) (with_directory (outputDir c) w)
                    (Mkdir (outputDir c) :: verbose_log c IconsUpToDate)).
Proof.
  intros Hup.
  assert (Hlog : existsb is_write (verbose_log c IconsUpToDate) = false
                 /\ existsb is_parse (verbose_log c IconsUpToDate) = false).
  { unfold verbose_log. now destruct (verbose c). }
  destruct Hlog as [Hlw Hlp].
  assert (Hreturn : mkdirSync (outputDir c) w =
                      mkRun (Returned tt) (with_directory (outputDir c) w)
                        [Mkdir (outputDir c)] ->
                    discovered c w ≠ [] ->
                    build c w = mkRun (Returned tt) (with_directory (outputDir c) w)
                                  (Mkdir (outputDir c) :: verbose_log c IconsUpToDate)).
  { intros Hmk Hne. rewrite (build_made_directory c w Hne Hmk). cbv zeta.
    rewrite build_icons_run.
    rewrite (up_to_date_contents c (discovered c w) w
               (with_directory (outputDir c) w) eq_refl), Hup. reflexivity. }
  destruct (discovered c w) as [|file files] eqn:Hfiles.
  { rewrite build_unfold, Hfiles. cbn. repeat split. congruence. }
  destruct (mkdirSync_cases (outputDir c) w) as [[e Hmk]|[Hmk _]].
  - assert (Hb : build c w = mkRun (Thrown e) w []).
    { rewrite build_unfold, Hfiles. cbn [List.length Nat.eqb].
      now rewrite (bind_thrown _ _ _ _ _ _ Hmk). }
    split; [now rewrite Hb|]. split; [now rewrite Hb|]. split; [now rewrite Hb|].
    intros _ Hfree. rewrite (mkdirSync_free _ _ Hfree) in Hmk. discriminate.
  - assert (Hb := Hreturn Hmk ltac:(discriminate)).
    rewrite Hb. cbn [after value events existsb is_write is_parse orb with_directory contents].
    rewrite Hlw, Hlp. repeat split.
Qed.

(** C4: when the sprite file holds [id=name] and the manifest holds the
    quoted [name] for every icon name of the discovered files, the build
    parses no SVG and writes no file, and (files being discovered, the
    output directory made) returns at the check, before
    [generateSvgSprite]. *)
Theorem up_to_date_short_circuit c w :
  (forall name, name ∈ List.map iconName (discovered c w) ->
     includes (current w (spriteFilepath c)) ("id=" +:+ name) = true
     /\ includes (current w (typeOutputFilepath c)) (dq +:+ name +:+ dq) = true) ->
  contents (after (build c w)) = contents w
  /\ existsb is_write (events (build c w)) = false
  /\ existsb is_parse (events (build c w)) = false
  /\ (discovered c w ≠ [] ->
      (forall a, a ∈ ancestors (outputDir c) -> contents w !! a = None) ->
      build c w = mkRun (Returned tt) (with_directory (outputDir c) w)
                    (Mkdir (outputDir c) :: verbose_log c IconsUpToDate)).
Proof.
  intros Hall. apply build_up_to_date. now apply up_to_date_intro.
Qed.

(** C8: with an icon gone from the inputs while the sprite file still
    holds its symbol, and the checks holding for every remaining name,
    the check reports up to date and the build writes nothing: the sprite
    file still holds the symbol of the removed icon afterwards. *)
Theorem removed_icon_not_detected c w removed symbol :
  removed ∉ discovered c w ->
  includes (current w (spriteFilepath c)) symbol = true ->
  (forall name, name ∈ List.map iconName (discovered c w) ->
     includes (current w (spriteFilepath c)) ("id=" +:+ name) = true
     /\ includes (current w (typeOutputFilepath c)) (dq +:+ name +:+ dq) = true) ->
  up_to_date c (discovered c w) w = true
  /\ existsb is_write (events (build c w)) = false
  /\ contents (after (build c w)) = contents w
  /\ includes (current (after (build c w)) (spriteFilepath c)) symbol = true
  /\ (discovered c w ≠ [] ->
      (forall a, a ∈ ancestors (outputDir c) -> contents w !! a = None) ->
      value (build c w) = Returned tt
      /\ events (build c w) = Mkdir (outputDir c) :: verbose_log c IconsUpToDate).
Proof.
  intros _ Hsymbol Hall.
  pose proof (up_to_date_intro c (discovered c w) w Hall) as Hup.
  destruct (build_up_to_date c w Hup) as (Hkept & Hnw & _ & Hret).
  split; [exact Hup|]. split; [exact Hnw|]. split; [exact Hkept|].
  split.
  - unfold current in *. now rewrite Hkept.
  - intros Hne Hfree. now rewrite (Hret Hne Hfree).
Qed.

End ShortCircuit.

(** ** The manifest *)

Lemma iconName_suffix (base : string) : iconName (base +:+ ".svg") = base.
Proof.
  induction base as [|ch base IH]; [reflexivity|].
  rewrite str_app_cons. cbn [iconName].
  assert (Hne : String.eqb (String ch (base +:+ ".svg")) ".svg" = false).
  { apply String.eqb_neq. intros Heq. apply (f_equal String.length) in Heq.
    cbn [String.length] in Heq. rewrite str_length_app in Heq. cbn in Heq. lia. }
  now rewrite Hne, IH.
Qed.

Lemma iconName_other (file : string) :
  (forall base, file ≠ base +:+ ".svg") -> iconName file = file.
Proof.
  induction file as [|ch file IH]; intros Hno; [reflexivity|].
  cbn [iconName].
  destruct (String.eqb (String ch file) ".svg") eqn:Heq.
  - apply String.eqb_eq in Heq. now destruct (Hno EmptyString).
  - rewrite IH; [reflexivity|].
    intros base ->. now apply (Hno (String ch base)).
Qed.

Lemma sort_insert_perm {A} (cmp : A -> A -> Z) x l :
  Permutation (sort_insert cmp x l) (x :: l).
Proof.
  induction l as [|y l IH]; cbn; [reflexivity|].
  destruct (cmp x y <=? 0); [reflexivity|].
  rewrite IH. apply perm_swap.
Qed.

Lemma array_sort_perm {A} (cmp : A -> A -> Z) l : Permutation (array_sort cmp l) l.
Proof.
  induction l as [|x l IH]; cbn; [reflexivity|].
  rewrite sort_insert_perm. now constructor.
Qed.

Lemma sort_insert_sorted {A} (cmp : A -> A -> Z) x l :
  (forall a b c, cmp a b <= 0 -> cmp b c <= 0 -> cmp a c <= 0) ->
  (forall a b, cmp a b <= 0 \/ cmp b a <= 0) ->
  StronglySorted (fun a b => cmp a b <= 0) l ->
  StronglySorted (fun a b => cmp a b <= 0) (sort_insert cmp x l).
Proof.
  intros Htrans Htotal Hl.
  induction Hl as [|y l Hsorted IH Hall]; cbn [sort_insert].
  - constructor; constructor.
  - destruct (cmp x y <=? 0) eqn:Hxy.
    + apply Z.leb_le in Hxy. constructor; [now constructor|].
      constructor; [exact Hxy|].
      eapply Forall_impl; [exact Hall|]. intros z Hyz. now apply (Htrans x y z).
    + apply Z.leb_gt in Hxy. constructor; [exact IH|].
      rewrite sort_insert_perm.
      constructor; [|exact Hall].
      destruct (Htotal x y); [lia|assumption].
Qed.

Lemma array_sort_sorted {A} (cmp : A -> A -> Z) l :
  (forall a b c, cmp a b <= 0 -> cmp b c <= 0 -> cmp a c <= 0) ->
  (forall a b, cmp a b <= 0 \/ cmp b a <= 0) ->
  StronglySorted (fun a b => cmp a b <= 0) (array_sort cmp l).
Proof.
  intros Htrans Htotal.
  induction l as [|x l IH]; [constructor|].
  now apply sort_insert_sorted.
Qed.

Lemma json_escape_plain ch : plain ch = true -> json_escape ch = String ch EmptyString.
Proof.
  destruct ch as [[] [] [] [] [] [] [] []]; intros Hp; try discriminate Hp; reflexivity.
Qed.

Lemma json_body_plain s : all_plain s = true -> json_body s = s.
Proof.
  induction s as [|ch s IH]; [reflexivity|].
  cbn [all_plain json_body]. intros [Hch Hs]%andb_true_iff.
  rewrite (json_escape_plain ch Hch), IH by assumption. reflexivity.
Qed.

Lemma JSON_stringify_plain s :
  all_plain s = true -> JSON_stringify s = dq +:+ s +:+ dq.
Proof. intros Hs. unfold JSON_stringify. now rewrite json_body_plain. Qed.

Lemma manifest_entries (quoted : list string) :
  quoted ≠ [] ->
  tab +:+ "| " +:+ array_join (nl +:+ tab +:+ "| ") quoted =
    array_join nl (List.map (fun q => tab +:+ "| " +:+ q) quoted).
Proof.
  induction quoted as [|q rest IH]; [congruence|]. intros _.
  cbn [List.map]. rewrite !array_join_cons.
  destruct rest as [|q' rest]; [reflexivity|].
  cbn [List.map] in *. rewrite <- IH by discriminate.
  now rewrite !str_app_assoc.
Qed.

Lemma typeOutputContent_spec `{Externals} iconNames :
  iconNames ≠ [] -> typeOutputContent iconNames = spec_manifest iconNames.
Proof.
  intros Hne. unfold typeOutputContent, spec_manifest.
  rewrite <- (map_map JSON_stringify (fun q => tab +:+ "| " +:+ q)).
  rewrite <- manifest_entries by (destruct iconNames; [congruence|discriminate]).
  now rewrite !str_app_assoc.
Qed.

Section Manifest.
Context `{Externals}.

(** A build that returned past the check left the manifest content in
    the manifest file. *)
Lemma build_leaves_manifest c w :
  value (build c w) = Returned tt ->
  up_to_date c (discovered c w) w = false ->
  discovered c w ≠ []
  /\ contents (after (build c w)) !! typeOutputFilepath c =
       Some (typeOutputContent (List.map iconName (discovered c w))).
Proof.
  intros Hret Hup.
  assert (Hne : discovered c w ≠ []).
  { intros Hnil. rewrite build_unfold, Hnil in Hret. discriminate. }
  split; [exact Hne|].
  destruct (mkdirSync_cases (outputDir c) w) as [[e Hmk]|[Hmk _]].
  { rewrite build_unfold in Hret. destruct (discovered c w); [congruence|].
    cbn [List.length Nat.eqb] in Hret.
    rewrite (bind_thrown _ _ _ _ _ _ Hmk) in Hret. discriminate. }
  revert Hret. rewrite (build_made_directory c w Hne Hmk). cbv zeta.
  set (wm := with_directory (outputDir c) w).
  rewrite (build_icons_run c (discovered c w) wm).
  rewrite (up_to_date_contents c (discovered c w) w wm eq_refl), Hup. cbv zeta.
  destruct (value (sprite_output (discovered c w) (inputDir c) (shouldOptimize c) wm))
    as [output|e|n]; cbn [value after]; [|discriminate|discriminate].
  intros Hret.
  destruct (write_outputs_settles c (discovered c w) output wm)
    as (_ & _ & _ & _ & Hheld & _).
  destruct (Hheld Hret) as (_ & Ht & _).
  unfold current in Ht.
  destruct (contents (after (write_outputs c (discovered c w) output wm))
              !! typeOutputFilepath c) as [text|]; cbn in Ht; [now subst text|].
  unfold typeOutputContent in Ht. discriminate.
Qed.

(** C7: the discovered files are the files glob found, none added or
    dropped, in the order the locale comparison sorts them into (sorted,
    for a comparison that is transitive and total); an icon name is the
    file path without its trailing [.svg]; and the manifest a completed
    build leaves lists the names of these files in that order, one per
    line, each as a JSON string literal (for a name of ordinary
    characters, the name between double quotes). *)
Theorem manifest_contract c w :
  discovered c w = array_sort localeCompare (glob_sync w (inputDir c))
  /\ Permutation (discovered c w) (glob_sync w (inputDir c))
  /\ ((forall a b c, localeCompare a b <= 0 -> localeCompare b c <= 0 ->
                     localeCompare a c <= 0) ->
      (forall a b, localeCompare a b <= 0 \/ localeCompare b a <= 0) ->
      StronglySorted (fun a b => localeCompare a b <= 0) (discovered c w))
  /\ (forall base, iconName (base +:+ ".svg") = base)
  /\ (forall file, (forall base, file ≠ base +:+ ".svg") -> iconName file = file)
  /\ (forall name, all_plain name = true -> JSON_stringify name = dq +:+ name +:+ dq)
  /\ (value (build c w) = Returned tt ->
      up_to_date c (discovered c w) w = false ->
      contents (after (build c w)) !! typeOutputFilepath c =
        Some (spec_manifest (List.map iconName (discovered c w)))).
Proof.
  split; [reflexivity|].
  split; [apply array_sort_perm|].
  split; [apply array_sort_sorted|].
  split; [exact iconName_suffix|].
  split; [exact iconName_other|].
  split; [exact JSON_stringify_plain|].
  intros Hret Hup.
  destruct (build_leaves_manifest c w Hret Hup) as [Hne Hfile].
  rewrite Hfile, typeOutputContent_spec; [reflexivity|].
  destruct (discovered c w); [congruence|discriminate].
Qed.

End Manifest.

(** ** The quoting of attribute values *)

Lemma prefix_cons a p b s :
  String.prefix (String a p) (String b s) =
    if Ascii.eqb a b then String.prefix p s else false.
Proof.
  cbn [String.prefix]. destruct (ascii_dec a b) as [->|Hne].
  - now rewrite Ascii.eqb_refl.
  - apply Ascii.eqb_neq in Hne. now rewrite Hne.
Qed.







(** ** Substrings *)

Lemma str_app_nil_r (a : string) : a +:+ EmptyString = a.
Proof. induction a as [|x a IH]; [reflexivity|]. rewrite str_app_cons. now f_equal. Qed.

Lemma prefix_nil s : String.prefix EmptyString s = true.
Proof. now destruct s. Qed.

Lemma prefix_app_l p a b :
  String.prefix p a = true -> String.prefix p (a +:+ b) = true.
Proof.
  revert a. induction p as [|x p IH]; intros a Hp; [apply prefix_nil|].
  destruct a as [|y a]; [discriminate|].
  rewrite str_app_cons. rewrite prefix_cons in Hp |- *.
  destruct (Ascii.eqb x y); [now apply IH|discriminate].
Qed.

Lemma prefix_self_app p b : String.prefix p (p +:+ b) = true.
Proof.
  induction p as [|x p IH]; [apply prefix_nil|].
  now rewrite str_app_cons, prefix_cons, Ascii.eqb_refl.
Qed.

Lemma prefix_shorter p q s :
  String.prefix (p +:+ q) s = true -> String.prefix p s = true.
Proof.
  revert s. induction p as [|x p IH]; intros s Hp; [apply prefix_nil|].
  rewrite str_app_cons in Hp.
  destruct s as [|y s]; [discriminate|].
  rewrite prefix_cons in Hp |- *.
  destruct (Ascii.eqb x y); [now apply IH|discriminate].
Qed.

Lemma includes_app_l a b p : includes a p = true -> includes (a +:+ b) p = true.
Proof.
  induction a as [|x a IH]; cbn [includes].
  - rewrite orb_false_r. intros Hp. rewrite str_app_nil_l.
    destruct p; [|discriminate]. destruct b; reflexivity.
  - intros [Hp|Hrest]%orb_true_iff; rewrite str_app_cons; cbn [includes];
      apply orb_true_iff.
    + left. now apply (prefix_app_l p (String x a) b).
    + right. now apply IH.
Qed.

Lemma includes_app_r a b p : includes b p = true -> includes (a +:+ b) p = true.
Proof.
  intros Hb. induction a as [|x a IH]; [exact Hb|].
  rewrite str_app_cons. cbn [includes]. rewrite IH. apply orb_true_r.
Qed.

Lemma includes_middle a p b : includes (a +:+ p +:+ b) p = true.
Proof.
  apply includes_app_r.
  destruct (p +:+ b) eqn:Hpb; cbn [includes].
  - destruct p; [reflexivity|discriminate].
  - rewrite <- Hpb. now rewrite prefix_self_app.
Qed.

Lemma includes_shorter s p q : includes s (p +:+ q) = true -> includes s p = true.
Proof.
  induction s as [|x s IH]; cbn [includes].
  - rewrite !orb_false_r. apply prefix_shorter.
  - intros [Hp|Hrest]%orb_true_iff; apply orb_true_iff.
    + left. now apply (prefix_shorter p q).
    + right. now apply IH.
Qed.

Lemma array_join_member sep (l : list string) x :
  x ∈ l -> exists a b, array_join sep l = a +:+ x +:+ b.
Proof.
  induction l as [|y l IH]; intros Hin; [now apply elem_of_nil in Hin|].
  rewrite array_join_cons.
  apply elem_of_cons in Hin as [->|Hin].
  - destruct l as [|z l].
    + exists EmptyString, EmptyString. now rewrite str_app_nil_l, str_app_nil_r.
    + exists EmptyString, (sep +:+ array_join sep (z :: l)). reflexivity.
  - destruct (IH Hin) as (a & b & Hab).
    destruct l as [|z l]; [now apply elem_of_nil in Hin|].
    exists (y +:+ sep +:+ a), b. rewrite Hab. now rewrite !str_app_assoc.
Qed.

(** ** The text of a symbol *)
























Section NormalizerContract.
Context `{Externals}.


End NormalizerContract.

(** ** The check against the sprite the tool writes *)

Section OwnSprite.
Context `{Externals}.



End OwnSprite.

(** * Further properties of the build *)

(** ** The writer, again *)

Section WriterMore.
Context `{Externals}.

Lemma writeIfChanged_keeps filepath newContent w q :
  is_Some (contents w !! q) ->
  is_Some (contents (after (writeIfChanged filepath newContent w)) !! q).
Proof.
  intros Hq.
  destruct (writeIfChanged_cases filepath newContent w)
    as [[_ Hr]|[(_ & _ & _ & Hr)|(_ & _ & e & Hr)]]; rewrite Hr; cbn [after contents];
    try assumption.
  destruct (decide (filepath = q)) as [->|Hne].
  - rewrite lookup_insert_eq. eauto.
  - now rewrite lookup_insert_ne.
Qed.

Lemma writeIfChanged_events filepath newContent w :
  existsb is_generated (events (writeIfChanged filepath newContent w)) = false
  /\ existsb is_parse (events (writeIfChanged filepath newContent w)) = false.
Proof.
  destruct (writeIfChanged_cases filepath newContent w)
    as [[_ Hr]|[(_ & _ & _ & Hr)|(_ & _ & e & Hr)]]; rewrite Hr; now split.
Qed.

(** X1: after a call of [writeIfChanged] that returned, the file holds the
    new content, with one exception: where the file was missing and the new
    content is the empty string, the call returns false, writes nothing and
    the file is still missing.  In both cases the same call made again
    returns false and writes nothing. *)
Theorem writeIfChanged_twice filepath newContent w changed :
  value (writeIfChanged filepath newContent w) = Returned changed ->
  let w' := after (writeIfChanged filepath newContent w) in
  (contents w' !! filepath = Some newContent
   \/ (newContent = EmptyString /\ contents w !! filepath = None
       /\ w' = w /\ changed = false))
  /\ (changed = true -> contents w' !! filepath = Some newContent)
  /\ writeIfChanged filepath newContent w' = mkRun (Returned false) w' [].
Proof.
  intros Hret w'. subst w'.
  destruct (writeIfChanged_cases filepath newContent w)
    as [[Heq Hr]|[(Hne & _ & _ & Hr)|(Hne & _ & e & Hr)]];
    rewrite Hr in *; cbn [value after contents] in *.
  - injection Hret as <-.
    split; [|split; [discriminate|exact Hr]].
    unfold current in Heq. destruct (contents w !! filepath) as [text|] eqn:Hfile.
    + left. cbn in Heq. congruence.
    + right. cbn in Heq. now repeat split.
  - rewrite lookup_insert_eq.
    split; [now left|]. split; [reflexivity|].
    apply writeIfChanged_same. unfold current. cbn. now rewrite lookup_insert_eq.
  - discriminate.
Qed.

(** X2: [writeIfChanged] never touches another path, never removes a file
    and never changes the directories, however it ends. *)
Theorem writeIfChanged_frame filepath newContent w :
  let w' := after (writeIfChanged filepath newContent w) in
  (forall q, q ≠ filepath -> contents w' !! q = contents w !! q)
  /\ (forall q, is_Some (contents w !! q) -> is_Some (contents w' !! q))
  /\ directories w' = directories w.
Proof.
  cbv zeta. split; [|split].
  - intros q Hq.
    destruct (writeIfChanged_step filepath newContent w)
      as [(b & w1 & ev & Hr & _ & _ & Hother & _)|[e Hr]]; rewrite Hr; cbn [after];
      [now apply Hother|reflexivity].
  - intros q. apply writeIfChanged_keeps.
  - destruct (writeIfChanged_step filepath newContent w)
      as [(b & w1 & ev & Hr & _ & Hd & _)|[e Hr]]; rewrite Hr; cbn [after];
      [exact Hd|reflexivity].
Qed.

End WriterMore.

(** ** The sprite generator, again *)

Section GeneratorMore.
Context `{Externals}.

Lemma symbol_of_file_returns inputDir file w :
  (exists symbol, value (symbol_of_file inputDir file w) = Returned symbol)
  <-> well_formed w inputDir file.
Proof.
  unfold well_formed. rewrite symbol_of_file_run. split.
  - intros [symbol Hs].
    destruct (contents w !! path_join inputDir file) as [input|]; [|discriminate].
    destruct (querySelector (parse input) "svg") as [svg|] eqn:Hsvg; [|discriminate].
    now exists input, svg.
  - intros (input & svg & -> & ->). eexists. reflexivity.
Qed.

Lemma symbols_only_parse inputDir files w :
  forallb is_parse (events (promise_all_map (symbol_of_file inputDir) files w)) = true.
Proof.
  induction files as [|file files IH]; [reflexivity|].
  rewrite promise_all_map_cons.
  pose proof (symbol_of_file_after inputDir file w) as Hafter.
  assert (Hp : forallb is_parse (events (symbol_of_file inputDir file w)) = true).
  { rewrite symbol_of_file_run.
    destruct (contents w !! path_join inputDir file) as [input|]; [|reflexivity].
    destruct (querySelector (parse input) "svg"); reflexivity. }
  destruct (symbol_of_file inputDir file w) as [[y|e|n] w1 ev1]; cbn in Hafter, Hp;
    subst w1; try assumption.
  destruct (promise_all_map (symbol_of_file inputDir) files w) as [[ys|e|n] w2 ev2];
    cbn in IH |- *; now rewrite forallb_app, Hp, IH.
Qed.

Lemma only_parse_events (ev : list event) :
  forallb is_parse ev = true ->
  existsb is_generated ev = false /\ existsb is_write ev = false.
Proof.
  induction ev as [|e ev IH]; [now split|].
  cbn. intros [He Hev]%andb_true_iff. destruct (IH Hev) as [-> ->].
  destruct e; try discriminate He. now split.
Qed.

(** X3: the symbols are all or nothing: the tasks of [generateSvgSprite]
    return exactly when every file can be read and has an [svg] element, so
    that [generateSvgSprite] returns for no list with a file that is
    missing or has no such element. *)
Theorem generateSvgSprite_all_or_nothing files inputDir w :
  ((exists symbols,
       value (promise_all_map (symbol_of_file inputDir) files w) = Returned symbols)
   <-> Forall (well_formed w inputDir) files)
  /\ (forall outputPath opt changed,
        value (generateSvgSprite files inputDir outputPath opt w) = Returned changed ->
        Forall (well_formed w inputDir) files).
Proof.
  assert (Hiff : (exists symbols,
                     value (promise_all_map (symbol_of_file inputDir) files w)
                     = Returned symbols)
                 <-> Forall (well_formed w inputDir) files).
  { induction files as [|file files IH].
    - split; [constructor|]. intros _. now exists [].
    - rewrite promise_all_map_cons, Forall_cons, <- IH, <- symbol_of_file_returns.
      pose proof (symbol_of_file_after inputDir file w) as Hafter.
      destruct (symbol_of_file inputDir file w) as [[y|e|n] w1 ev1]; cbn in Hafter;
        subst w1; cbn [value].
      + destruct (promise_all_map (symbol_of_file inputDir) files w) as [[ys|e|n] w2 ev2];
          cbn [value]; split.
        * intros _. split; eexists; reflexivity.
        * intros _. eexists. reflexivity.
        * intros [? [=]].
        * intros [_ [? [=]]].
        * intros [? [=]].
        * intros [_ [? [=]]].
      + split; [intros [? [=]]|intros [[? [=]] _]].
      + split; [intros [? [=]]|intros [[? [=]] _]]. }
  split; [exact Hiff|].
  intros outputPath opt changed Hret. apply Hiff.
  unfold generateSvgSprite in Hret.
  destruct (sprite_output files inputDir opt w) as [[output|e|n] w1 ev] eqn:Hout.
  - rewrite sprite_output_run in Hout. cbv zeta in Hout.
    destruct (value (promise_all_map (symbol_of_file inputDir) files w)) as [symbols|e|n];
      [now exists symbols| |]; discriminate.
  - rewrite (bind_thrown _ _ _ _ _ _ Hout) in Hret. discriminate.
  - rewrite (bind_exited _ _ _ _ _ _ Hout) in Hret. discriminate.
Qed.

(** X4: with the optimizer enabled, what [generateSvgSprite] hands to
    [writeIfChanged] is the data svgo returns for the assembled document:
    a call that returns leaves the sprite file holding it; and when svgo
    throws, [generateSvgSprite] throws the same error with the file system
    untouched and nothing written. *)
Theorem generateSvgSprite_optimized files inputDir outputPath w symbols :
  value (promise_all_map (symbol_of_file inputDir) files w) = Returned symbols ->
  let r := generateSvgSprite files inputDir outputPath true w in
  (forall data, optimize (sprite_document symbols) = inr data ->
     value (sprite_output files inputDir true w) = Returned data
     /\ (forall changed, value r = Returned changed -> current (after r) outputPath = data))
  /\ (forall e, optimize (sprite_document symbols) = inl e ->
        value r = Thrown e /\ after r = w /\ existsb is_write (events r) = false).
Proof.
  intros Hsymbols r. subst r.
  destruct (symbols_after inputDir files w) as [_ Hnw].
  split.
  - intros data Hdata.
    assert (Hout : sprite_output files inputDir true w =
                     mkRun (Returned data) w
                       (events (promise_all_map (symbol_of_file inputDir) files w))).
    { rewrite sprite_output_run. cbv zeta. now rewrite Hsymbols, Hdata. }
    split; [now rewrite Hout|].
    intros changed. unfold generateSvgSprite. rewrite (bind_returned _ _ _ _ _ _ Hout).
    cbn [value after]. intros Hret.
    destruct (writeIfChanged_step outputPath data w)
      as [(b & w1 & ev & Hr & Hcur & _)|[e Hr]]; rewrite Hr in *; cbn [value after] in *;
      [exact Hcur|discriminate].
  - intros e He.
    assert (Hout : sprite_output files inputDir true w =
                     mkRun (Thrown e) w
                       (events (promise_all_map (symbol_of_file inputDir) files w))).
    { rewrite sprite_output_run. cbv zeta. now rewrite Hsymbols, He. }
    unfold generateSvgSprite. rewrite (bind_thrown _ _ _ _ _ _ Hout). cbn. now repeat split.
Qed.

End GeneratorMore.

(** ** The build, again *)

Lemma dirname_path_join dir name :
  includes name "/" = false -> dirname (path_join dir name) = dir.
Proof.
  intros Hname. unfold path_join.
  induction dir as [|ch dir IH].
  - rewrite str_app_nil_l, str_app_cons, str_app_nil_l. cbn [dirname]. now rewrite Hname.
  - rewrite str_app_cons. cbn [dirname]. rewrite IH.
    now rewrite (includes_middle dir "/" name).
Qed.

Section BuildMore.
Context `{Externals}.

Lemma log_events c m :
  existsb is_generated (verbose_log c m) = false \/ exists n, m = GeneratedIcons n.
Proof.
  unfold verbose_log. destruct (verbose c); [|now left].
  destruct m; try (now left). right. now eexists.
Qed.

Lemma sprite_saved_log_not_generated c files :
  existsb is_generated (sprite_saved_log c files) = false.
Proof.
  unfold sprite_saved_log, processed_log, verbose_log. rewrite existsb_app.
  destruct (verbose c); [|reflexivity]. rewrite orb_false_r.
  induction files as [|file files IH]; [reflexivity|exact IH].
Qed.

(** What [write_outputs] reports when it returns: it wrote exactly when
    the closing message is there. *)
Lemma writeIfChanged_wrote filepath newContent w changed :
  value (writeIfChanged filepath newContent w) = Returned changed ->
  existsb is_write (events (writeIfChanged filepath newContent w)) = changed.
Proof.
  destruct (writeIfChanged_step filepath newContent w)
    as [(b & w1 & ev & Hr & _ & _ & _ & _ & Hev)|[e Hr]]; rewrite Hr; cbn [value events].
  - now intros [= <-].
  - discriminate.
Qed.

Lemma write_outputs_reports c files output w :
  value (write_outputs c files output w) = Returned tt ->
  existsb is_generated (events (write_outputs c files output w)) =
    existsb is_write (events (write_outputs c files output w))
  /\ (forall n, Info (GeneratedIcons n) ∈ events (write_outputs c files output w) ->
                n = List.length files).
Proof.
  rewrite write_outputs_run. cbv zeta.
  set (r1 := writeIfChanged (spriteFilepath c) output w).
  pose proof (writeIfChanged_events (spriteFilepath c) output w) as [Hg1 _].
  assert (Hw1 : forall b, value r1 = Returned b -> existsb is_write (events r1) = b).
  { intros b Hb. now apply writeIfChanged_wrote. }
  fold r1 in Hg1. destruct (value r1) as [b1|e|n] eqn:Hv1; [|discriminate|discriminate].
  set (r2 := writeIfChanged (typeOutputFilepath c)
               (typeOutputContent (List.map iconName files)) (after r1)).
  pose proof (writeIfChanged_events (typeOutputFilepath c)
                (typeOutputContent (List.map iconName files)) (after r1)) as [Hg2 _].
  assert (Hw2 : forall b, value r2 = Returned b -> existsb is_write (events r2) = b).
  { intros b Hb. now apply writeIfChanged_wrote. }
  fold r2 in Hg2. destruct (value r2) as [b2|e|n] eqn:Hv2; [|discriminate|discriminate].
  set (r3 := writeIfChanged (readmeFilepath c) readmeContent (after r2)).
  pose proof (writeIfChanged_events (readmeFilepath c) readmeContent (after r2)) as [Hg3 _].
  assert (Hw3 : forall b, value r3 = Returned b -> existsb is_write (events r3) = b).
  { intros b Hb. now apply writeIfChanged_wrote. }
  fold r3 in Hg3. destruct (value r3) as [b3|e|n] eqn:Hv3; [|discriminate|discriminate].
  intros _. cbn [events].
  assert (Hvl : existsb is_generated
                  (verbose_log c (ManifestSavedTo (typeOutputFilepath c))) = false
                /\ existsb is_write
                     (verbose_log c (ManifestSavedTo (typeOutputFilepath c))) = false).
  { unfold verbose_log. now destruct (verbose c). }
  destruct Hvl as [Hvg Hvw].
  split.
  - rewrite !existsb_app, Hg1, Hg2, Hg3, sprite_saved_log_not_generated, Hvg,
      sprite_saved_log_no_write, Hvw, (Hw1 b1 eq_refl), (Hw2 b2 eq_refl), (Hw3 b3 eq_refl).
    destruct b1, b2, b3; reflexivity.
  - intros n Hin.
    assert (Hnot : forall ev, existsb is_generated ev = false ->
                              Info (GeneratedIcons n) ∉ ev).
    { intros ev Hev Hmem. apply list_elem_of_In in Hmem.
      assert (Ht : existsb is_generated ev = true).
      { apply existsb_exists. now exists (Info (GeneratedIcons n)). }
      congruence. }
    rewrite !elem_of_app in Hin.
    destruct Hin as [[Hin|[Hin|[Hin|[Hin|Hin]]]]|Hin].
    + now apply (Hnot _ Hg1) in Hin.
    + now apply (Hnot _ (sprite_saved_log_not_generated c files)) in Hin.
    + now apply (Hnot _ Hg2) in Hin.
    + now apply (Hnot _ Hvg) in Hin.
    + now apply (Hnot _ Hg3) in Hin.
    + destruct (b1 || b2 || b3)%bool; [|now apply elem_of_nil in Hin].
      apply list_elem_of_singleton in Hin. now injection Hin.
Qed.

(** X5: a build that returns prints its closing message, with the number
    of discovered files, exactly when it wrote a file. *)
Theorem build_reports_changes c w :
  value (build c w) = Returned tt ->
  existsb is_generated (events (build c w)) = existsb is_write (events (build c w))
  /\ (forall n, Info (GeneratedIcons n) ∈ events (build c w) ->
                n = List.length (discovered c w)).
Proof.
  intros Hret.
  assert (Hne : discovered c w ≠ []).
  { intros Hnil. rewrite build_unfold, Hnil in Hret. discriminate. }
  destruct (mkdirSync_cases (outputDir c) w) as [[e Hmk]|[Hmk _]].
  { rewrite build_unfold in Hret. destruct (discovered c w); [congruence|].
    cbn [List.length Nat.eqb] in Hret.
    rewrite (bind_thrown _ _ _ _ _ _ Hmk) in Hret. discriminate. }
  revert Hret. rewrite (build_made_directory c w Hne Hmk). cbv zeta.
  set (wm := with_directory (outputDir c) w).
  rewrite (build_icons_run c (discovered c w) wm).
  destruct (up_to_date c (discovered c w) wm).
  { intros _. cbn [events existsb is_generated is_write orb].
    unfold verbose_log. destruct (verbose c); cbn; split; try reflexivity;
      intros n Hin; repeat (apply elem_of_cons in Hin as [Hin|Hin]; [discriminate|]);
      now apply elem_of_nil in Hin. }
  cbv zeta.
  pose proof (symbols_only_parse (inputDir c) (discovered c w) wm) as Hparse.
  assert (Hro : events (sprite_output (discovered c w) (inputDir c) (shouldOptimize c) wm)
                = events (promise_all_map (symbol_of_file (inputDir c)) (discovered c w) wm)).
  { rewrite sprite_output_run. cbv zeta.
    destruct (value (promise_all_map (symbol_of_file (inputDir c)) (discovered c w) wm));
      try reflexivity.
    destruct (shouldOptimize c); [|reflexivity].
    destruct (optimize (sprite_document a)); reflexivity. }
  destruct (only_parse_events _ Hparse) as [Hpg Hpw]. rewrite <- Hro in Hpg, Hpw.
  destruct (value (sprite_output (discovered c w) (inputDir c) (shouldOptimize c) wm))
    as [output|e|n]; cbn [value after events]; [|discriminate|discriminate].
  intros Hret.
  destruct (write_outputs_reports c (discovered c w) output wm Hret) as [Heq Hcount].
  assert (Hlg : existsb is_generated
                  (verbose_log c (GeneratingSprite (inputDirRelative c))) = false
                /\ existsb is_write
                     (verbose_log c (GeneratingSprite (inputDirRelative c))) = false).
  { unfold verbose_log. now destruct (verbose c). }
  destruct Hlg as [Hlg Hlw].
  split.
  - cbn [existsb is_generated is_write orb].
    now rewrite !existsb_app, Hlg, Hlw, Hpg, Hpw, Heq.
  - intros n Hin.
    apply elem_of_cons in Hin as [Hin|Hin]; [discriminate|].
    rewrite !elem_of_app in Hin. destruct Hin as [Hin|[Hin|Hin]].
    + exfalso. apply list_elem_of_In in Hin.
      assert (Ht : existsb is_generated
                     (verbose_log c (GeneratingSprite (inputDirRelative c))) = true).
      { apply existsb_exists. now exists (Info (GeneratedIcons n)). }
      congruence.
    + exfalso. apply list_elem_of_In in Hin.
      assert (Ht : existsb is_generated
                     (events (sprite_output (discovered c w) (inputDir c)
                                (shouldOptimize c) wm)) = true).
      { apply existsb_exists. now exists (Info (GeneratedIcons n)). }
      congruence.
    + now apply Hcount.
Qed.

Lemma write_outputs_keeps c files output w q :
  is_Some (contents w !! q) ->
  is_Some (contents (after (write_outputs c files output w)) !! q).
Proof.
  intros Hq. rewrite write_outputs_run. cbv zeta.
  pose proof (writeIfChanged_keeps (spriteFilepath c) output w q Hq) as H1.
  destruct (value (writeIfChanged (spriteFilepath c) output w)); cbn [after]; try exact H1.
  pose proof (writeIfChanged_keeps (typeOutputFilepath c)
                (typeOutputContent (List.map iconName files)) _ q H1) as H2.
  destruct (value (writeIfChanged (typeOutputFilepath c) _ _)); cbn [after]; try exact H2.
  pose proof (writeIfChanged_keeps (readmeFilepath c) readmeContent _ q H2) as H3.
  destruct (value (writeIfChanged (readmeFilepath c) _ _)); cbn [after]; exact H3.
Qed.

(** X6: whatever way it ends, the build changes no file other than the
    sprite, the manifest and the README, removes no file, and adds no
    directory other than the output directory and those above it. *)
Theorem build_changes_only_outputs c w :
  (forall p, p ≠ spriteFilepath c -> p ≠ typeOutputFilepath c -> p ≠ readmeFilepath c ->
             contents (after (build c w)) !! p = contents w !! p)
  /\ (forall p, is_Some (contents w !! p) -> is_Some (contents (after (build c w)) !! p))
  /\ directories w ⊆ directories (after (build c w))
  /\ directories (after (build c w)) ⊆ directories w ∪ list_to_set (ancestors (outputDir c)).
Proof.
  rewrite build_unfold.
  destruct (Nat.eqb (List.length (discovered c w)) 0).
  { cbn [after]. repeat split; auto. set_solver. }
  destruct (mkdirSync_cases (outputDir c) w) as [[e Hmk]|[Hmk _]].
  { rewrite (bind_thrown _ _ _ _ _ _ Hmk). cbn [after]. repeat split; auto. set_solver. }
  rewrite (bind_returned _ _ _ _ _ _ Hmk). cbn [after].
  set (wm := with_directory (outputDir c) w).
  destruct (build_icons_frame c (discovered c w) wm) as (Hd & _ & Ho).
  split; [exact Ho|]. split.
  - intros p Hp. rewrite build_icons_run.
    destruct (up_to_date c (discovered c w) wm); [exact Hp|]. cbv zeta.
    destruct (value (sprite_output (discovered c w) (inputDir c) (shouldOptimize c) wm));
      cbn [after]; try exact Hp.
    now apply write_outputs_keeps.
  - rewrite Hd. subst wm. unfold with_directory. cbn [directories].
    split; [apply union_subseteq_l|reflexivity].
Qed.


(** X8: the sprite check has no closing delimiter: where it holds for a
    name it holds for every prefix of that name, so an icon whose name
    starts another icon's name passes the check without being in the
    sprite. *)
Theorem sprite_check_accepts_prefixes names shorter rest sprite :
  spriteUpToDate names sprite = true ->
  shorter +:+ rest ∈ names ->
  spriteUpToDate (shorter :: names) sprite = true.
Proof.
  intros Hall Hin. cbn [spriteUpToDate forallb]. fold (spriteUpToDate names sprite).
  rewrite Hall, andb_true_r.
  unfold spriteUpToDate in Hall. rewrite forallb_forall in Hall.
  apply list_elem_of_In in Hin. specialize (Hall _ Hin).
  apply (includes_shorter sprite ("id=" +:+ shorter) rest).
  now rewrite str_app_assoc.
Qed.

(** X9: the manifest the build writes passes the manifest check of the
    next build, for icon names of ordinary characters. *)
Theorem own_manifest_passes_check names :
  forallb all_plain names = true ->
  typesUpToDate names (typeOutputContent names) = true.
Proof.
  intros Hplain. unfold typesUpToDate. apply forallb_forall. intros name Hin.
  rewrite forallb_forall in Hplain. pose proof (Hplain name Hin) as Hname.
  assert (Hmem : JSON_stringify name ∈ List.map JSON_stringify names).
  { apply list_elem_of_In, in_map, Hin. }
  destruct (array_join_member (nl +:+ tab +:+ "| ") _ _ Hmem) as (a & b & Hjoin).
  unfold typeOutputContent. rewrite Hjoin, (JSON_stringify_plain name Hname).
  do 9 apply includes_app_r. apply includes_app_l.
  apply (includes_middle a (dq +:+ name +:+ dq)).
Qed.

End BuildMore.

(** * The framework of the project *)

Lemma dirname_shorter dir :
  dir ≠ EmptyString -> (String.length (dirname dir) < String.length dir)%nat.
Proof.
  induction dir as [|ch dir IH]; [congruence|]. intros _.
  cbn [dirname]. destruct (includes dir "/") eqn:Hslash; cbn [String.length]; [|lia].
  assert (Hne : dir ≠ EmptyString) by (intros ->; discriminate).
  specialize (IH Hne). lia.
Qed.

Lemma parent_succ k dir : parent k (dirname dir) = parent (S k) dir.
Proof. unfold parent. symmetry. apply Nat.iter_succ_r. Qed.

Lemma parent_root k : parent k EmptyString = EmptyString.
Proof.
  induction k as [|k IH]; [reflexivity|].
  change (parent (S k) EmptyString) with (dirname (parent k EmptyString)).
  now rewrite IH.
Qed.

Section Framework.
Context `{Json}.

Lemma find_package_json_missing w fuel dir :
  (forall k, contents w !! path_join (parent k dir) "package.json" = None) ->
  (String.length dir < fuel)%nat ->
  (find_package_json fuel w dir).2 = Some (inl (JsError "Could not find package.json")).
Proof.
  revert dir. induction fuel as [|fuel IH]; intros dir Hnone Hfuel; [lia|].
  cbn [find_package_json]. rewrite (Hnone 0%nat : contents w !! path_join dir _ = None).
  destruct (String.eqb dir EmptyString) eqn:Hroot; [reflexivity|].
  apply String.eqb_neq in Hroot. cbn [snd]. apply IH.
  - intros k. rewrite parent_succ. apply Hnone.
  - pose proof (dirname_shorter dir Hroot). lia.
Qed.

Lemma find_package_json_nearest w k : forall fuel dir text,
  (forall j, (j < k)%nat ->
     contents w !! path_join (parent j dir) "package.json" = None
     /\ parent j dir ≠ EmptyString) ->
  contents w !! path_join (parent k dir) "package.json" = Some text ->
  text ≠ EmptyString ->
  (k < fuel)%nat ->
  (find_package_json fuel w dir).2 = Some (inr text).
Proof.
  induction k as [|k IH]; intros fuel dir text Habove Hfile Htext Hfuel;
    (destruct fuel as [|fuel]; [lia|]); cbn [find_package_json].
  - rewrite (Hfile : contents w !! path_join dir _ = Some text).
    now rewrite (string_eqb_false _ _ Htext).
  - destruct (Habove 0%nat ltac:(lia)) as [Hnone Hroot].
    rewrite (Hnone : contents w !! path_join dir _ = None).
    rewrite (string_eqb_false _ _ (Hroot : dir ≠ EmptyString)). cbn [snd].
    apply IH; [|now rewrite parent_succ|assumption|lia].
    intros j Hj. rewrite parent_succ. apply Habove. lia.
Qed.

Lemma find_package_json_empty w k : forall fuel dir,
  (forall j, (j < k)%nat ->
     contents w !! path_join (parent j dir) "package.json" = None
     /\ parent j dir ≠ EmptyString) ->
  contents w !! path_join (parent k dir) "package.json" = Some EmptyString ->
  (find_package_json fuel w dir).2 = None.
Proof.
  induction k as [|k IH]; intros fuel dir Habove Hfile.
  - induction fuel as [|fuel IHf]; [reflexivity|]. cbn [find_package_json].
    now rewrite (Hfile : contents w !! path_join dir _ = Some EmptyString).
  - destruct fuel as [|fuel]; [reflexivity|]. cbn [find_package_json].
    destruct (Habove 0%nat ltac:(lia)) as [Hnone Hroot].
    rewrite (Hnone : contents w !! path_join dir _ = None).
    rewrite (string_eqb_false _ _ (Hroot : dir ≠ EmptyString)). cbn [snd].
    apply IH; [|now rewrite parent_succ].
    intros j Hj. rewrite parent_succ. apply Habove. lia.
Qed.

(** X10: with no [package.json] in the working directory nor in any
    directory above it, [parsePackageJson] throws when it has tried the
    root, within as many rounds as the path is long, and
    [detectFramework] answers [unknown]. *)
Theorem detectFramework_without_package_json w cwd fuel :
  (forall k, contents w !! path_join (parent k cwd) "package.json" = None) ->
  (String.length cwd < fuel)%nat ->
  (parsePackageJson fuel w cwd).2 = Some (inl (JsError "Could not find package.json"))
  /\ detectFramework fuel w cwd = Some (inr "unknown").
Proof.
  intros Hnone Hfuel.
  pose proof (find_package_json_missing w fuel cwd Hnone Hfuel) as Hfind.
  unfold detectFramework, parsePackageJson. cbn [snd]. now rewrite Hfind.
Qed.

(** X11: where the directories below the [k]-th one above the working
    directory hold no [package.json] at all and are not the root, and the
    [k]-th one holds a [package.json] that is not empty, [parsePackageJson]
    parses that file; a text that [JSON.parse] rejects makes
    [detectFramework] answer [unknown].  (A nearer [package.json] that is
    empty is the case of the next property: the loop never leaves it.) *)
Theorem parsePackageJson_nearest w cwd k text fuel :
  (forall j, (j < k)%nat ->
     contents w !! path_join (parent j cwd) "package.json" = None
     /\ parent j cwd ≠ EmptyString) ->
  contents w !! path_join (parent k cwd) "package.json" = Some text ->
  text ≠ EmptyString ->
  (k < fuel)%nat ->
  (parsePackageJson fuel w cwd).2 = Some (JSON_parse text)
  /\ (forall e, JSON_parse text = inl e -> detectFramework fuel w cwd = Some (inr "unknown"))
  /\ (forall packageJson, JSON_parse text = inr packageJson ->
        detectFramework fuel w cwd = Some (framework_of packageJson)).
Proof.
  intros Habove Hfile Htext Hfuel.
  pose proof (find_package_json_nearest w k fuel cwd text Habove Hfile Htext Hfuel) as Hfind.
  unfold detectFramework, parsePackageJson. cbn [snd]. rewrite Hfind.
  split; [reflexivity|]. split; [now intros e ->|now intros packageJson ->].
Qed.

(** X12: an empty [package.json] is read as no result yet: when the
    nearest [package.json] is an empty file the loop reads it again and
    again, and neither [parsePackageJson] nor [detectFramework] ends,
    whatever the number of rounds. *)
Theorem parsePackageJson_empty_file_loops w cwd k :
  (forall j, (j < k)%nat ->
     contents w !! path_join (parent j cwd) "package.json" = None
     /\ parent j cwd ≠ EmptyString) ->
  contents w !! path_join (parent k cwd) "package.json" = Some EmptyString ->
  forall fuel,
    (parsePackageJson fuel w cwd).2 = None /\ detectFramework fuel w cwd = None.
Proof.
  intros Habove Hfile fuel.
  pose proof (find_package_json_empty w k fuel cwd Habove Hfile) as Hfind.
  unfold detectFramework, parsePackageJson. cbn [snd]. now rewrite Hfind.
Qed.

Lemma detectFramework_parsed fuel w cwd packageJson :
  (parsePackageJson fuel w cwd).2 = Some (inr packageJson) ->
  detectFramework fuel w cwd = Some (framework_of packageJson).
Proof. intros Hparse. unfold detectFramework. now rewrite Hparse. Qed.

(** X13: the reads of [dependencies] and [devDependencies] are outside
    the [try] of [detectFramework]: a [package.json] without a
    [dependencies] member makes it throw a TypeError, and so does one
    without [devDependencies] whose dependencies name neither next nor
    vite.  It does not answer [unknown] there. *)
Theorem detectFramework_needs_dependencies fuel w cwd members :
  (parsePackageJson fuel w cwd).2 = Some (inr (JObject members)) ->
  own_member "dependencies" members = None
  \/ (exists dependencies,
        own_member "dependencies" members = Some (JObject dependencies)
        /\ truthy (own_member "next" dependencies) = false
        /\ truthy (own_member "vite" dependencies) = false
        /\ own_member "devDependencies" members = None) ->
  detectFramework fuel w cwd = Some (inl TypeError).
Proof.
  intros Hparse Hmissing. rewrite (detectFramework_parsed _ _ _ _ Hparse).
  unfold framework_of. cbn [get_member].
  destruct Hmissing as [Hnone|(dependencies & Hdeps & Hnext & Hvite & Hdev)].
  - now rewrite Hnone.
  - rewrite Hdeps. cbn [get_member]. now rewrite Hnext, Hvite, Hdev.
Qed.

(** X14: next comes first: a truthy [next] among the dependencies makes
    the framework [next], whatever else the file names, with or without
    [devDependencies]. *)
Theorem detectFramework_next_first fuel w cwd members dependencies :
  (parsePackageJson fuel w cwd).2 = Some (inr (JObject members)) ->
  own_member "dependencies" members = Some (JObject dependencies) ->
  truthy (own_member "next" dependencies) = true ->
  detectFramework fuel w cwd = Some (inr "next").
Proof.
  intros Hparse Hdeps Hnext. rewrite (detectFramework_parsed _ _ _ _ Hparse).
  unfold framework_of. cbn [get_member]. rewrite Hdeps.
  cbn [get_member]. now rewrite Hnext.
Qed.

(** X15: vite is looked for among the development dependencies too, remix
    is not: with dependencies that name none of the frameworks, the answer
    is [vite] when [devDependencies] names vite and [unknown] otherwise,
    whatever [devDependencies] says of remix. *)
Theorem detectFramework_dev_dependencies fuel w cwd members dependencies devDependencies :
  (parsePackageJson fuel w cwd).2 = Some (inr (JObject members)) ->
  own_member "dependencies" members = Some (JObject dependencies) ->
  own_member "devDependencies" members = Some (JObject devDependencies) ->
  truthy (own_member "next" dependencies) = false ->
  truthy (own_member "vite" dependencies) = false ->
  truthy (own_member "remix" dependencies) = false ->
  truthy (own_member "@remix-run/react" dependencies) = false ->
  detectFramework fuel w cwd =
    Some (inr (if truthy (own_member "vite" devDependencies) then "vite" else "unknown")).
Proof.
  intros Hparse Hdeps Hdev Hnext Hvite Hremix Hreact.
  rewrite (detectFramework_parsed _ _ _ _ Hparse).
  unfold framework_of. cbn [get_member]. rewrite Hdeps. cbn [get_member].
  rewrite Hnext, Hvite, Hdev. cbn [get_member].
  destruct (truthy (own_member "vite" devDependencies)); [reflexivity|].
  now rewrite Hremix, Hreact.
Qed.

End Framework.

(** * The command line *)

Lemma cli_bind_returned {A B} (c : Cli A) (k : A -> Cli B) w a w' acts :
  c w = mkTrace (Returned a) w' acts ->
  cli_bind c k w = mkTrace (result (k a w')) (files (k a w')) (acts ++ actions (k a w')).
Proof. intros Hc. unfold cli_bind. now rewrite Hc. Qed.

Lemma cli_bind_thrown {A B} (c : Cli A) (k : A -> Cli B) w e w' acts :
  c w = mkTrace (Thrown e) w' acts -> cli_bind c k w = mkTrace (Thrown e) w' acts.
Proof. intros Hc. unfold cli_bind. now rewrite Hc. Qed.

Lemma cli_bind_exited {A B} (c : Cli A) (k : A -> Cli B) w n w' acts :
  c w = mkTrace (Exited n) w' acts -> cli_bind c k w = mkTrace (Exited n) w' acts.
Proof. intros Hc. unfold cli_bind. now rewrite Hc. Qed.

Lemma trace_eta {A} (r : trace A) : r = mkTrace (result r) (files r) (actions r).
Proof. now destruct r. Qed.

Lemma existsb_map_fs (f : action -> bool) (ev : list event) :
  (forall e, f (Fs e) = false) -> existsb f (List.map Fs ev) = false.
Proof.
  intros Hf. induction ev as [|e ev IH]; [reflexivity|].
  cbn [List.map existsb]. now rewrite Hf, IH.
Qed.

(** ** What never ends the process *)

Lemma never_exits_ret {A} (a : A) : never_exits (ret a).
Proof. intros w code. discriminate. Qed.

Lemma never_exits_throw {A} (e : error) : never_exits (@throw A e).
Proof. intros w code. discriminate. Qed.

Lemma never_exits_emit e : never_exits (emit e).
Proof. intros w code. discriminate. Qed.

Lemma never_exits_bind {A B} (c : IO A) (k : A -> IO B) :
  never_exits c -> (forall a, never_exits (k a)) -> never_exits (bind c k).
Proof.
  intros Hc Hk w code. unfold bind. specialize (Hc w).
  destruct (c w) as [[a|e|n] w' ev]; cbn [value] in *.
  - apply Hk.
  - discriminate.
  - now destruct (Hc n).
Qed.

Lemma never_exits_catch {A} (c : IO A) (fallback : A) :
  never_exits c -> never_exits (catch c fallback).
Proof.
  intros Hc w code. unfold catch. specialize (Hc w).
  destruct (c w) as [[a|e|n] w' ev]; cbn [value] in *; [discriminate..|apply Hc].
Qed.

Lemma never_exits_readFile path : never_exits (readFile path).
Proof. intros w code. unfold readFile. now destruct (contents w !! path). Qed.

Lemma never_exits_writeFile path content : never_exits (writeFile path content).
Proof.
  intros w code. unfold writeFile.
  destruct (bool_decide (path ∈ directories w)); [discriminate|].
  now destruct (bool_decide (dirname path ∈ directories w)).
Qed.

Lemma never_exits_mkdirSync dir : never_exits (mkdirSync dir).
Proof.
  intros w code. unfold mkdirSync.
  now destruct (existsb (fun a => bool_decide (is_Some (contents w !! a))) (ancestors dir)).
Qed.

Lemma never_exits_for_of {A} (xs : list A) (body : A -> IO unit) :
  (forall x, never_exits (body x)) -> never_exits (for_of xs body).
Proof.
  intros Hbody. induction xs as [|x xs IH]; cbn [for_of].
  - apply never_exits_ret.
  - apply never_exits_bind; [apply Hbody|intros _; exact IH].
Qed.

Lemma never_exits_logVerbose c m : never_exits (logVerbose c m).
Proof.
  unfold logVerbose. destruct (verbose c); [apply never_exits_emit|apply never_exits_ret].
Qed.

Lemma never_exits_writeIfChanged filepath newContent :
  never_exits (writeIfChanged filepath newContent).
Proof.
  unfold writeIfChanged. apply never_exits_bind.
  - apply never_exits_catch, never_exits_readFile.
  - intros currentContent. destruct (String.eqb currentContent newContent).
    + apply never_exits_ret.
    + apply never_exits_bind; [apply never_exits_writeFile|intros _; apply never_exits_ret].
Qed.

Lemma never_exits_store file content : never_exits (store file content).
Proof.
  unfold store. apply never_exits_bind; [apply never_exits_mkdirSync|].
  intros _. apply never_exits_writeFile.
Qed.

Section NeverExits.
Context `{Externals}.

Lemma never_exits_symbol_of_file inputDir file : never_exits (symbol_of_file inputDir file).
Proof.
  unfold symbol_of_file. apply never_exits_bind; [apply never_exits_readFile|].
  intros input. apply never_exits_bind; [apply never_exits_emit|]. intros _.
  destruct (querySelector (parse input) "svg"); [apply never_exits_ret|apply never_exits_throw].
Qed.

Lemma never_exits_promise_all_map {A B} (f : A -> IO B) (xs : list A) :
  (forall x, never_exits (f x)) -> never_exits (promise_all_map f xs).
Proof.
  intros Hf. induction xs as [|x xs IH]; cbn [promise_all_map].
  - apply never_exits_ret.
  - apply never_exits_bind; [apply Hf|]. intros y.
    apply never_exits_bind; [exact IH|]. intros ys. apply never_exits_ret.
Qed.

Lemma never_exits_generateSvgSprite files inputDir outputPath opt :
  never_exits (generateSvgSprite files inputDir outputPath opt).
Proof.
  unfold generateSvgSprite, sprite_output. apply never_exits_bind.
  - apply never_exits_bind.
    + apply never_exits_promise_all_map. intros file. apply never_exits_symbol_of_file.
    + intros symbols. cbv zeta. destruct opt; [|apply never_exits_ret].
      destruct (optimize (sprite_document symbols));
        [apply never_exits_throw|apply never_exits_ret].
  - intros output. apply never_exits_writeIfChanged.
Qed.

Lemma never_exits_build_icons c files : never_exits (build_icons c files).
Proof.
  unfold build_icons.
  apply never_exits_bind; [apply never_exits_catch, never_exits_readFile|]. intros currentSprite.
  apply never_exits_bind; [apply never_exits_catch, never_exits_readFile|]. intros currentTypes.
  cbv zeta.
  destruct (spriteUpToDate _ currentSprite && typesUpToDate _ currentTypes)%bool.
  - apply never_exits_bind; [apply never_exits_logVerbose|]. intros _. apply never_exits_ret.
  - apply never_exits_bind; [apply never_exits_logVerbose|]. intros _.
    apply never_exits_bind; [apply never_exits_generateSvgSprite|]. intros spriteChanged.
    apply never_exits_bind;
      [apply never_exits_for_of; intros file; apply never_exits_logVerbose|]. intros _.
    apply never_exits_bind; [apply never_exits_logVerbose|]. intros _.
    apply never_exits_bind; [apply never_exits_writeIfChanged|]. intros typesChanged.
    apply never_exits_bind; [apply never_exits_logVerbose|]. intros _.
    apply never_exits_bind; [apply never_exits_writeIfChanged|]. intros readmeChanged.
    destruct (spriteChanged || typesChanged || readmeChanged)%bool;
      [apply never_exits_emit|apply never_exits_ret].
Qed.

(** The only exit of [build] is the one that follows an empty search. *)
Lemma build_exit c w code :
  value (build c w) = Exited code ->
  code = 1 /\ build c w = mkRun (Exited 1) w [Cancel (NoSvgFilesFound (inputDirRelative c))].
Proof.
  rewrite build_unfold.
  destruct (Nat.eqb (List.length (discovered c w)) 0).
  - cbn [value]. intros [= <-]. now split.
  - intros Hexit. exfalso. revert Hexit.
    apply (never_exits_bind (mkdirSync (outputDir c)) (fun _ => build_icons c (discovered c w))).
    + apply never_exits_mkdirSync.
    + intros _. apply never_exits_build_icons.
Qed.

End NeverExits.

Ltac answer_cases :=
  repeat (first
    [ match goal with
      | Ht : text ?m ?i = _ |- context [text ?m ?i] => rewrite Ht
      | Hc : confirm ?m = _ |- context [confirm ?m] => rewrite Hc
      end
    | match goal with
      | |- context [text ?m ?i] =>
          let Ht := fresh "Ht" in destruct (text m i) as [|?] eqn:Ht
      | |- context [confirm ?m] =>
          let Hc := fresh "Hc" in destruct (confirm m) as [|?] eqn:Hc
      end ]; cbn).

Ltac split_in H :=
  repeat match type of H with
         | _ ∈ _ :: _ => apply elem_of_cons in H as [H|H]
         | _ ∈ _ ++ _ => apply elem_of_app in H as [H|H]
         | _ ∈ [] => now apply elem_of_nil in H
         end.

Section CommandLineFacts.
Context `{Externals} `{Json} `{Terminal}.

Lemma was_cancelled_fs (e : event) : was_cancelled (Fs e) = false.
Proof. reflexivity. Qed.

(** What [build_options] does, case by case. *)
Lemma build_options_cases args cwd framework folder w :
  let r := build_options args cwd framework folder w in
  files r = w
  /\ existsb is_fs (actions r) = false
  /\ ((exists c, result r = Returned c /\ existsb was_cancelled (actions r) = false)
      \/ (result r = Exited 1 /\ existsb was_cancelled (actions r) = true)).
Proof.
  unfold build_options, text_prompt, confirm_prompt.
  destruct (given (js_or (args_i args) (args_input args))) as [input|];
    destruct (given (js_or (args_o args) (args_output args))) as [output|];
    destruct (args_optimize args) as [optimize|];
    unfold cli_bind, say, cli_ret, cli_exit; cbn;
    answer_cases;
    (split; [reflexivity|]); (split; [reflexivity|]);
    first [left; eexists; split; reflexivity | right; split; reflexivity].
Qed.


(** X17: a question of [build] answered with a cancel ends the program
    with the exit code 1 before anything is read, made or written. *)
Theorem build_cancelled_changes_nothing args cwd framework folder w :
  let r := build_command args cwd framework folder w in
  existsb was_cancelled (actions r) = true ->
  result r = Exited 1 /\ files r = w /\ existsb is_fs (actions r) = false.
Proof.
  cbv zeta. unfold build_command.
  pose proof (build_options_cases args cwd framework folder w) as Hcases.
  cbv zeta in Hcases. unfold cli_bind.
  destruct (build_options args cwd framework folder w) as [res w1 acts].
  cbn [result files actions] in Hcases.
  destruct Hcases as (-> & Hfs & [(c & -> & Hnc)|[-> Hc]]).
  - cbn [actions lift]. rewrite existsb_app, Hnc.
    rewrite (existsb_map_fs was_cancelled) by reflexivity. discriminate.
  - cbn [result files actions]. now intros _.
Qed.

(** X18: [build] ends the process with no other code than 1, and only
    after a cancelled question or a search that found no SVG file. *)
Theorem build_exits_with_one args cwd framework folder w code :
  let r := build_command args cwd framework folder w in
  result r = Exited code ->
  code = 1
  /\ (existsb was_cancelled (actions r) = true \/ existsb is_no_svg (actions r) = true).
Proof.
  cbv zeta. unfold build_command.
  pose proof (build_options_cases args cwd framework folder w) as Hcases.
  cbv zeta in Hcases. unfold cli_bind.
  destruct (build_options args cwd framework folder w) as [res w1 acts].
  cbn [result files actions] in Hcases.
  destruct Hcases as (-> & Hfs & [(c & -> & Hnc)|[-> Hc]]).
  - cbn [result actions lift]. intros Hcode.
    destruct (build_exit c _ code Hcode) as [-> Hrun]. split; [reflexivity|].
    right. rewrite Hrun. cbn [events List.map]. rewrite existsb_app. cbn.
    apply orb_true_r.
  - cbn [result actions]. intros [= <-]. split; [reflexivity|now left].
Qed.

End CommandLineFacts.

Lemma store_cases file content w :
  store file content w =
    mkRun (Returned tt)
          (mkState (<[file := content]> (contents w))
                   (directories w ∪ list_to_set (ancestors (dirname file))))
          [Mkdir (dirname file); WriteFile file content]
  \/ (exists e w' ev, store file content w = mkRun (Thrown e) w' ev
        /\ contents w' = contents w /\ existsb is_write ev = false).
Proof.
  unfold store, bind, mkdirSync.
  destruct (existsb (fun a => bool_decide (is_Some (contents w !! a))) (ancestors (dirname file))).
  - right. eexists _, _, _. repeat split; reflexivity.
  - unfold writeFile. cbn [contents directories].
    destruct (bool_decide (file ∈ _)).
    + right. eexists _, _, _. repeat split; reflexivity.
    + destruct (bool_decide (dirname file ∈ _)).
      * now left.
      * right. eexists _, _, _. repeat split; reflexivity.
Qed.

Section InitFacts.
Context `{Externals} `{Json} `{Terminal}.

Lemma lift_store_cases file content w :
  lift (store file content) w =
    mkTrace (Returned tt)
            (mkState (<[file := content]> (contents w))
                     (directories w ∪ list_to_set (ancestors (dirname file))))
            [Fs (Mkdir (dirname file)); Fs (WriteFile file content)]
  \/ (exists e w' ev, lift (store file content) w = mkTrace (Thrown e) w' (List.map Fs ev)
        /\ contents w' = contents w
        /\ existsb is_write ev = false).
Proof.
  unfold lift.
  destruct (store_cases file content w) as [->|(e & w' & ev & -> & Hc & Hw)]; [now left|].
  right. now exists e, w', ev.
Qed.

Lemma in_quiet_events a ev :
  a ∈ List.map Fs ev -> existsb is_write ev = false ->
  exists e, a = Fs e /\ is_write e = false.
Proof.
  intros Hin Hw. apply list_elem_of_In, in_map_iff in Hin as (e & <- & Hin).
  exists e. split; [reflexivity|].
  destruct (is_write e) eqn:He; [|reflexivity].
  assert (existsb is_write ev = true) by (apply existsb_exists; now exists e). congruence.
Qed.

Lemma cli_bind_stat {B} path (k : bool -> Cli B) w :
  cli_bind (cli_stat path) k w = k (stat w path) w.
Proof. unfold cli_bind, cli_stat. now destruct (k (stat w path) w). Qed.

Lemma cli_bind_ret {A B} (a : A) (k : A -> Cli B) w : cli_bind (cli_ret a) k w = k a w.
Proof. unfold cli_bind, cli_ret. now destruct (k a w). Qed.

Lemma cli_bind_say {B} a (k : unit -> Cli B) w :
  cli_bind (say a) k w =
    mkTrace (result (k tt w)) (files (k tt w)) (a :: actions (k tt w)).
Proof. reflexivity. Qed.

Lemma cli_bind_text_prompt {B} message initialValue (k : answer string -> Cli B) w :
  cli_bind (text_prompt message initialValue) k w =
    mkTrace (result (k (text message initialValue) w))
            (files (k (text message initialValue) w))
            (TextPrompt message initialValue :: actions (k (text message initialValue) w)).
Proof. reflexivity. Qed.

Lemma attempt_lift_store file content (handler : Cli unit) w :
  (attempt (lift (store file content)) handler w =
     mkTrace (Returned tt)
             (mkState (<[file := content]> (contents w))
                      (directories w ∪ list_to_set (ancestors (dirname file))))
             [Fs (Mkdir (dirname file)); Fs (WriteFile file content)])
  \/ (exists w' ev,
        attempt (lift (store file content)) handler w =
          mkTrace (result (handler w')) (files (handler w'))
                  (List.map Fs ev ++ actions (handler w'))
        /\ contents w' = contents w
        /\ existsb is_write ev = false).
Proof.
  unfold attempt.
  destruct (lift_store_cases file content w)
    as [->|(e & w' & ev & -> & Hfacts)]; [now left|].
  right. now exists w', ev.
Qed.

(** What the first part of [init] does, case by case. *)
Lemma init_types_cases args cwd w :
  let r := init_types args cwd w in
  existsb is_exec (actions r) = false
  /\ match given (js_or (args_t args) (args_types args)) with
     | Some types => r = mkTrace (Returned (Some types)) w []
     | None =>
         if stat w (path_join cwd "tsconfig.json") then
           match text "Where should the default Icon types be stored?"
                      "types/icon-name.d.ts" with
           | Cancelled =>
               r = mkTrace (Thrown TypeError) w
                     [TextPrompt "Where should the default Icon types be stored?"
                                 "types/icon-name.d.ts";
                      Warn types_warning]
           | Answered types =>
               result r = Returned (Some types)
               /\ existsb was_cancelled (actions r) = false
               /\ (forall file content, Fs (WriteFile file content) ∈ actions r ->
                     file = path_join_cwd cwd types /\ content = typesFile)
           end
         else r = mkTrace (Returned None) w []
     end.
Proof.
  cbv zeta. unfold init_types.
  destruct (given (js_or (args_t args) (args_types args))) as [types|]; [now split|].
  rewrite cli_bind_stat.
  destruct (stat w (path_join cwd "tsconfig.json")); [|now split].
  rewrite cli_bind_text_prompt.
  destruct (text "Where should the default Icon types be stored?" "types/icon-name.d.ts")
    as [|types] eqn:Ht.
  { now split. }
  destruct (attempt_lift_store (path_join_cwd cwd types) typesFile
              (cli_bind (say (Failure ("Could not write to " +:+ path_join_cwd cwd types)))
                        (fun _ => say (Warn types_warning))) w)
    as [Hrun|(w' & ev & Hrun & _ & Hw)];
    rewrite (cli_bind_returned _ _ _ _ _ _ Hrun).
  - cbn. rewrite Ht. split; [reflexivity|]. split; [reflexivity|]. split; [reflexivity|].
    intros file content Hin.
    apply elem_of_cons in Hin as [[=]|Hin].
    apply elem_of_cons in Hin as [[=]|Hin].
    apply elem_of_cons in Hin as [[= -> ->]|Hin]; [now split|].
    now apply elem_of_nil in Hin.
  - cbn. rewrite !existsb_app, !(existsb_map_fs _ ev) by reflexivity. cbn. rewrite Ht.
    split; [reflexivity|]. split; [reflexivity|]. split; [reflexivity|].
    intros file content Hin.
    apply elem_of_cons in Hin as [[=]|Hin].
    apply elem_of_app in Hin as [Hin|Hin].
    + apply elem_of_app in Hin as [Hin|Hin].
      * destruct (in_quiet_events _ _ Hin Hw) as (e & [= <-] & [=]).
      * apply elem_of_cons in Hin as [[=]|Hin].
        apply elem_of_cons in Hin as [[=]|Hin].
        now apply elem_of_nil in Hin.
    + now apply elem_of_nil in Hin.
Qed.


Lemma install_cases cwd w :
  exists command w',
    command = install_command w cwd +:+ " clsx tailwind-merge"
    /\ (install cwd w =
          mkTrace (Returned tt) w'
                  [SpinnerStart "Installing dependencies"; Exec command;
                   SpinnerStop "Installed dependencies"]
        \/ install cwd w =
             mkTrace (Thrown TypeError) w'
                     [SpinnerStart "Installing dependencies"; Exec command;
                      SpinnerStop "Failed to install dependencies"]).
Proof.
  unfold install.
  change (array_join " " dependencies) with "clsx tailwind-merge".
  set (command := install_command w cwd +:+ " " +:+ "clsx tailwind-merge").
  exists command, (exec command w).2. split; [reflexivity|].
  destruct (exec command w).1 as [err|]; [now right|now left].
Qed.

Lemma install_command_known w cwd : install_command w cwd ∈ package_managers.
Proof.
  unfold install_command, package_managers.
  destruct (stat w (path_join cwd "bun.lockb")); [do 3 apply list_elem_of_further; left|].
  destruct (stat w (path_join cwd "pnpm-lock.yaml")); [do 2 apply list_elem_of_further; left|].
  destruct (stat w (path_join cwd "yarn.lock")); [apply list_elem_of_further; left|left].
Qed.

(** What the second part of [init] does, case by case. *)
Lemma init_component_cases args cwd framework folder types w :
  let r := init_component args cwd framework folder types w in
  let asked := component_question args folder types in
  let hrefImportExport := if String.eqb framework "next" then href_public else href_import in
  let content := if bool_decide (is_Some types) then iconFileTs hrefImportExport
                 else iconFileJs hrefImportExport in
  (given (js_or (args_o args) (args_output args)) = None
   /\ text "Where should the Icon component be stored?"
           (folder +:+ "/Icon." +:+ (if bool_decide (is_Some types) then "tsx" else "jsx"))
      = Cancelled
   /\ r = mkTrace (Exited 1) w asked)
  \/ exists output,
       (given (js_or (args_o args) (args_output args)) = Some output
        \/ (given (js_or (args_o args) (args_output args)) = None
            /\ text "Where should the Icon component be stored?"
                    (folder +:+ "/Icon." +:+
                       (if bool_decide (is_Some types) then "tsx" else "jsx"))
               = Answered output))
       /\ let outputDir := path_join_cwd cwd output in
          (exists w' ev,
              r = mkTrace (Exited 1) w'
                    (asked ++ List.map Fs ev ++
                       [Failure ("Could not write to " +:+ outputDir);
                        Warn "You'll need to create an Icon component yourself"])
              /\ contents w' = contents w
              /\ existsb is_write ev = false)
          \/ (exists command w',
                command = install_command
                            (mkState (<[outputDir := content]> (contents w))
                                     (directories w ∪ list_to_set (ancestors (dirname outputDir))))
                            cwd +:+ " clsx tailwind-merge"
                /\ (r = mkTrace (Returned tt) w'
                          (asked ++
                             [Fs (Mkdir (dirname outputDir)); Fs (WriteFile outputDir content);
                              SpinnerStart "Installing dependencies"; Exec command;
                              SpinnerStop "Installed dependencies";
                              Outro (outro_text outputDir
                                       (if String.eqb framework "next" then "public/icons"
                                        else folder +:+ "/icons") types)])
                    \/ r = mkTrace (Thrown TypeError) w'
                              (asked ++
                                 [Fs (Mkdir (dirname outputDir));
                                  Fs (WriteFile outputDir content);
                                  SpinnerStart "Installing dependencies"; Exec command;
                                  SpinnerStop "Failed to install dependencies"]))).
Proof.
  cbv zeta. unfold init_component, component_question.
  set (isTs := bool_decide (is_Some types)).
  set (question := folder +:+ "/Icon." +:+ (if isTs then "tsx" else "jsx")).
  set (content := if isTs then iconFileTs _ else iconFileJs _).
  assert (Hrest : forall output asked,
    let outputDir := path_join_cwd cwd output in
    let r := mkTrace
      (result ((attempt (lift (store outputDir content))
                 (say (Failure ("Could not write to " +:+ outputDir)) ;+
                  say (Warn "You'll need to create an Icon component yourself") ;+
                  cli_exit 1) ;+
                install cwd ;+
                say (Outro (outro_text outputDir
                              (if String.eqb framework "next" then "public/icons"
                               else folder +:+ "/icons") types))) w))
      (files ((attempt (lift (store outputDir content))
                 (say (Failure ("Could not write to " +:+ outputDir)) ;+
                  say (Warn "You'll need to create an Icon component yourself") ;+
                  cli_exit 1) ;+
                install cwd ;+
                say (Outro (outro_text outputDir
                              (if String.eqb framework "next" then "public/icons"
                               else folder +:+ "/icons") types))) w))
      (asked ++ actions ((attempt (lift (store outputDir content))
                 (say (Failure ("Could not write to " +:+ outputDir)) ;+
                  say (Warn "You'll need to create an Icon component yourself") ;+
                  cli_exit 1) ;+
                install cwd ;+
                say (Outro (outro_text outputDir
                              (if String.eqb framework "next" then "public/icons"
                               else folder +:+ "/icons") types))) w)) in
    (exists w' ev,
        r = mkTrace (Exited 1) w'
              (asked ++ List.map Fs ev ++
                 [Failure ("Could not write to " +:+ outputDir);
                  Warn "You'll need to create an Icon component yourself"])
        /\ contents w' = contents w
        /\ existsb is_write ev = false)
    \/ (exists command w',
          command = install_command
                      (mkState (<[outputDir := content]> (contents w))
                               (directories w ∪ list_to_set (ancestors (dirname outputDir))))
                      cwd +:+ " clsx tailwind-merge"
          /\ (r = mkTrace (Returned tt) w'
                    (asked ++
                       [Fs (Mkdir (dirname outputDir)); Fs (WriteFile outputDir content);
                        SpinnerStart "Installing dependencies"; Exec command;
                        SpinnerStop "Installed dependencies";
                        Outro (outro_text outputDir
                                 (if String.eqb framework "next" then "public/icons"
                                  else folder +:+ "/icons") types)])
              \/ r = mkTrace (Thrown TypeError) w'
                        (asked ++
                           [Fs (Mkdir (dirname outputDir));
                            Fs (WriteFile outputDir content);
                            SpinnerStart "Installing dependencies"; Exec command;
                            SpinnerStop "Failed to install dependencies"])))).
  { intros output asked. cbv zeta.
    destruct (attempt_lift_store (path_join_cwd cwd output) content
                (say (Failure ("Could not write to " +:+ path_join_cwd cwd output)) ;+
                 say (Warn "You'll need to create an Icon component yourself") ;+
                 cli_exit 1) w)
      as [Hrun|(w' & ev & Hrun & Hfacts)].
    - right. rewrite (cli_bind_returned _ _ _ _ _ _ Hrun).
      destruct (install_cases cwd
                  (mkState (<[path_join_cwd cwd output := content]> (contents w))
                     (directories w ∪
                        list_to_set (ancestors (dirname (path_join_cwd cwd output))))))
        as (command & w' & Hcommand & [Hinst|Hinst]);
        exists command, w'; (split; [exact Hcommand|]).
      + left. rewrite (cli_bind_returned _ _ _ _ _ _ Hinst). reflexivity.
      + right. rewrite (cli_bind_thrown _ _ _ _ _ _ Hinst). reflexivity.
    - left. exists w', ev. split; [|exact Hfacts].
      cbn in Hrun. rewrite (cli_bind_exited _ _ _ _ _ _ Hrun). reflexivity. }
  destruct (given (js_or (args_o args) (args_output args))) as [output|].
  - right. exists output. split; [now left|].
    rewrite cli_bind_ret. specialize (Hrest output []). cbv zeta in Hrest.
    cbn [app] in Hrest |- *. rewrite <- trace_eta in Hrest. exact Hrest.
  - rewrite cli_bind_text_prompt.
    destruct (text "Where should the Icon component be stored?" question) as [|output].
    + left. now repeat split.
    + right. exists output. split; [now right|].
      apply (Hrest output [TextPrompt "Where should the Icon component be stored?" question]).
Qed.


Ltac types_cases args cwd w :=
  let Hex := fresh "Hex" in
  let Hc := fresh "Hc" in
  destruct (init_types_cases args cwd w) as [Hex Hc]; cbv zeta in Hex, Hc;
  destruct (given (js_or (args_t args) (args_types args))) as [types|] eqn:Hflag;
  [|destruct (stat w (path_join cwd "tsconfig.json")) eqn:Hts;
    [destruct (text "Where should the default Icon types be stored?" "types/icon-name.d.ts")
       as [|types] eqn:Hanswer|]].

Lemma component_question_in args folder types a :
  a ∈ component_question args folder types ->
  given (js_or (args_o args) (args_output args)) = None
  /\ a = TextPrompt "Where should the Icon component be stored?"
           (folder +:+ "/Icon." +:+ (if bool_decide (is_Some types) then "tsx" else "jsx")).
Proof.
  unfold component_question.
  destruct (given (js_or (args_o args) (args_output args))); intros Hin; split_in Hin.
  now split.
Qed.

Lemma not_in_quiet (f : action -> bool) (a : action) (acts : list action) :
  existsb f acts = false -> f a = true -> a ∈ acts -> False.
Proof.
  intros Hnone Ha Hin. apply list_elem_of_In in Hin.
  assert (existsb f acts = true) by (apply existsb_exists; now exists a). congruence.
Qed.

(** X19: with [-t] or [--types], [init] asks nothing about the types and
    writes no types file: whatever it writes is the component in
    TypeScript, at the place the output flag or the answer names. *)
Theorem init_types_flag_stores_no_types args cwd framework folder w types :
  given (js_or (args_t args) (args_types args)) = Some types ->
  let r := init args cwd framework folder w in
  let hrefImportExport := if String.eqb framework "next" then href_public else href_import in
  (types_question ∉ actions r)
  /\ (forall file content, Fs (WriteFile file content) ∈ actions r ->
        content = iconFileTs hrefImportExport
        /\ exists output,
             file = path_join_cwd cwd output
             /\ (given (js_or (args_o args) (args_output args)) = Some output
                 \/ text "Where should the Icon component be stored?" (folder +:+ "/Icon.tsx")
                    = Answered output)).
Proof.
  intros Hgiven. cbv zeta.
  destruct (init_types_cases args cwd w) as [_ Hc]. cbv zeta in Hc. rewrite Hgiven in Hc.
  unfold init. rewrite (cli_bind_returned _ _ _ _ _ _ Hc). cbn [app].
  rewrite <- trace_eta.
  destruct (init_component_cases args cwd framework folder (Some types) w)
    as [(Hg & Ht & Hr)|(output & Hout & [(w' & ev & Hr & _ & Hw)
                                        |(command & w' & _ & [Hr|Hr])])];
    cbv zeta in Hr; rewrite Hr; cbn [actions];
    (split; [intros Hin|intros file content Hin]); split_in Hin;
    try discriminate;
    try (apply component_question_in in Hin as [_ Hin]; discriminate);
    try (now destruct (in_quiet_events _ _ Hin Hw) as (e & [= <-] & [=]));
    try (now destruct (in_quiet_events _ _ Hin Hw) as (e & [=] & _)).
  all: injection Hin as -> ->; split; [reflexivity|]; exists output;
    split; [reflexivity|]; destruct Hout as [Hout|[_ Hout]]; [now left|now right].
Qed.

Lemma init_run args cwd framework folder w types :
  result (init_types args cwd w) = Returned types ->
  init args cwd framework folder w =
    mkTrace (result (init_component args cwd framework folder types
                       (files (init_types args cwd w))))
            (files (init_component args cwd framework folder types
                      (files (init_types args cwd w))))
            (actions (init_types args cwd w) ++
             actions (init_component args cwd framework folder types
                        (files (init_types args cwd w)))).
Proof.
  unfold init, cli_bind. destruct (init_types args cwd w) as [res w1 acts1].
  cbn [result files actions]. now intros ->.
Qed.

Lemma init_types_thrown args cwd framework folder w e w' acts :
  init_types args cwd w = mkTrace (Thrown e) w' acts ->
  init args cwd framework folder w = mkTrace (Thrown e) w' acts.
Proof. intros Hc. unfold init. now rewrite (cli_bind_thrown _ _ _ _ _ _ Hc). Qed.

(** The first part of [init] returns or throws; it throws when its
    question is cancelled, and only then. *)
Lemma init_types_result args cwd w :
  (given (js_or (args_t args) (args_types args)) = None
   /\ stat w (path_join cwd "tsconfig.json") = true
   /\ text "Where should the default Icon types be stored?" "types/icon-name.d.ts" = Cancelled
   /\ init_types args cwd w = mkTrace (Thrown TypeError) w [types_question; Warn types_warning])
  \/ (exists types,
        result (init_types args cwd w) = Returned types
        /\ existsb is_exec (actions (init_types args cwd w)) = false
        /\ (given (js_or (args_t args) (args_types args)) = None ->
            stat w (path_join cwd "tsconfig.json") = true ->
            text "Where should the default Icon types be stored?" "types/icon-name.d.ts"
              = Cancelled -> False)
        /\ (types = None <->
            given (js_or (args_t args) (args_types args)) = None
            /\ stat w (path_join cwd "tsconfig.json") = false)).
Proof.
  types_cases args cwd w.
  - right. exists (Some types). rewrite Hc. cbn. repeat split; try discriminate.
    now intros [[=] _].
  - left. now repeat split.
  - right. exists (Some types). destruct Hc as (Hres & _).
    repeat split; try assumption; try discriminate. now intros [_ [=]].
  - right. exists None. rewrite Hc. cbn. repeat split; try discriminate.
Qed.

(** The second part of [init] returns, exits with 1 or throws a
    TypeError. *)
Lemma init_component_result args cwd framework folder types w :
  result (init_component args cwd framework folder types w) = Returned tt
  \/ result (init_component args cwd framework folder types w) = Exited 1
  \/ result (init_component args cwd framework folder types w) = Thrown TypeError.
Proof.
  destruct (init_component_cases args cwd framework folder types w)
    as [(Hg & Ht & Hr)|(output & Hout & [(w' & ev & Hr & _)
                                        |(command & w' & _ & [Hr|Hr])])];
    cbv zeta in Hr; rewrite Hr; cbn [result]; auto.
Qed.



(** X21: [init] installs only once the component is written: the command
    it runs follows the writing of the component at once, it is the only
    one, and it adds [clsx] and [tailwind-merge] with one of the four
    package managers. *)
Theorem init_installs_after_component args cwd framework folder w command :
  let r := init args cwd framework folder w in
  let hrefImportExport := if String.eqb framework "next" then href_public else href_import in
  Exec command ∈ actions r ->
  exists before rest file content pm,
    actions r = before ++ Fs (WriteFile file content)
                       :: SpinnerStart "Installing dependencies" :: Exec command :: rest
    /\ existsb is_exec before = false
    /\ existsb is_exec rest = false
    /\ (content = iconFileTs hrefImportExport \/ content = iconFileJs hrefImportExport)
    /\ pm ∈ package_managers
    /\ command = pm +:+ " clsx tailwind-merge".
Proof.
  cbv zeta.
  destruct (init_types_result args cwd w)
    as [(Hflag & Hts & Hanswer & Hc)|(types & Hres & Hex & _)].
  { rewrite (init_types_thrown _ _ _ _ _ _ _ _ Hc). cbn [actions].
    intros Hin. split_in Hin; discriminate. }
  rewrite (init_run _ _ _ _ _ _ Hres). cbn [actions].
  set (w1 := files (init_types args cwd w)).
  set (acts1 := actions (init_types args cwd w)) in *.
  assert (Hasked : existsb is_exec (component_question args folder types) = false).
  { unfold component_question. now destruct (given _). }
  destruct (init_component_cases args cwd framework folder types w1)
    as [(Hg & Ht & Hr)|(output & Hout & [(w' & ev & Hr & _ & Hw)
                                        |(command' & w' & Hcommand & [Hr|Hr])])];
    cbv zeta in Hr; rewrite Hr; cbn [actions]; intros Hin.
  - exfalso. apply (not_in_quiet is_exec (Exec command)
                      (acts1 ++ component_question args folder types));
      [|reflexivity|exact Hin].
    now rewrite existsb_app, Hex, Hasked.
  - exfalso. apply (not_in_quiet is_exec (Exec command)
                      (acts1 ++ component_question args folder types ++ List.map Fs ev ++
                         [Failure ("Could not write to " +:+ path_join_cwd cwd output);
                          Warn "You'll need to create an Icon component yourself"]));
      [|reflexivity|exact Hin].
    rewrite !existsb_app, Hex, Hasked, (existsb_map_fs is_exec) by reflexivity. reflexivity.
  - assert (command = command') as ->.
    { split_in Hin; try discriminate; try congruence.
      + exfalso. now apply (not_in_quiet is_exec (Exec command) _ Hex eq_refl Hin).
      + exfalso. now apply (not_in_quiet is_exec (Exec command) _ Hasked eq_refl Hin). }
    eexists (acts1 ++ component_question args folder types ++ [Fs (Mkdir _)]), _, _, _, _.
    split; [rewrite <- !app_assoc; reflexivity|].
    split; [rewrite !existsb_app, Hex, Hasked; reflexivity|].
    split; [reflexivity|].
    split; [destruct (bool_decide (is_Some types)); [now left|now right]|].
    split; [apply install_command_known|exact Hcommand].
  - assert (command = command') as ->.
    { split_in Hin; try discriminate; try congruence.
      + exfalso. now apply (not_in_quiet is_exec (Exec command) _ Hex eq_refl Hin).
      + exfalso. now apply (not_in_quiet is_exec (Exec command) _ Hasked eq_refl Hin). }
    eexists (acts1 ++ component_question args folder types ++ [Fs (Mkdir _)]), _, _, _, _.
    split; [rewrite <- !app_assoc; reflexivity|].
    split; [rewrite !existsb_app, Hex, Hasked; reflexivity|].
    split; [reflexivity|].
    split; [destruct (bool_decide (is_Some types)); [now left|now right]|].
    split; [apply install_command_known|exact Hcommand].
Qed.

(** X22: [init] ends the process with no other code than 1, and in two
    cases only: the question about the place of the component was
    cancelled; the component could not be written.  In neither has a
    command been run: nothing is installed.  (A failed installation does
    not come to its exit: it throws.) *)
Theorem init_exits_with_one args cwd framework folder w code :
  let r := init args cwd framework folder w in
  result r = Exited code ->
  code = 1
  /\ existsb is_exec (actions r) = false
  /\ ((exists before message initialValue,
         actions r = before ++ [TextPrompt message initialValue]
         /\ text message initialValue = Cancelled)
      \/ (exists before file,
            actions r = before ++ [Failure ("Could not write to " +:+ file);
                                   Warn "You'll need to create an Icon component yourself"])).
Proof.
  cbv zeta.
  destruct (init_types_result args cwd w)
    as [(Hflag & Hts & Hanswer & Hc)|(types & Hres & Hex & _)].
  { rewrite (init_types_thrown _ _ _ _ _ _ _ _ Hc). discriminate. }
  rewrite (init_run _ _ _ _ _ _ Hres). cbn [result actions].
  set (w1 := files (init_types args cwd w)).
  set (acts1 := actions (init_types args cwd w)) in *.
  assert (Hasked : existsb is_exec (component_question args folder types) = false).
  { unfold component_question. now destruct (given _). }
  destruct (init_component_cases args cwd framework folder types w1)
    as [(Hg & Ht & Hr)|(output & Hout & [(w' & ev & Hr & _ & Hw)
                                        |(command & w' & Hcommand & [Hr|Hr])])];
    cbv zeta in Hr; rewrite Hr; cbn [result actions]; intros [= <-];
    (split; [reflexivity|]).
  - split; [now rewrite existsb_app, Hex, Hasked|].
    left. unfold component_question. rewrite Hg.
    eexists acts1, _, _. split; [reflexivity|exact Ht].
  - split.
    { rewrite !existsb_app, Hex, Hasked, (existsb_map_fs is_exec) by reflexivity.
      reflexivity. }
    right.
    exists (acts1 ++ component_question args folder types ++ List.map Fs ev),
           (path_join_cwd cwd output).
    now rewrite <- !app_assoc.
Qed.

(** X23: in a project without [tsconfig.json], and without a flag for the
    types, [init] asks nothing about the types and writes nothing but the
    component in JavaScript, which it proposes to call [Icon.jsx].  That
    text mentions [IconName] once, in an export: it exports a name that it
    neither imports nor declares. *)
Theorem init_without_typescript args cwd framework folder w :
  given (js_or (args_t args) (args_types args)) = None ->
  stat w (path_join cwd "tsconfig.json") = false ->
  let r := init args cwd framework folder w in
  let hrefImportExport := if String.eqb framework "next" then href_public else href_import in
  (forall file content, Fs (WriteFile file content) ∈ actions r ->
      content = iconFileJs hrefImportExport)
  /\ (forall message initialValue, TextPrompt message initialValue ∈ actions r ->
        initialValue = folder +:+ "/Icon.jsx")
  /\ includes (iconFileJs hrefImportExport) "export { IconName };" = true
  /\ occurrences "IconName" (iconFileJs hrefImportExport) = 1%nat.
Proof.
  intros Hflag Hts. cbv zeta.
  split; [|split].
  3: { destruct (String.eqb framework "next"); split; vm_compute; reflexivity. }
  all: destruct (init_types_cases args cwd w) as [_ Hc]; cbv zeta in Hc;
    rewrite Hflag, Hts in Hc;
    unfold init; rewrite (cli_bind_returned _ _ _ _ _ _ Hc); cbn [app];
    rewrite <- trace_eta;
    destruct (init_component_cases args cwd framework folder None w)
      as [(Hg & Ht & Hr)|(output & Hout & [(w' & ev & Hr & _ & Hw)
                                          |(command & w' & _ & [Hr|Hr])])];
    cbv zeta in Hr; rewrite Hr; cbn [actions].
  all: try (intros file content Hin); try (intros message initialValue Hin);
    split_in Hin; try discriminate;
    try (now destruct (in_quiet_events _ _ Hin Hw) as (e & [= <-] & [=]));
    try (now destruct (in_quiet_events _ _ Hin Hw) as (e & [=] & _));
    try (apply component_question_in in Hin as [_ Hin]; try discriminate;
         now injection Hin as _ ->).
  all: now injection Hin as _ ->.
Qed.

(** X24: with [--help], and for a command that is neither [build] nor
    [init], the program asks nothing, installs nothing and leaves the file
    system alone: once the framework is known it greets, prints one of the
    three help texts and returns. *)
Theorem help_changes_nothing fuel args cwd w r :
  main fuel args cwd w = Some r ->
  args_help args = true
  \/ (args_command args ≠ Some "build" /\ args_command args ≠ Some "init") ->
  let console := List.map Console (parsePackageJson fuel w cwd).1 in
  files r = w
  /\ ((exists e, r = mkTrace (Thrown e) w console)
      \/ (exists body,
            body ∈ [build_help; init_help; usage]
            /\ r = mkTrace (Returned tt) w (console ++ [Intro "Icons CLI"; Message body]))).
Proof.
  intros Hmain Hhelp. cbv zeta. unfold main in Hmain.
  destruct (detectFramework fuel w cwd) as [[e|framework]|]; [| |discriminate].
  { injection Hmain as <-. split; [reflexivity|]. left. now exists e. }
  cbv zeta in Hmain. rewrite cli_bind_say in Hmain.
  assert (Hd : exists body,
             body ∈ [build_help; init_help; usage]
             /\ dispatch args cwd framework (componentFolder framework cwd w) w =
                  mkTrace (Returned tt) w [Message body]).
  { unfold dispatch.
    destruct (args_command args) as [command|]; [|exists usage; split; [do 2 apply list_elem_of_further; left|reflexivity]].
    destruct (String.eqb command "build") eqn:Hb.
    - apply String.eqb_eq in Hb as ->.
      destruct Hhelp as [->|[Hne _]]; [|congruence].
      exists build_help. split; [left|reflexivity].
    - destruct (String.eqb command "init") eqn:Hi.
      + apply String.eqb_eq in Hi as ->.
        destruct Hhelp as [->|[_ Hne]]; [|congruence].
        exists init_help. split; [apply list_elem_of_further; left|reflexivity].
      + exists usage. split; [do 2 apply list_elem_of_further; left|reflexivity]. }
  destruct Hd as (body & Hbody & Hd). rewrite Hd in Hmain.
  cbn [result files actions] in Hmain. injection Hmain as <-.
  split; [reflexivity|]. right. now exists body.
Qed.

(** X25: the framework is looked for before anything else, whatever the
    command: with a [package.json] that has no [dependencies] member, every
    run, also one for the help, ends with a TypeError before the greeting,
    having printed only the paths it tried. *)
Theorem every_command_needs_dependencies fuel args cwd w members :
  (parsePackageJson fuel w cwd).2 = Some (inr (JObject members)) ->
  own_member "dependencies" members = None ->
  main fuel args cwd w =
    Some (mkTrace (Thrown TypeError) w (List.map Console (parsePackageJson fuel w cwd).1)).
Proof.
  intros Hparse Hnone. unfold main.
  rewrite (detectFramework_parsed _ _ _ _ Hparse).
  unfold framework_of. cbn [get_member]. now rewrite Hnone.
Qed.

End InitFacts.

(** * The hint of the build and the proposals of the two commands *)

Lemma path_join_nested dir folder name :
  path_join dir (folder +:+ "/" +:+ name) = path_join (path_join dir folder) name.
Proof. unfold path_join. now rewrite !str_app_assoc. Qed.

Section Proposals.
Context `{Externals} `{Json} `{Terminal}.


(** X27: the proposals of [init] and [build] agree: when the user takes
    every proposal, the component that [init] writes reaches the sprite
    where [build] puts it: with next under [public/icons], otherwise in
    the folder [icons] next to the component, which imports
    [./icons/sprite.svg]. *)
Theorem proposals_agree args cwd framework folder w w' c file content :
  (forall message initialValue, text message initialValue = Answered initialValue) ->
  (forall name, path_join_cwd cwd name = path_join cwd name) ->
  given (js_or (args_o args) (args_output args)) = None ->
  args_spriteDir args = None ->
  result (build_options args cwd framework folder w) = Returned c ->
  Fs (WriteFile file content) ∈ actions (init args cwd framework folder w') ->
  content = typesFile
  \/ (if String.eqb framework "next" then
        spriteFilepath c = path_join cwd "public/icons/sprite.svg"
        /\ includes content ("const href = " +:+ dq +:+ "/icons/sprite.svg" +:+ dq) = true
      else
        spriteFilepath c = path_join (path_join (dirname file) "icons") "sprite.svg"
        /\ includes content ("import href from " +:+ dq +:+ "./icons/sprite.svg" +:+ dq)
           = true).
Proof.
  intros Htext Hjoin Ho Hs Hc Hin.
  assert (Hsprite : spriteFilepath c =
            path_join (path_join cwd (if String.eqb framework "next" then "public/icons"
                                      else folder +:+ "/icons")) "sprite.svg").
  { revert Hc. unfold build_options, text_prompt, confirm_prompt. rewrite Ho, Hs.
    destruct (given (js_or (args_i args) (args_input args))) as [input|];
      destruct (args_optimize args) as [optimize|];
      unfold cli_bind, say, cli_ret, cli_exit; cbn; rewrite ?Htext; cbn;
      rewrite ?Htext; cbn; answer_cases; try discriminate;
      intros [= <-]; unfold spriteFilepath; cbn [spriteDir]; now rewrite Hjoin. }
  destruct (init_types_result args cwd w')
    as [(_ & _ & Hanswer & _)|(types & Hres & _ & _ & _)].
  { rewrite Htext in Hanswer. discriminate. }
  rewrite (init_run _ _ _ _ _ _ Hres) in Hin. cbn [actions] in Hin.
  apply elem_of_app in Hin as [Hin|Hin].
  { left. destruct (init_types_cases args cwd w') as [_ Hcases]. cbv zeta in Hcases.
    destruct (given (js_or (args_t args) (args_types args)));
      [rewrite Hcases in Hin; now apply elem_of_nil in Hin|].
    destruct (stat w' (path_join cwd "tsconfig.json"));
      [|rewrite Hcases in Hin; now apply elem_of_nil in Hin].
    rewrite Htext in Hcases. destruct Hcases as (_ & _ & Hwrites).
    now destruct (Hwrites file content Hin). }
  right.
  destruct (init_component_cases args cwd framework folder types
              (files (init_types args cwd w')))
    as [(_ & Ht & _)|(output & Hout & [(w2 & ev & Hr & _ & Hw)
                                      |(command & w2 & _ & [Hr|Hr])])].
  { rewrite Htext in Ht. discriminate. }
  all: destruct Hout as [Hout|[_ Hout]]; [congruence|];
    rewrite Htext in Hout; injection Hout as <-;
    cbv zeta in Hr; rewrite Hr in Hin; cbn [actions] in Hin; split_in Hin;
    try discriminate;
    try (apply component_question_in in Hin as [_ Hin]; discriminate);
    try (now destruct (in_quiet_events _ _ Hin Hw) as (e & [= <-] & [=])).
  all: injection Hin as -> ->; rewrite Hsprite, Hjoin;
    destruct (String.eqb framework "next");
    [split; [symmetry; exact (path_join_nested cwd "public/icons" "sprite.svg")
            |destruct (bool_decide (is_Some types)); vm_compute; reflexivity]
    |split; [|destruct (bool_decide (is_Some types)); vm_compute; reflexivity]].
  all: set (ext := if bool_decide (is_Some types) then "tsx" else "jsx");
    change (folder +:+ "/Icon." +:+ ext) with (folder +:+ "/" +:+ ("Icon." +:+ ext));
    change (folder +:+ "/icons") with (folder +:+ "/" +:+ "icons");
    rewrite !path_join_nested, dirname_path_join;
    [reflexivity|subst ext; destruct (bool_decide (is_Some types)); reflexivity].
Qed.

End Proposals.

(** * Runs on the sample environment *)

#[local] Existing Instance sample_externals.


(** No file under [/proj/svg]. *)
Lemma build_without_input_witness :
  build sample_config sample_empty_dir =
    mkRun (Exited 1) sample_empty_dir [Cancel (NoSvgFilesFound "svg")].
Proof.
  apply (build_without_input sample_config sample_empty_dir).
  vm_compute. reflexivity.
Defined.


(** The two icons of the sample file system. *)
Lemma sprite_assembly_witness :
  value (sprite_output ["a.svg"; "b.svg"] "/proj/svg" false sample_state) =
    Returned (spec_sprite_document
                [toString (to_symbol "a.svg" icon_element);
                 toString (to_symbol "b.svg" icon_element)]).
Proof.
  apply (sprite_assembly ["a.svg"; "b.svg"] "/proj/svg" "/proj/icons/sprite.svg" sample_state).
  vm_compute. reflexivity.
Defined.

(** Two builds of the sample file system in a row. *)
Lemma build_twice_writes_nothing_witness :
  after (build sample_config (after (build sample_config sample_state))) =
    after (build sample_config sample_state)
  /\ existsb is_write
       (events (build sample_config (after (build sample_config sample_state)))) = false.
Proof.
  assert (Hfiles : discovered sample_config sample_state = ["a.svg"; "b.svg"])
    by (vm_compute; reflexivity).
  destruct (build_twice_writes_nothing sample_config sample_state) as (Hafter & Hnw & _).
  - vm_compute. reflexivity.
  - intros file Hin. rewrite Hfiles in Hin.
    apply elem_of_cons in Hin as [->|Hin]; [vm_compute; reflexivity|].
    apply elem_of_cons in Hin as [->|Hin]; [vm_compute; reflexivity|].
    now apply elem_of_nil in Hin.
  - split; assumption.
Defined.

(** The sample directory with a broken file in it. *)
Lemma malformed_svg_aborts_witness :
  contents (after (build sample_config sample_malformed_state)) =
    contents sample_malformed_state
  /\ existsb is_write (events (build sample_config sample_malformed_state)) = false.
Proof.
  destruct (malformed_svg_aborts sample_config sample_malformed_state
              "broken.svg" no_svg_text) as (_ & Hkept & Hnw & _).
  - vm_compute. apply elem_of_cons. right. apply elem_of_cons. now left.
  - vm_compute. reflexivity.
  - vm_compute. reflexivity.
  - split; assumption.
Defined.

(** Outputs that satisfy the checks for the only icon left. *)
Lemma up_to_date_short_circuit_witness :
  build sample_config unquoted_state =
    mkRun (Returned tt) (with_directory "/proj/icons" unquoted_state)
          [Mkdir "/proj/icons"; Info IconsUpToDate].
Proof.
  assert (Hfiles : discovered sample_config unquoted_state = ["a.svg"])
    by (vm_compute; reflexivity).
  apply (up_to_date_short_circuit sample_config unquoted_state).
  - intros name Hin. rewrite Hfiles in Hin. cbn [List.map] in Hin.
    apply elem_of_cons in Hin as [->|Hin]; [|now apply elem_of_nil in Hin].
    split; vm_compute; reflexivity.
  - rewrite Hfiles. discriminate.
  - intros a Hin. change (ancestors (outputDir sample_config))
      with [EmptyString; "/proj"; "/proj/icons"] in Hin.
    apply elem_of_cons in Hin as [->|Hin]; [vm_compute; reflexivity|].
    apply elem_of_cons in Hin as [->|Hin]; [vm_compute; reflexivity|].
    apply elem_of_cons in Hin as [->|Hin]; [vm_compute; reflexivity|].
    now apply elem_of_nil in Hin.
Defined.

(** The icon [b.svg] is gone; its symbol stays in the sprite file. *)
Lemma removed_icon_not_detected_witness :
  existsb is_write (events (build sample_config unquoted_state)) = false
  /\ includes (current (after (build sample_config unquoted_state))
                 "/proj/icons/sprite.svg") "<symbol id=b>" = true.
Proof.
  assert (Hfiles : discovered sample_config unquoted_state = ["a.svg"])
    by (vm_compute; reflexivity).
  destruct (removed_icon_not_detected sample_config unquoted_state "b.svg" "<symbol id=b>")
    as (_ & Hnw & _ & Hstays & _).
  - rewrite Hfiles. intros Hin.
    apply elem_of_cons in Hin as [Heq|Hin]; [discriminate|now apply elem_of_nil in Hin].
  - vm_compute. reflexivity.
  - intros name Hin. rewrite Hfiles in Hin. cbn [List.map] in Hin.
    apply elem_of_cons in Hin as [->|Hin]; [|now apply elem_of_nil in Hin].
    split; vm_compute; reflexivity.
  - split; assumption.
Defined.

(** The manifest of the two sample icons. *)
Lemma manifest_contract_witness :
  contents (after (build sample_config sample_state)) !! "/proj/icons/name.d.ts" =
    Some (spec_manifest ["a"; "b"]).
Proof.
  assert (Hnames : List.map iconName (discovered sample_config sample_state) = ["a"; "b"])
    by (vm_compute; reflexivity).
  destruct (manifest_contract sample_config sample_state)
    as (_ & _ & _ & _ & _ & _ & Hfile).
  rewrite Hnames in Hfile. apply Hfile; vm_compute; reflexivity.
Defined.




(** C3, as stated, fails when the up-to-date check holds: the only
    discovered file has no [svg] element, and the build returns normally,
    without parsing anything and without an error. *)
Lemma malformed_svg_counterexample :
  discovered sample_config corrupted_state = ["a.svg"]
  /\ contents corrupted_state !! path_join "/proj/svg" "a.svg" = Some no_svg_text
  /\ querySelector (parse no_svg_text) "svg" = None
  /\ build sample_config corrupted_state =
       mkRun (Returned tt) corrupted_state [Mkdir "/proj/icons"; Info IconsUpToDate].
Proof.
  repeat split; vm_compute; reflexivity.
Qed.

(** ** Runs for the further properties *)

(** A new file, written and then written again. *)
Lemma writeIfChanged_twice_witness :
  contents (after (writeIfChanged "/proj/svg/new.txt" "text" sample_empty_dir))
    !! "/proj/svg/new.txt" = Some "text"
  /\ writeIfChanged "/proj/svg/new.txt" "text"
       (after (writeIfChanged "/proj/svg/new.txt" "text" sample_empty_dir)) =
     mkRun (Returned false)
           (after (writeIfChanged "/proj/svg/new.txt" "text" sample_empty_dir)) [].
Proof.
  assert (Hret : value (writeIfChanged "/proj/svg/new.txt" "text" sample_empty_dir) =
                 Returned true) by (vm_compute; reflexivity).
  destruct (writeIfChanged_twice "/proj/svg/new.txt" "text" sample_empty_dir true Hret)
    as (_ & Hfile & Hagain).
  split; [now apply Hfile|exact Hagain].
Defined.

(** The two sample icons, with the optimizer of the sample environment,
    which returns its input. *)
Lemma generateSvgSprite_optimized_witness :
  value (sprite_output ["a.svg"; "b.svg"] "/proj/svg" true sample_state) =
    Returned (sprite_document [toString (to_symbol "a.svg" icon_element);
                               toString (to_symbol "b.svg" icon_element)]).
Proof.
  destruct (generateSvgSprite_optimized ["a.svg"; "b.svg"] "/proj/svg"
              "/proj/icons/sprite.svg" sample_state
              [toString (to_symbol "a.svg" icon_element);
               toString (to_symbol "b.svg" icon_element)]) as [Hdata _].
  - vm_compute. reflexivity.
  - apply (Hdata _ eq_refl).
Defined.

(** The first build of the sample file system writes and says so. *)
Lemma build_reports_changes_witness :
  existsb is_generated (events (build sample_config sample_state)) =
    existsb is_write (events (build sample_config sample_state)).
Proof.
  destruct (build_reports_changes sample_config sample_state) as [Hsame _].
  - vm_compute. reflexivity.
  - exact Hsame.
Defined.


(** A sprite that names [arrow-left] passes the check for [arrow] too. *)
Lemma sprite_check_accepts_prefixes_witness :
  spriteUpToDate ["arrow"; "arrow-left"] "<symbol id=arrow-left>" = true.
Proof.
  apply (sprite_check_accepts_prefixes ["arrow-left"] "arrow" "-left").
  - vm_compute. reflexivity.
  - apply elem_of_cons. now left.
Defined.

(** The manifest of the icons [a] and [b]. *)
Lemma own_manifest_passes_check_witness :
  typesUpToDate ["a"; "b"] (typeOutputContent ["a"; "b"]) = true.
Proof.
  apply (own_manifest_passes_check ["a"; "b"]). vm_compute. reflexivity.
Defined.

#[local] Existing Instance sample_json.

(** The sample file system has no [package.json]. *)
Lemma detectFramework_without_package_json_witness :
  (parsePackageJson 10 sample_state "/proj/svg").2 =
    Some (inl (JsError "Could not find package.json"))
  /\ detectFramework 10 sample_state "/proj/svg" = Some (inr "unknown").
Proof.
  apply (detectFramework_without_package_json sample_state "/proj/svg" 10).
  - intros k. destruct k as [|[|k]]; [vm_compute; reflexivity ..|].
    rewrite <- !parent_succ.
    change (dirname (dirname "/proj/svg")) with EmptyString.
    rewrite parent_root. vm_compute. reflexivity.
  - vm_compute. lia.
Defined.

(** The program runs in [/proj/app/ui], [package.json] is in [/proj]. *)
Lemma parsePackageJson_nearest_witness :
  (parsePackageJson 5 (project_state next_package_text) "/proj/app/ui").2 =
    Some (inr next_package)
  /\ detectFramework 5 (project_state next_package_text) "/proj/app/ui" =
       Some (framework_of next_package).
Proof.
  destruct (parsePackageJson_nearest (project_state next_package_text) "/proj/app/ui"
              2 next_package_text 5) as (Hparse & _ & Hfound).
  - intros j Hj. destruct j as [|[|j]]; [split; vm_compute; [reflexivity|discriminate] ..|lia].
  - vm_compute. reflexivity.
  - vm_compute. discriminate.
  - lia.
  - split; [exact Hparse|]. apply Hfound. vm_compute. reflexivity.
Defined.

(** An empty [package.json] in [/proj]. *)
Lemma parsePackageJson_empty_file_loops_witness :
  (parsePackageJson 1000 (project_state EmptyString) "/proj/app/ui").2 = None
  /\ detectFramework 1000 (project_state EmptyString) "/proj/app/ui" = None.
Proof.
  apply (parsePackageJson_empty_file_loops (project_state EmptyString) "/proj/app/ui" 2).
  - intros j Hj. destruct j as [|[|j]]; [split; vm_compute; [reflexivity|discriminate] ..|lia].
  - vm_compute. reflexivity.
Defined.

(** A [package.json] that holds scripts only. *)
Lemma detectFramework_needs_dependencies_witness :
  detectFramework 5 (project_state scripts_package_text) "/proj/app/ui" =
    Some (inl TypeError).
Proof.
  apply (detectFramework_needs_dependencies 5 (project_state scripts_package_text)
           "/proj/app/ui" [("scripts", JObject [])]).
  - vm_compute. reflexivity.
  - left. vm_compute. reflexivity.
Defined.

(** Dependencies that name next and vite. *)
Lemma detectFramework_next_first_witness :
  detectFramework 5 (project_state next_package_text) "/proj/app/ui" = Some (inr "next").
Proof.
  apply (detectFramework_next_first 5 (project_state next_package_text) "/proj/app/ui"
           [("dependencies", JObject [("next", JString "14.0.0"); ("vite", JString "5.0.0")])]
           [("next", JString "14.0.0"); ("vite", JString "5.0.0")]).
  - vm_compute. reflexivity.
  - vm_compute. reflexivity.
  - vm_compute. reflexivity.
Defined.

(** Development dependencies that name vite and remix. *)
Lemma detectFramework_dev_dependencies_witness :
  detectFramework 5 (project_state dev_package_text) "/proj/app/ui" =
    Some (inr (if truthy (own_member "vite" [("vite", JString "5.0.0");
                                             ("remix", JString "2.0.0")])
               then "vite" else "unknown")).
Proof.
  apply (detectFramework_dev_dependencies 5 (project_state dev_package_text) "/proj/app/ui"
           [("dependencies", JObject []);
            ("devDependencies", JObject [("vite", JString "5.0.0"); ("remix", JString "2.0.0")])]
           []
           [("vite", JString "5.0.0"); ("remix", JString "2.0.0")]);
    vm_compute; reflexivity.
Defined.

#[local] Existing Instance sample_terminal.

(** The question about the optimisation is cancelled. *)
Lemma build_cancelled_changes_nothing_witness :
  result (build_command build_arguments "/proj" "unknown" "components/ui" sample_state)
    = Exited 1
  /\ files (build_command build_arguments "/proj" "unknown" "components/ui" sample_state)
     = sample_state
  /\ existsb is_fs
       (actions (build_command build_arguments "/proj" "unknown" "components/ui" sample_state))
     = false.
Proof.
  apply (build_cancelled_changes_nothing build_arguments "/proj" "unknown" "components/ui"
           sample_state).
  vm_compute. reflexivity.
Defined.

(** The same run ends with the code 1. *)
Lemma build_exits_with_one_witness :
  1 = 1
  /\ (existsb was_cancelled
        (actions (build_command build_arguments "/proj" "unknown" "components/ui" sample_state))
      = true
      \/ existsb is_no_svg
           (actions (build_command build_arguments "/proj" "unknown" "components/ui"
                       sample_state))
         = true).
Proof.
  apply (build_exits_with_one build_arguments "/proj" "unknown" "components/ui"
           sample_state 1).
  vm_compute. reflexivity.
Defined.

(** The types are placed by a flag. *)
Lemma init_types_flag_stores_no_types_witness :
  types_question ∉
    actions (init init_types_arguments "/proj" "unknown" "components/ui" sample_state).
Proof.
  destruct (init_types_flag_stores_no_types init_types_arguments "/proj" "unknown"
              "components/ui" sample_state "types/icon-name.d.ts") as [Hasked _].
  - vm_compute. reflexivity.
  - exact Hasked.
Defined.

(** The installation of the same run. *)
Lemma init_installs_after_component_witness :
  exists pm,
    pm ∈ package_managers
    /\ "npm install --save clsx tailwind-merge" = pm +:+ " clsx tailwind-merge".
Proof.
  destruct (init_installs_after_component init_types_arguments "/proj" "unknown"
              "components/ui" sample_state "npm install --save clsx tailwind-merge")
    as (before & rest & file & content & pm & _ & _ & _ & _ & Hpm & Hcommand).
  - apply list_elem_of_In. vm_compute. do 3 right. left. reflexivity.
  - now exists pm.
Defined.

(** The component is sent to [/proj/svg], which is a directory. *)
Lemma init_exits_with_one_witness :
  result (init init_directory_arguments "/proj" "unknown" "components/ui" sample_state)
    = Exited 1
  /\ existsb is_exec
       (actions (init init_directory_arguments "/proj" "unknown" "components/ui"
                   sample_state)) = false.
Proof.
  assert (Hexit : result (init init_directory_arguments "/proj" "unknown" "components/ui"
                            sample_state) = Exited 1)
    by (vm_compute; reflexivity).
  split; [exact Hexit|].
  exact (proj1 (proj2 (init_exits_with_one init_directory_arguments "/proj" "unknown"
                         "components/ui" sample_state 1 Hexit))).
Defined.


(** The sample file system has no [tsconfig.json]. *)
Lemma init_without_typescript_witness :
  occurrences "IconName" (iconFileJs href_import) = 1%nat.
Proof.
  destruct (init_without_typescript init_arguments "/proj" "unknown" "components/ui"
              sample_state) as (_ & _ & _ & Honce).
  - vm_compute. reflexivity.
  - vm_compute. reflexivity.
  - exact Honce.
Defined.

(** The help of [build], in a project of next. *)
Lemma help_changes_nothing_witness :
  exists r,
    main 5 help_arguments "/proj/app/ui" (project_state next_package_text) = Some r
    /\ files r = project_state next_package_text.
Proof.
  destruct (main 5 help_arguments "/proj/app/ui" (project_state next_package_text))
    as [r|] eqn:Hmain; [|vm_compute in Hmain; discriminate].
  exists r. split; [reflexivity|].
  apply (help_changes_nothing 5 help_arguments "/proj/app/ui"
           (project_state next_package_text) r Hmain).
  left. reflexivity.
Defined.

(** The help of [build], with a [package.json] that holds scripts only. *)
Lemma every_command_needs_dependencies_witness :
  main 5 help_arguments "/proj/app/ui" (project_state scripts_package_text) =
    Some (mkTrace (Thrown TypeError) (project_state scripts_package_text)
            (List.map Console
               (parsePackageJson 5 (project_state scripts_package_text) "/proj/app/ui").1)).
Proof.
  apply (every_command_needs_dependencies 5 help_arguments "/proj/app/ui"
           (project_state scripts_package_text) [("scripts", JObject [])]).
  - vm_compute. reflexivity.
  - vm_compute. reflexivity.
Defined.


(** Every proposal of the two commands is taken, in a project of
    TypeScript. *)
Lemma proposals_agree_witness :
  spriteFilepath (mkConfig "/proj/other/svg-icons" "other/svg-icons"
                           "/proj/components/ui/icons" "/proj/components/ui/icons"
                           false false)
    = path_join (path_join (dirname "/proj/components/ui/Icon.tsx") "icons") "sprite.svg".
Proof.
  destruct (@proposals_agree accepting_terminal bare_arguments "/proj" "unknown"
              "components/ui" sample_state typescript_state
              (mkConfig "/proj/other/svg-icons" "other/svg-icons"
                        "/proj/components/ui/icons" "/proj/components/ui/icons"
                        false false)
              "/proj/components/ui/Icon.tsx" (iconFileTs href_import))
    as [Htypes|[Hsprite _]].
  - reflexivity.
  - reflexivity.
  - reflexivity.
  - reflexivity.
  - vm_compute. reflexivity.
  - apply list_elem_of_In. vm_compute. do 5 right. left. reflexivity.
  - vm_compute in Htypes. discriminate.
  - exact Hsprite.
Defined.
